(** * Backtest replay and execution simulation of valuecell

    A shallow embedding of

    - [agents/common/trading/data/backtest.py]       ([BacktestDataSource]),
    - [agents/common/trading/data/stock_backtest.py] ([StockBacktestDataSource]),
    - [agents/common/trading/execution/stock_paper_trading.py]
      ([is_us_market_open], [StockPaperExecutionGateway]),
    - [agents/common/trading/_internal/runtime.py]
      ([StrategyRuntime.get_current_timestamp_ms], [create_strategy_runtime]),

    and the properties of the specification that concern them.

    Number model.  Python [int] is [Z].  Prices, quantities and fees are
    Python floats that come from outside (provider, planner,
    configuration); they are binary64 values, [PrimFloat.float], and the
    gateway's arithmetic and comparisons are the IEEE ones.  The progress
    percentage is computed from two integers; it is modelled by its exact
    rational value in [Q] (the float Python returns is that value up to
    rounding, and rounding to nearest keeps the order and the constants 0
    and 100).

    Outside world.  Provider replies, the Eastern wall clock and the live
    price lookup are inputs of the model (section variables). *)

From Stdlib Require Import ZArith QArith Qminmax Floats Lia Ascii String.
From stdpp Require Import base option list gmap strings sorting.

Set Default Proof Using "Type".

Local Open Scope Z_scope.

(** ** Python built-ins used by the sources *)

Module Py.

(** [l[start:]]: a negative [start] counts from the end, and both ends
    are clamped to the list. *)
Definition slice_from {A} (start : Z) (l : list A) : list A :=
  let n := Z.of_nat (length l) in
  let i := if start <? 0 then Z.max (start + n) 0 else Z.min start n in
  drop (Z.to_nat i) l.

(** Truthiness of a list. *)
Definition truthy_list {A} (l : list A) : bool :=
  match l with [] => false | _ => true end.

(** [sorted(l, key=...)] with integer keys.  Python's sort is stable, and
    the stable sorted rearrangement of a list is unique, so a stable
    insertion sort computes the same list. *)
Fixpoint insert_by {A} (key : A -> Z) (x : A) (l : list A) : list A :=
  match l with
  | [] => [x]
  | y :: l' => if key x <=? key y then x :: l else y :: insert_by key x l'
  end.

Definition sorted {A} (key : A -> Z) (l : list A) : list A :=
  foldr (insert_by key) [] l.

(** Order of two entries by their keys, and a list in which every pair of
    adjacent entries is in that order. *)
Definition key_le {A} (key : A -> Z) (a b : A) : Prop := key a <= key b.

Definition adjacent_sorted {A} (key : A -> Z) (l : list A) : Prop :=
  forall (i : nat) (a b : A), l !! i = Some a -> l !! S i = Some b -> key a <= key b.

(** [x or y] on floats: [x] unless it is falsy, that is [0.0] or [-0.0]
    ([nan] is truthy). *)
Definition truthy_float (x : float) : bool := negb (PrimFloat.eqb x 0%float).

(** [min(a, b)] on exact values: [b] only when [b < a]. *)
Definition min (a b : Q) : Q := if Qlt_le_dec b a then b else a.

End Py.

(** ** Data model *)

(** Modelled from the spec: [models.py] ([InstrumentRef], [Candle]) is not
    among the sources; the fields are those the constructor calls in
    [_fetch_symbol] pass, with the types of section 3 of the specification. *)
Record InstrumentRef := mkInstrumentRef {
  symbol : string;
  exchange_id : string;
}.

Record Candle := mkCandle {
  ts : Z;
  instrument : InstrumentRef;
  open : float;
  high : float;
  low : float;
  close : float;
  volume : float;
  interval : string;
}.

(** The dictionary [get_market_snapshot] stores under ["price"] for a
    symbol ([MarketSnapShotType] maps a symbol to it); the crypto source
    writes no ["volume"] key. *)
Module Price.
Record t := mk {
  symbol : string;
  timestamp : Z;
  last : float;
  close : float;
  open : float;
  high : float;
  low : float;
  volume : option float;
}.
End Price.

(** How a call ends: it returns a value or it raises.  (A call that may
    also run for ever, the pagination loop, takes fuel and gives [None]
    when the fuel runs out first.) *)
Inductive outcome (A : Type) : Type :=
| Returned (a : A)
| Raised.
Arguments Returned {A} a.
Arguments Raised {A}.

(** [try: ... return candles / except Exception: ... return []] *)
Definition caught {A} (r : outcome (list A)) : list A :=
  match r with Returned candles => candles | Raised => [] end.

(** String helpers of [_normalize_symbol]. *)
Module PyStr.

Fixpoint replace_char (a b : ascii) (s : string) : string :=
  match s with
  | EmptyString => EmptyString
  | String c s' => String (if Ascii.eqb c a then b else c) (replace_char a b s')
  end.

Fixpoint contains_char (a : ascii) (s : string) : bool :=
  match s with
  | EmptyString => false
  | String c s' => Ascii.eqb c a || contains_char a s'
  end.

(** [s.split(sep)] for a one-character separator. *)
Fixpoint split_char (sep : ascii) (s : string) : list string :=
  match s with
  | EmptyString => [EmptyString]
  | String c s' =>
      if Ascii.eqb c sep then EmptyString :: split_char sep s'
      else match split_char sep s' with
           | [] => [String c EmptyString]
           | p :: ps => String c p :: ps
           end
  end.

End PyStr.

(** ** [backtest.py]: the crypto data source *)

Module BacktestDataSource.

Record State := mkState {
  _exchange_id : string;
  _symbols : list string;
  _start_ts : Z;
  _end_ts : Z;
  _current_ts : Z;
  _candle_cache : gmap string (gmap string (list Candle));
  _snapshot_cache : gmap string (gmap string Candle);
  _is_preloaded : bool;
}.

Definition set_current_ts (s : State) (t : Z) : State :=
  mkState (_exchange_id s) (_symbols s) (_start_ts s) (_end_ts s) t
          (_candle_cache s) (_snapshot_cache s) (_is_preloaded s).

Definition set_candle_cache (s : State)
    (c : gmap string (gmap string (list Candle))) : State :=
  mkState (_exchange_id s) (_symbols s) (_start_ts s) (_end_ts s)
          (_current_ts s) c (_snapshot_cache s) (_is_preloaded s).

Definition set_is_preloaded (s : State) (b : bool) : State :=
  mkState (_exchange_id s) (_symbols s) (_start_ts s) (_end_ts s)
          (_current_ts s) (_candle_cache s) (_snapshot_cache s) b.

(** Two states of one object agree on the fields that no method assigns
    after construction. *)
Definition same_setup (s s' : State) : Prop :=
  _exchange_id s' = _exchange_id s /\ _symbols s' = _symbols s /\
  _start_ts s' = _start_ts s /\ _end_ts s' = _end_ts s.

(** [__init__]: [exchange_id or "okx"]; the clock starts at [start_ts];
    both caches are empty. *)
Definition __init__ (exchange_id : string) (symbols : list string)
    (start_ts end_ts : Z) : State :=
  {| _exchange_id := if String.eqb exchange_id EmptyString then "okx" else exchange_id;
     _symbols := symbols;
     _start_ts := start_ts;
     _end_ts := end_ts;
     _current_ts := start_ts;
     _candle_cache := ∅;
     _snapshot_cache := ∅;
     _is_preloaded := false |}.

Definition _normalize_symbol (symbol : string) : string :=
  let base_symbol := PyStr.replace_char "-"%char "/"%char symbol in
  if negb (PyStr.contains_char ":"%char base_symbol) then
    match PyStr.split_char "/"%char base_symbol with
    | [p0; p1] => (p0 +:+ "/" +:+ p1 +:+ ":" +:+ p1)%string
    | _ => base_symbol
    end
  else base_symbol.

(** *** The simulated clock *)

Definition advance_time (s : State) (interval_ms : Z) : State :=
  set_current_ts s (_current_ts s + interval_ms).

Definition is_finished (s : State) : bool :=
  _end_ts s <=? _current_ts s.

Definition get_progress_pct (s : State) : Q :=
  if _end_ts s <=? _start_ts s then 100%Q
  else
    let elapsed := _current_ts s - _start_ts s in
    let total := _end_ts s - _start_ts s in
    Py.min 100%Q ((inject_Z elapsed / inject_Z total) * 100)%Q.

Definition get_current_ts (s : State) : Z := _current_ts s.

Definition reset (s : State) : State := set_current_ts s (_start_ts s).

(** *** Queries on the cache *)

(** [self._candle_cache.get(symbol, {}).get(interval, [])] *)
Definition cached (s : State) (sym itv : string) : list Candle :=
  default [] (default ∅ (_candle_cache s !! sym) !! itv).

(** Every series stored in the cache is in ascending order of timestamp. *)
Definition cache_sorted (s : State) : Prop :=
  forall (sym itv : string) (m : gmap string (list Candle)) (series : list Candle),
    _candle_cache s !! sym = Some m -> m !! itv = Some series ->
    Py.adjacent_sorted ts series.

Definition get_recent_candles (s : State) (symbols : list string)
    (itv : string) (lookback : Z) : list Candle :=
  foldl (fun result sym =>
           let candles := cached s sym itv in
           let available :=
             filter (fun c => ts c <= _current_ts s) candles in
           result ++ (if Py.truthy_list available
                      then Py.slice_from (- lookback) available
                      else []))
        [] symbols.

(** The entry written for [symbol] from the candle [latest]. *)
Definition price_entry (sym : string) (latest : Candle) : Price.t :=
  {| Price.symbol := sym;
     Price.timestamp := ts latest;
     Price.last := close latest;
     Price.close := close latest;
     Price.open := open latest;
     Price.high := high latest;
     Price.low := low latest;
     Price.volume := None |}.

(** [get_market_snapshot]: for each symbol in turn, the entry of
    [available[-1]] when [available], the one-minute candles at or
    before the clock, is not empty. *)
Definition get_market_snapshot (s : State) (symbols : list string)
    : gmap string Price.t :=
  foldl (fun snapshot sym =>
           let candles := cached s sym "1m" in
           let available :=
             filter (fun c => ts c <= _current_ts s) candles in
           match last available with
           | Some latest => <[sym := price_entry sym latest]> snapshot
           | None => snapshot
           end)
        ∅ symbols.

(** Every candle in the cache sits under its own symbol and interval,
    belongs to a configured symbol and to the source's exchange, and is
    not later than [end_ts]. *)
Definition cache_labelled (s : State) : Prop :=
  forall (sym itv : string) (m : gmap string (list Candle)) (series : list Candle)
         (c : Candle),
    _candle_cache s !! sym = Some m -> m !! itv = Some series -> c ∈ series ->
    sym ∈ _symbols s /\ symbol (instrument c) = sym /\
    exchange_id (instrument c) = _exchange_id s /\ interval c = itv /\
    ts c <= _end_ts s.

(** *** Preloading *)

(** One row of [fetch_ohlcv]: [(ts, open, high, low, close, vol)]. *)
Record ohlcv_row := mkRow {
  row_ts : Z;
  row_open : float;
  row_high : float;
  row_low : float;
  row_close : float;
  row_vol : float;
}.

(** A reply of the provider to one request: a page of rows, or an
    exception (a row that cannot be unpacked or converted raises as well,
    inside the same [try]). *)
Inductive fetch_reply :=
| FetchRaises
| FetchRows (raw : list ohlcv_row).

Section Preload.

(** The exchange client (CCXT) is not part of the repository:
    [fetch_ohlcv nsym timeframe since n] is the reply to request number
    [n] of the client that [_fetch_symbol] creates, asked for
    [timeframe] candles of [nsym] from [since] on (with [limit=1000]). *)
Variable fetch_ohlcv : string -> string -> Z -> nat -> fetch_reply.

(** [utils.get_exchange_cls] is not among the sources:
    [exchange_known id] tells whether looking up and constructing the
    client of exchange [id] returns (it raises otherwise, outside the
    [try] of [_fetch_symbol]). *)
Variable exchange_known : string -> bool.

Definition to_candle (s : State) (sym itv : string) (row : ohlcv_row) : Candle :=
  {| ts := row_ts row;
     instrument := {| symbol := sym; exchange_id := _exchange_id s |};
     open := row_open row;
     high := row_high row;
     low := row_low row;
     close := row_close row;
     volume := row_vol row;
     interval := itv |}.

(** The [for row in raw] loop: rows are appended up to the first one
    with [ts > end_ts], where the loop breaks. *)
Fixpoint page_candles (s : State) (sym itv : string)
    (raw : list ohlcv_row) : list Candle :=
  match raw with
  | [] => []
  | row :: raw' =>
      if _end_ts s <? row_ts row then []
      else to_candle s sym itv row :: page_candles s sym itv raw'
  end.

(** The [while raw] loop of [_fetch_symbol], entered with the page
    [raw], the candles collected so far and the number [n] of the next
    request.  [None]: the loop is still running when the fuel ends. *)
Fixpoint paginate (fuel : nat) (s : State) (sym itv : string) (n : nat)
    (raw : list ohlcv_row) (candles : list Candle)
    : option (outcome (list Candle)) :=
  match fuel with
  | O => None
  | S fuel' =>
      match last raw with
      | None => Some (Returned candles)
      | Some last_row =>
          let candles := candles ++ page_candles s sym itv raw in
          if _end_ts s <=? row_ts last_row then Some (Returned candles)
          else
            let last_ts := row_ts last_row in
            match fetch_ohlcv (_normalize_symbol sym) itv (last_ts + 1) n with
            | FetchRaises => Some Raised
            | FetchRows raw' => paginate fuel' s sym itv (S n) raw' candles
            end
      end
  end.

(** The provider honours [since]: the last row of a page is not older than
    the [since] the page was asked for. *)
Definition honours_since : Prop :=
  forall nsym itv since n raw last_row,
    fetch_ohlcv nsym itv since n = FetchRows raw ->
    last raw = Some last_row -> since <= row_ts last_row.

(** The body of the [try] in [_fetch_symbol]. *)
Definition fetch_pages (fuel : nat) (s : State) (sym itv : string)
    : option (outcome (list Candle)) :=
  match fetch_ohlcv (_normalize_symbol sym) itv (_start_ts s) 0%nat with
  | FetchRaises => Some Raised
  | FetchRows raw => paginate fuel s sym itv 1%nat raw []
  end.

(** [_fetch_symbol]: the client is created outside the [try]; any
    exception inside it is logged and turned into [[]]. *)
Definition _fetch_symbol (fuel : nat) (s : State) (itv sym : string)
    : option (outcome (list Candle)) :=
  if exchange_known (_exchange_id s) then
    match fetch_pages fuel s sym itv with
    | None => None
    | Some r => Some (Returned (caught r))
    end
  else Some Raised.

(** [asyncio.gather] over the tasks: the results in task order; an
    exception of a task is raised to the caller; with no exception, the
    call returns once every task has. *)
Fixpoint gather {A} (tasks : list (option (outcome A)))
    : option (outcome (list A)) :=
  match tasks with
  | [] => Some (Returned [])
  | t :: tasks' =>
      match t, gather tasks' with
      | Some Raised, _ => Some Raised
      | _, Some Raised => Some Raised
      | Some (Returned a), Some (Returned l) => Some (Returned (a :: l))
      | _, _ => None
      end
  end.

(** The value a task of the pass returned ([[]] stands in when it did not
    return). *)
Definition task_result (t : option (outcome (list Candle))) : list Candle :=
  match t with Some (Returned cs) => cs | _ => [] end.

(** [self._candle_cache[symbol][interval] = sorted(candles, key=...)]
    on the nested [defaultdict]. *)
Definition store (itv : string) (s : State) (entry : string * list Candle) : State :=
  let '(sym, candles) := entry in
  set_candle_cache s
    (<[sym := <[itv := Py.sorted ts candles]> (default ∅ (_candle_cache s !! sym))]>
       (_candle_cache s)).

Definition _preload_interval (fuel : nat) (s : State) (itv : string)
    : option (outcome State) :=
  match gather (map (_fetch_symbol fuel s itv) (_symbols s)) with
  | None => None
  | Some Raised => Some Raised
  | Some (Returned results) =>
      Some (Returned (foldl (store itv) s (zip (_symbols s) results)))
  end.

(** The [for interval in intervals] loop.  An exception leaves the
    state as the earlier passes made it. *)
Fixpoint preload_intervals (fuel : nat) (s : State) (intervals : list string)
    : option (outcome unit * State) :=
  match intervals with
  | [] => Some (Returned tt, s)
  | itv :: rest =>
      match _preload_interval fuel s itv with
      | None => None
      | Some Raised => Some (Raised, s)
      | Some (Returned s') => preload_intervals fuel s' rest
      end
  end.

(** [intervals or ["1m"]] *)
Definition intervals_or_default (intervals : option (list string)) : list string :=
  match intervals with
  | None | Some [] => ["1m"]%string
  | Some l => l
  end.

(** [preload_data]: the flag is set after the last pass.  The result pairs
    how the call ended with the state it left. *)
Definition preload_data (fuel : nat) (s : State)
    (intervals : option (list string)) : option (outcome unit * State) :=
  if _is_preloaded s then Some (Returned tt, s)
  else
    let intervals := intervals_or_default intervals in
    match preload_intervals fuel s intervals with
    | None => None
    | Some (Raised, s') => Some (Raised, s')
    | Some (Returned _, s') => Some (Returned tt, set_is_preloaded s' true)
    end.

(** *** Histories of a data source

    The calls a driver can make.  A query ([get_recent_candles],
    [get_market_snapshot], [is_finished], [get_progress_pct],
    [get_current_ts]) returns a value and leaves the object as it is. *)
Inductive op :=
| AdvanceTime (interval_ms : Z)
| Reset
| Preload (intervals : option (list string))
| Query.

Inductive step : State -> op -> State -> Prop :=
| step_advance_time s d : step s (AdvanceTime d) (advance_time s d)
| step_reset s : step s Reset (reset s)
| step_preload s fuel ivs r s' :
    preload_data fuel s ivs = Some (r, s') -> step s (Preload ivs) s'
| step_query s : step s Query s.

Inductive run : State -> list op -> State -> Prop :=
| run_nil s : run s [] s
| run_cons s o s' os s'' : step s o s' -> run s' os s'' -> run s (o :: os) s''.

(** An operation that does not ask the clock to go back. *)
Definition forward (o : op) : Prop :=
  match o with
  | AdvanceTime d => 0 <= d
  | _ => True
  end.

End Preload.

End BacktestDataSource.

(** ** [stock_backtest.py]: the daily equity data source *)

Module StockBacktestDataSource.

Record State := mkState {
  _symbols : list string;
  _start_ts : Z;
  _end_ts : Z;
  _current_ts : Z;
  _candle_cache : gmap string (gmap string (list Candle));
  _is_preloaded : bool;
}.

Definition set_current_ts (s : State) (t : Z) : State :=
  mkState (_symbols s) (_start_ts s) (_end_ts s) t
          (_candle_cache s) (_is_preloaded s).

Definition set_candle_cache (s : State)
    (c : gmap string (gmap string (list Candle))) : State :=
  mkState (_symbols s) (_start_ts s) (_end_ts s) (_current_ts s) c
          (_is_preloaded s).

Definition set_is_preloaded (s : State) (b : bool) : State :=
  mkState (_symbols s) (_start_ts s) (_end_ts s) (_current_ts s)
          (_candle_cache s) b.

(** Two states of one object agree on the fields that no method assigns
    after construction. *)
Definition same_setup (s s' : State) : Prop :=
  _symbols s' = _symbols s /\ _start_ts s' = _start_ts s /\ _end_ts s' = _end_ts s.

Definition __init__ (symbols : list string) (start_ts end_ts : Z) : State :=
  {| _symbols := symbols;
     _start_ts := start_ts;
     _end_ts := end_ts;
     _current_ts := start_ts;
     _candle_cache := ∅;
     _is_preloaded := false |}.

(** *** Time management methods (identical to [BacktestDataSource]) *)

Definition advance_time (s : State) (interval_ms : Z) : State :=
  set_current_ts s (_current_ts s + interval_ms).

Definition is_finished (s : State) : bool :=
  _end_ts s <=? _current_ts s.

Definition get_progress_pct (s : State) : Q :=
  if _end_ts s <=? _start_ts s then 100%Q
  else
    let elapsed := _current_ts s - _start_ts s in
    let total := _end_ts s - _start_ts s in
    Py.min 100%Q ((inject_Z elapsed / inject_Z total) * 100)%Q.

Definition get_current_ts (s : State) : Z := _current_ts s.

Definition reset (s : State) : State := set_current_ts s (_start_ts s).

(** *** Queries on the cache *)

Definition cached (s : State) (sym itv : string) : list Candle :=
  default [] (default ∅ (_candle_cache s !! sym) !! itv).

(** Every series stored in the cache is in ascending order of timestamp. *)
Definition cache_sorted (s : State) : Prop :=
  forall (sym itv : string) (m : gmap string (list Candle)) (series : list Candle),
    _candle_cache s !! sym = Some m -> m !! itv = Some series ->
    Py.adjacent_sorted ts series.

Definition get_recent_candles (s : State) (symbols : list string)
    (itv : string) (lookback : Z) : list Candle :=
  foldl (fun result sym =>
           let candles := cached s sym itv in
           let available :=
             filter (fun c => ts c <= _current_ts s) candles in
           result ++ (if Py.truthy_list available
                      then Py.slice_from (- lookback) available
                      else []))
        [] symbols.

(** The entry written for [symbol] from the candle [latest]. *)
Definition price_entry (sym : string) (latest : Candle) : Price.t :=
  {| Price.symbol := sym;
     Price.timestamp := ts latest;
     Price.last := close latest;
     Price.close := close latest;
     Price.open := open latest;
     Price.high := high latest;
     Price.low := low latest;
     Price.volume := Some (volume latest) |}.

(** [get_market_snapshot]: as in [BacktestDataSource], on the daily
    candles. *)
Definition get_market_snapshot (s : State) (symbols : list string)
    : gmap string Price.t :=
  foldl (fun snapshot sym =>
           let candles := cached s sym "1d" in
           let available :=
             filter (fun c => ts c <= _current_ts s) candles in
           match last available with
           | Some latest => <[sym := price_entry sym latest]> snapshot
           | None => snapshot
           end)
        ∅ symbols.

(** Every candle in the cache sits under its own symbol and interval,
    belongs to a configured symbol, names YFinance as its exchange and is
    not later than [end_ts]. *)
Definition cache_labelled (s : State) : Prop :=
  forall (sym itv : string) (m : gmap string (list Candle)) (series : list Candle)
         (c : Candle),
    _candle_cache s !! sym = Some m -> m !! itv = Some series -> c ∈ series ->
    sym ∈ _symbols s /\ symbol (instrument c) = sym /\
    exchange_id (instrument c) = "yfinance"%string /\ interval c = itv /\
    ts c <= _end_ts s.

(** *** Preloading *)

(** One row of the frame [ticker.history] returns: the index value as
    [int(idx.timestamp() * 1000)] and the five columns read. *)
Record history_row := mkRow {
  row_ts : Z;
  row_Open : float;
  row_High : float;
  row_Low : float;
  row_Close : float;
  row_Volume : float;
}.

(** The frame ([[]] for [None] or an empty one), or an exception:
    of the import, of the call, or of a conversion while iterating,
    all inside the same [try]. *)
Inductive history_reply :=
| HistoryRaises
| HistoryRows (data : list history_row).

Section Preload.

(** [ticker.history(start=, end=, interval=)] of YFinance for the
    normalized symbol. *)
Variable history : string -> string -> string -> string -> history_reply.

(** [datetime.fromtimestamp(ms / 1000, tz=utc).strftime("%Y-%m-%d")];
    it raises for a timestamp outside the years [datetime] supports. *)
Variable date_str : Z -> outcome string.

(** [str.upper]. *)
Variable upper : string -> string.

Definition _normalize_symbol (sym : string) : string :=
  let sym :=
    if PyStr.contains_char "-"%char sym
    then List.hd sym (PyStr.split_char "-"%char sym)
    else sym in
  upper sym.

Definition interval_map : gmap string string :=
  list_to_map [("1m", "1m"); ("5m", "5m"); ("15m", "15m"); ("30m", "30m");
               ("1h", "1h"); ("1d", "1d"); ("1w", "1wk"); ("1M", "1mo")]%string.

Definition to_candle (sym itv : string) (row : history_row) : Candle :=
  {| ts := row_ts row;
     instrument := {| symbol := sym; exchange_id := "yfinance" |};
     open := row_Open row;
     high := row_High row;
     low := row_Low row;
     close := row_Close row;
     volume := row_Volume row;
     interval := itv |}.

(** The [for idx, row in data.iterrows()] loop, with its [break]. *)
Fixpoint frame_candles (s : State) (sym itv : string)
    (data : list history_row) : list Candle :=
  match data with
  | [] => []
  | row :: data' =>
      if _end_ts s <? row_ts row then []
      else to_candle sym itv row :: frame_candles s sym itv data'
  end.

(** The body of the [try] in [_fetch_symbol]. *)
Definition fetch_frame (s : State) (itv start_str end_str yf_interval sym : string)
    : outcome (list Candle) :=
  match history (_normalize_symbol sym) start_str end_str yf_interval with
  | HistoryRaises => Raised
  | HistoryRows data => Returned (frame_candles s sym itv data)
  end.

Definition _fetch_symbol (s : State) (itv start_str end_str yf_interval sym : string)
    : list Candle :=
  caught (fetch_frame s itv start_str end_str yf_interval sym).

Definition store (itv : string) (s : State) (entry : string * list Candle) : State :=
  let '(sym, candles) := entry in
  set_candle_cache s
    (<[sym := <[itv := Py.sorted ts candles]> (default ∅ (_candle_cache s !! sym))]>
       (_candle_cache s)).

(** The two date conversions come first and are not guarded; every
    task of the [gather] returns. *)
Definition _preload_interval (s : State) (itv : string) : outcome State :=
  let yf_interval := default "1d"%string (interval_map !! itv) in
  match date_str (_start_ts s), date_str (_end_ts s) with
  | Returned start_str, Returned end_str =>
      let results :=
        map (_fetch_symbol s itv start_str end_str yf_interval) (_symbols s) in
      Returned (foldl (store itv) s (zip (_symbols s) results))
  | _, _ => Raised
  end.

Fixpoint preload_intervals (s : State) (intervals : list string)
    : outcome unit * State :=
  match intervals with
  | [] => (Returned tt, s)
  | itv :: rest =>
      match _preload_interval s itv with
      | Raised => (Raised, s)
      | Returned s' => preload_intervals s' rest
      end
  end.

(** [intervals or ["1d"]] *)
Definition intervals_or_default (intervals : option (list string)) : list string :=
  match intervals with
  | None | Some [] => ["1d"]%string
  | Some l => l
  end.

Definition preload_data (s : State) (intervals : option (list string))
    : outcome unit * State :=
  if _is_preloaded s then (Returned tt, s)
  else
    let intervals := intervals_or_default intervals in
    match preload_intervals s intervals with
    | (Raised, s') => (Raised, s')
    | (Returned _, s') => (Returned tt, set_is_preloaded s' true)
    end.

(** *** Histories of a data source

    The calls a driver can make.  A query ([get_recent_candles],
    [get_market_snapshot], [is_finished], [get_progress_pct],
    [get_current_ts]) returns a value and leaves the object as it is. *)
Inductive op :=
| AdvanceTime (interval_ms : Z)
| Reset
| Preload (intervals : option (list string))
| Query.

Inductive step : State -> op -> State -> Prop :=
| step_advance_time s d : step s (AdvanceTime d) (advance_time s d)
| step_reset s : step s Reset (reset s)
| step_preload s ivs r s' :
    preload_data s ivs = (r, s') -> step s (Preload ivs) s'
| step_query s : step s Query s.

Inductive run : State -> list op -> State -> Prop :=
| run_nil s : run s [] s
| run_cons s o s' os s'' : step s o s' -> run s' os s'' -> run s (o :: os) s''.

(** An operation that does not ask the clock to go back. *)
Definition forward (o : op) : Prop :=
  match o with
  | AdvanceTime d => 0 <= d
  | _ => True
  end.

End Preload.

End StockBacktestDataSource.

(** ** The progress formula of the specification

    Section 4.2 in its own words, to compare [get_progress_pct] with:
    [clamp(100 * (current_ts - start_ts) / (end_ts - start_ts), 0, 100)],
    and 100 when [end_ts <= start_ts]. *)

Module Spec.



End Spec.

(** ** [stock_paper_trading.py]: the execution simulator *)

(** Modelled from the spec: [models.py] ([TradeSide], [TxStatus],
    [TradeInstruction], [TxResult]) is not among the sources; the records
    have the fields that [execute] reads and passes, optional where
    section 3 of the specification says so. *)
Inductive TradeSide := BUY | SELL.

(** The two members of [TxStatus] that [execute] produces. *)
Inductive TxStatus := FILLED | REJECTED.

Module TradeInstruction.
Record t := mk {
  instruction_id : string;
  instrument : InstrumentRef;
  side : option TradeSide;
  action : option string;
  quantity : float;
  max_slippage_bps : option float;
  leverage : option float;
  meta : option (gmap string string);
}.
End TradeInstruction.

Module TxResult.
Record t := mk {
  instruction_id : string;
  instrument : InstrumentRef;
  side : TradeSide;
  requested_qty : float;
  filled_qty : float;
  avg_exec_price : option float;
  slippage_bps : option float;
  fee_cost : option float;
  leverage : option float;
  status : TxStatus;
  reason : option string;
  meta : option (gmap string string);
}.
End TxResult.

(** [datetime.now(eastern)], as far as it is read: [weekday()] (Monday is
    0) and the fields of [time()]. *)
Record datetime := mkDatetime {
  weekday : Z;
  hour : Z;
  minute : Z;
  second : Z;
  microsecond : Z;
}.

Module StockPaperTrading.

Local Open Scope float_scope.

(** Comparison of two [datetime.time] values: lexicographic on hour,
    minute, second, microsecond. *)
Definition time_key (h m sec us : Z) : list Z := [h; m; sec; us].

Fixpoint lex_leb (a b : list Z) : bool :=
  match a, b with
  | [], _ => true
  | _ :: _, [] => false
  | x :: a', y :: b' => (x <? y)%Z || ((x =? y)%Z && lex_leb a' b')
  end.

Definition is_us_market_open (now : datetime) : bool :=
  if (5 <=? weekday now)%Z then false
  else
    let market_open := time_key 9 30 0 0 in
    let market_close := time_key 16 0 0 0 in
    let current_time :=
      time_key (hour now) (minute now) (second now) (microsecond now) in
    lex_leb market_open current_time && lex_leb current_time market_close.

(** A reading of the clock is well formed when its fields are in the
    ranges of [datetime]; [micros_of_day] is its time of day in
    microseconds since midnight. *)
Definition valid_datetime (now : datetime) : Prop :=
  (0 <= weekday now <= 6 /\ 0 <= hour now < 24 /\ 0 <= minute now < 60 /\
   0 <= second now < 60 /\ 0 <= microsecond now < 1000000)%Z.

Definition micros_of_day (now : datetime) : Z :=
  (((hour now * 60 + minute now) * 60 + second now) * 1000000 + microsecond now)%Z.

Record Gateway := mkGateway {
  _fee_bps : float;
  _fee_per_share : float;
  _slippage_bps : float;
  _enforce_market_hours : bool;
  executed : list TradeInstruction.t;
}.

Definition __init__ (fee_bps fee_per_share slippage_bps : float)
    (enforce_market_hours : bool) : Gateway :=
  {| _fee_bps := fee_bps;
     _fee_per_share := fee_per_share;
     _slippage_bps := slippage_bps;
     _enforce_market_hours := enforce_market_hours;
     executed := [] |}.

(** [ticker.fast_info], as far as it is read. *)
Record fast_info := mkFastInfo {
  last_price : option float;
  regular_market_price : option float;
  last_close : option float;
}.

(** [a or b] on optional floats: [a] when it is a truthy float. *)
Definition or_else (a b : option float) : option float :=
  match a with
  | Some x => if Py.truthy_float x then a else b
  | None => b
  end.

Section Execute.

(** The outside world at the [k]-th instruction of a call of [execute]:
    the Eastern wall clock, the [Close] column of the one-minute
    history of a ticker ([[]] for no frame or an empty one) and its
    [fast_info] ([None] when absent or falsy); the two YFinance calls
    return or raise. *)
Variable now_eastern : nat -> datetime.
Variable ticker_history : nat -> string -> outcome (list float).
Variable ticker_fast_info : nat -> string -> outcome (option fast_info).

(** [str.upper]. *)
Variable upper : string -> string.

(** [models.derive_side_from_action] and [utils.extract_price_map] are
    not among the sources. *)
Variable derive_side_from_action : option string -> option TradeSide.
Variable FeatureVector : Type.
Variable extract_price_map : list FeatureVector -> gmap string float.

Definition _get_current_price (k : nat) (sym : string) : option float :=
  let normalized :=
    if PyStr.contains_char "-"%char sym
    then upper (List.hd sym (PyStr.split_char "-"%char sym))
    else upper sym in
  match ticker_history k normalized with
  | Raised => None
  | Returned closes =>
      match last closes with
      | Some c => Some c
      | None =>
          match ticker_fast_info k normalized with
          | Raised => None
          | Returned None => None
          | Returned (Some fi) =>
              match or_else (or_else (last_price fi) (regular_market_price fi))
                            (last_close fi) with
              | Some price => if Py.truthy_float price then Some price else None
              | None => None
              end
          end
      end
  end.

(** [ref_price is None or ref_price <= 0]; after the fallback the price
    is a float and only the comparison is left. *)
Definition no_price (ref_price : option float) : bool :=
  match ref_price with
  | None => true
  | Some p => PrimFloat.leb p 0
  end.

(** [float(price_map.get(symbol, 0.0) or 0.0)] *)
Definition fallback_price (price_map : gmap string float) (sym : string) : float :=
  let p := default 0 (price_map !! sym) in
  if Py.truthy_float p then p else 0.

(** The order goes on past the market-hours check. *)
Definition gate_passes (g : Gateway) (k : nat) : Prop :=
  _enforce_market_hours g = false \/ is_us_market_open (now_eastern k) = true.

(** The price the fill is computed from: the live price, or the fallback
    when that is [None] or at or below zero. *)
Definition reference_price (price_map : gmap string float) (k : nat)
    (sym : string) : float :=
  let ref_price := _get_current_price k sym in
  if no_price ref_price then fallback_price price_map sym
  else default 0 ref_price.

(** [inst.side or derive_side_from_action(inst.action) or TradeSide.BUY];
    the members of [TradeSide] are truthy. *)
Definition resolve_side (inst : TradeInstruction.t) : TradeSide :=
  match TradeInstruction.side inst with
  | Some sd => sd
  | None =>
      match derive_side_from_action (TradeInstruction.action inst) with
      | Some sd => sd
      | None => BUY
      end
  end.

(** [float(inst.max_slippage_bps or self._slippage_bps)] *)
Definition effective_slippage_bps (g : Gateway) (inst : TradeInstruction.t) : float :=
  match TradeInstruction.max_slippage_bps inst with
  | Some o => if Py.truthy_float o then o else _slippage_bps g
  | None => _slippage_bps g
  end.

(** The body of the [for inst in instructions] loop, for the
    instruction at position [k]. *)
Definition execute_one (g : Gateway) (price_map : gmap string float)
    (k : nat) (inst : TradeInstruction.t) : TxResult.t :=
  let sym := symbol (TradeInstruction.instrument inst) in
  let side := resolve_side inst in
  if _enforce_market_hours g && negb (is_us_market_open (now_eastern k)) then
    {| TxResult.instruction_id := TradeInstruction.instruction_id inst;
       TxResult.instrument := TradeInstruction.instrument inst;
       TxResult.side := side;
       TxResult.requested_qty := TradeInstruction.quantity inst;
       TxResult.filled_qty := 0;
       TxResult.avg_exec_price := None;
       TxResult.slippage_bps := None;
       TxResult.fee_cost := None;
       TxResult.leverage := None;
       TxResult.status := REJECTED;
       TxResult.reason := Some "market_closed"%string;
       TxResult.meta := TradeInstruction.meta inst |}
  else
    let ref_price := reference_price price_map k sym in
    if PrimFloat.leb ref_price 0 then
      {| TxResult.instruction_id := TradeInstruction.instruction_id inst;
         TxResult.instrument := TradeInstruction.instrument inst;
         TxResult.side := side;
         TxResult.requested_qty := TradeInstruction.quantity inst;
         TxResult.filled_qty := 0;
         TxResult.avg_exec_price := None;
         TxResult.slippage_bps := None;
         TxResult.fee_cost := None;
         TxResult.leverage := None;
         TxResult.status := REJECTED;
         TxResult.reason := Some "no_price_data"%string;
         TxResult.meta := TradeInstruction.meta inst |}
    else
      let slip_bps := effective_slippage_bps g inst in
      let slip := slip_bps / 10000 in
      let exec_price :=
        match side with
        | BUY => ref_price * (1 + slip)
        | SELL => ref_price * (1 - slip)
        end in
      let qty := TradeInstruction.quantity inst in
      let notional := exec_price * qty in
      let fee_cost :=
        notional * (_fee_bps g / 10000) + qty * _fee_per_share g in
      {| TxResult.instruction_id := TradeInstruction.instruction_id inst;
         TxResult.instrument := TradeInstruction.instrument inst;
         TxResult.side := side;
         TxResult.requested_qty := qty;
         TxResult.filled_qty := qty;
         TxResult.avg_exec_price := Some exec_price;
         TxResult.slippage_bps :=
           if PrimFloat.ltb 0 slip_bps then Some slip_bps else None;
         TxResult.fee_cost :=
           if PrimFloat.ltb 0 fee_cost then Some fee_cost else None;
         TxResult.leverage := TradeInstruction.leverage inst;
         TxResult.status := FILLED;
         TxResult.reason := None;
         TxResult.meta := TradeInstruction.meta inst |}.

(** [execute]: the gateway after the call (its [executed] log) and the
    results, one per instruction, in order. *)
Definition execute (g : Gateway) (instructions : list TradeInstruction.t)
    (market_features : option (list FeatureVector))
    : Gateway * list TxResult.t :=
  match instructions with
  | [] => (g, [])
  | _ =>
      let price_map := extract_price_map (default [] market_features) in
      (mkGateway (_fee_bps g) (_fee_per_share g) (_slippage_bps g)
                 (_enforce_market_hours g) (executed g ++ instructions),
       imap (execute_one g price_map) instructions)
  end.

(** [test_connection]: [price is not None and price > 0] for the live
    price of ["AAPL"]; [k] is the moment of the call. *)
Definition test_connection (k : nat) : bool :=
  match _get_current_price k "AAPL" with
  | Some price => PrimFloat.ltb 0 price
  | None => false
  end.

End Execute.

End StockPaperTrading.

(** ** [_internal/runtime.py]: where a data source is created and its clock read *)

(** Modelled from the spec: [models.py] ([TradingMode], [AssetClass],
    [UserRequest] with its two configurations) is not among the sources.
    [TradingMode] has the backtest mode of section 4.5 of the specification
    and the two modes the docstring of [get_current_timestamp_ms] names;
    [AssetClass] has [STOCK], which [create_strategy_runtime] tests for, and
    the crypto class of the other branch.  The records have the fields that
    [runtime.py] reads on the way to the data source. *)
Inductive TradingMode := LIVE | VIRTUAL | BACKTEST.

Inductive AssetClass := CRYPTO | STOCK.

Module ExchangeConfig.
Record t := mk {
  exchange_id : option string;
  trading_mode : TradingMode;
  asset_class : AssetClass;
}.
End ExchangeConfig.

Module TradingConfig.
Record t := mk {
  symbols : list string;
  backtest_start_ts : option Z;
  backtest_end_ts : option Z;
}.
End TradingConfig.

Module UserRequest.
Record t := mk {
  exchange_config : ExchangeConfig.t;
  trading_config : TradingConfig.t;
}.
End UserRequest.

Module Runtime.

(** [Optional[BacktestDataSource | StockBacktestDataSource]] *)
Inductive data_source :=
| Crypto (s : BacktestDataSource.State)
| Stock (s : StockBacktestDataSource.State).

Definition get_current_ts (ds : data_source) : Z :=
  match ds with
  | Crypto s => BacktestDataSource.get_current_ts s
  | Stock s => StockBacktestDataSource.get_current_ts s
  end.

Definition is_finished (ds : data_source) : bool :=
  match ds with
  | Crypto s => BacktestDataSource.is_finished s
  | Stock s => StockBacktestDataSource.is_finished s
  end.

Definition get_progress_pct (ds : data_source) : Q :=
  match ds with
  | Crypto s => BacktestDataSource.get_progress_pct s
  | Stock s => StockBacktestDataSource.get_progress_pct s
  end.

Definition advance_time (ds : data_source) (interval_ms : Z) : data_source :=
  match ds with
  | Crypto s => Crypto (BacktestDataSource.advance_time s interval_ms)
  | Stock s => Stock (StockBacktestDataSource.advance_time s interval_ms)
  end.

Definition get_market_snapshot (ds : data_source) (symbols : list string)
    : gmap string Price.t :=
  match ds with
  | Crypto s => BacktestDataSource.get_market_snapshot s symbols
  | Stock s => StockBacktestDataSource.get_market_snapshot s symbols
  end.

(** [not ts] for an optional integer: [None] and [0] are falsy. *)
Definition falsy_ts (t : option Z) : bool :=
  match t with
  | None => true
  | Some t => t =? 0
  end.

(** [x or "okx"] for an optional string. *)
Definition or_okx (x : option string) : string :=
  match x with
  | None => "okx"
  | Some e => if String.eqb e EmptyString then "okx" else e
  end.

Section Create.

(** The providers of the two data sources. *)
Variable fetch_ohlcv : string -> string -> Z -> nat -> BacktestDataSource.fetch_reply.
Variable exchange_known : string -> bool.
Variable history : string -> string -> string -> string
                   -> StockBacktestDataSource.history_reply.
Variable date_str : Z -> outcome string.
Variable upper : string -> string.

(** The coordinator and what builds it are not among the sources.
    [gateway_created request] tells whether [_create_execution_gateway]
    returns (it raises otherwise); [generated_id] is the value of
    [generate_uuid("strategy")]; [build_coordinator request strategy_id ds]
    stands for everything from the portfolio set-up to the coordinator,
    which is given the request, the identifier and the data source and
    returns the coordinator or raises. *)
Variable Coordinator : Type.
Variable gateway_created : UserRequest.t -> bool.
Variable generated_id : string.
Variable build_coordinator :
  UserRequest.t -> string -> option data_source -> outcome Coordinator.

Record StrategyRuntime := mkStrategyRuntime {
  request : UserRequest.t;
  strategy_id : string;
  coordinator : Coordinator;
  backtest_data_source : option data_source;
}.

(** [get_current_timestamp_ms]: the simulated clock when a data source is
    attached and the mode is [BACKTEST]; otherwise [now_ms], the value of
    [utils.ts.get_current_timestamp_ms()] at the call. *)
Definition get_current_timestamp_ms (rt : StrategyRuntime) (now_ms : Z) : Z :=
  match backtest_data_source rt,
        ExchangeConfig.trading_mode (UserRequest.exchange_config (request rt)) with
  | Some ds, BACKTEST => get_current_ts ds
  | _, _ => now_ms
  end.

(** The block of [create_strategy_runtime] that creates and preloads the
    data source: the value of [backtest_data_source] after it, unless it
    raises ([None]: the preload is still running when the fuel ends). *)
Definition backtest_block (fuel : nat) (req : UserRequest.t)
    : option (outcome (option data_source)) :=
  let ec := UserRequest.exchange_config req in
  let tc := UserRequest.trading_config req in
  match ExchangeConfig.trading_mode ec with
  | BACKTEST =>
      let start_ts := TradingConfig.backtest_start_ts tc in
      let end_ts := TradingConfig.backtest_end_ts tc in
      if falsy_ts start_ts || falsy_ts end_ts then Some Raised
      else
        match start_ts, end_ts with
        | Some start_ts, Some end_ts =>
            if end_ts <=? start_ts then Some Raised
            else
              match ExchangeConfig.asset_class ec with
              | STOCK =>
                  let ds := StockBacktestDataSource.__init__
                              (TradingConfig.symbols tc) start_ts end_ts in
                  match StockBacktestDataSource.preload_data history date_str upper
                          ds (Some ["1d"]%string) with
                  | (Raised, _) => Some Raised
                  | (Returned _, ds') => Some (Returned (Some (Stock ds')))
                  end
              | CRYPTO =>
                  let exchange_id := or_okx (ExchangeConfig.exchange_id ec) in
                  let ds := BacktestDataSource.__init__ exchange_id
                              (TradingConfig.symbols tc) start_ts end_ts in
                  match BacktestDataSource.preload_data fetch_ohlcv exchange_known
                          fuel ds (Some ["1m"]%string) with
                  | None => None
                  | Some (Raised, _) => Some Raised
                  | Some (Returned _, ds') => Some (Returned (Some (Crypto ds')))
                  end
              end
        | _, _ => Some Raised
        end
  | _ => Some (Returned None)
  end.

(** [strategy_id_override or generate_uuid("strategy")] *)
Definition choose_strategy_id (strategy_id_override : option string) : string :=
  match strategy_id_override with
  | None => generated_id
  | Some i => if String.eqb i EmptyString then generated_id else i
  end.

Definition create_strategy_runtime (fuel : nat) (req : UserRequest.t)
    (strategy_id_override : option string) : option (outcome StrategyRuntime) :=
  if gateway_created req then
    let strategy_id := choose_strategy_id strategy_id_override in
    match backtest_block fuel req with
    | None => None
    | Some Raised => Some Raised
    | Some (Returned ds) =>
        match build_coordinator req strategy_id ds with
        | Raised => Some Raised
        | Returned c =>
            Some (Returned {| request := req;
                              strategy_id := strategy_id;
                              coordinator := c;
                              backtest_data_source := ds |})
        end
    end
  else Some Raised.

End Create.

(** A data source as [create_strategy_runtime] leaves it for the request:
    of the kind the asset class asks for, with the symbols and the range
    of the request, preloaded, and with its clock at the start. *)
Definition as_created (req : UserRequest.t) (start_ts end_ts : Z)
    (ds : data_source) : Prop :=
  let ec := UserRequest.exchange_config req in
  let tc := UserRequest.trading_config req in
  match ds with
  | Crypto s =>
      ExchangeConfig.asset_class ec = CRYPTO /\
      BacktestDataSource._exchange_id s = or_okx (ExchangeConfig.exchange_id ec) /\
      BacktestDataSource._symbols s = TradingConfig.symbols tc /\
      BacktestDataSource._start_ts s = start_ts /\
      BacktestDataSource._end_ts s = end_ts /\
      BacktestDataSource._current_ts s = start_ts /\
      BacktestDataSource._is_preloaded s = true
  | Stock s =>
      ExchangeConfig.asset_class ec = STOCK /\
      StockBacktestDataSource._symbols s = TradingConfig.symbols tc /\
      StockBacktestDataSource._start_ts s = start_ts /\
      StockBacktestDataSource._end_ts s = end_ts /\
      StockBacktestDataSource._current_ts s = start_ts /\
      StockBacktestDataSource._is_preloaded s = true
  end.

End Runtime.

(** ** Short names and a small scenario

    Two symbols per data source, one of which the provider fails for; the
    rows come out of order to exercise the sort.  An instruction for a
    ticker with a live price, one for a ticker without any, and a clock
    that shows a Wednesday at 10:00 first and a Saturday afterwards. *)

Module B := BacktestDataSource.
Module S := StockBacktestDataSource.
Module G := StockPaperTrading.

Module Fixture.

Definition row (t : Z) : B.ohlcv_row := B.mkRow t 1 2 0.5 1.5 10.

Definition fetch_ohlcv (nsym timeframe : string) (since : Z) (n : nat)
    : B.fetch_reply :=
  if String.eqb nsym "BAD/USDT:USDT" then B.FetchRaises
  else match n with
       | O => B.FetchRows [row 30; row 10; row 20]
       | _ => B.FetchRows []
       end.

Definition exchange_known (id : string) : bool := String.eqb id "okx".

Definition crypto : B.State :=
  B.__init__ "okx" ["BTC-USDT"; "BAD-USDT"]%string 0 100.

(** The crypto source after its preload, and then with the clock at 25. *)
Definition crypto_loaded : B.State :=
  match B.preload_data fetch_ohlcv exchange_known 2 crypto None with
  | Some (_, s) => s
  | None => crypto
  end.

Definition crypto_at_25 : B.State := B.advance_time crypto_loaded 25.

Definition day (t : Z) : S.history_row := S.mkRow t 1 2 0.5 1.5 10.

Definition history (nsym start_str end_str yf_interval : string)
    : S.history_reply :=
  if String.eqb nsym "BAD" then S.HistoryRaises
  else S.HistoryRows [day 30; day 10; day 20].

Definition date_str (t : Z) : outcome string := Returned "1970-01-01"%string.

(** The symbols of the scenario are in upper case already. *)
Definition upper (s : string) : string := s.

Definition stock : S.State := S.__init__ ["QQQ"; "BAD"]%string 0 100.

Definition stock_loaded : S.State :=
  (S.preload_data history date_str upper stock None).2.

Definition now_eastern (k : nat) : datetime :=
  match k with
  | O => mkDatetime 2 10 0 0 0
  | _ => mkDatetime 5 10 0 0 0
  end.

Definition ticker_history (k : nat) (sym : string) : outcome (list float) :=
  Returned (if String.eqb sym "AAPL" then [99.5; 100]%float else []).

Definition ticker_fast_info (k : nat) (sym : string)
    : outcome (option G.fast_info) :=
  Returned None.

Definition derive_side_from_action (a : option string) : option TradeSide :=
  match a with
  | Some a => if String.eqb a "sell" then Some SELL else None
  | None => None
  end.

Definition extract_price_map (features : list (string * float)) : gmap string float :=
  list_to_map features.

Definition buy_aapl : TradeInstruction.t :=
  TradeInstruction.mk "i1" (mkInstrumentRef "AAPL" "yfinance") (Some BUY) None
                      2%float None None None.

(** An order whose side is to be derived from its action. *)
Definition sell_aapl : TradeInstruction.t :=
  TradeInstruction.mk "i3" (mkInstrumentRef "AAPL" "yfinance") None (Some "sell"%string)
                      2%float None None None.

Definition buy_unknown : TradeInstruction.t :=
  TradeInstruction.mk "i2" (mkInstrumentRef "ZZZ" "yfinance") None None
                      1%float None None None.

Definition gateway : G.Gateway := G.__init__ 10 0 10 true.

(** A request for a crypto backtest from 1000 to 2000 on the default
    exchange. *)
Definition backtest_request : UserRequest.t :=
  UserRequest.mk (ExchangeConfig.mk None BACKTEST CRYPTO)
                 (TradingConfig.mk ["BTC-USDT"]%string (Some 1000) (Some 2000)).

End Fixture.


(** * Properties *)

(** ** Facts about the Python built-ins *)

Module PyFacts.

Lemma slice_from_elem {A} (k : Z) (l : list A) (x : A) :
  x ∈ Py.slice_from k l -> x ∈ l.
Proof.
  unfold Py.slice_from. intros Hx.
  rewrite <- (take_drop (Z.to_nat
    (if k <? 0 then Z.max (k + Z.of_nat (length l)) 0
     else Z.min k (Z.of_nat (length l)))) l).
  apply elem_of_app. by right.
Qed.

(** [l[-0:]] is [l[0:]], the whole list. *)
Lemma slice_from_zero {A} (l : list A) : Py.slice_from (- 0) l = l.
Proof.
  unfold Py.slice_from. change (- 0) with 0.
  replace (Z.min 0 (Z.of_nat (length l))) with 0 by lia.
  reflexivity.
Qed.

(** [l[-k:]] for [k >= 1]: the last [k] entries (all of them when the
    list is shorter). *)
Lemma slice_from_last {A} (k : Z) (l : list A) :
  1 <= k -> Py.slice_from (- k) l = drop (length l - Z.to_nat k) l.
Proof.
  intros Hk. unfold Py.slice_from.
  destruct (Z.ltb_spec (- k) 0) as [_|]; [|lia].
  f_equal. lia.
Qed.

(** The guard [if available else []] changes nothing: the slice of an empty
    list is empty. *)
Lemma truthy_list_slice {A} (k : Z) (l : list A) :
  (if Py.truthy_list l then Py.slice_from k l else []) = Py.slice_from k l.
Proof. destruct l; [|done]. unfold Py.slice_from. by rewrite drop_nil. Qed.

(** A loop that extends [result] once per entry concatenates the pieces. *)
Lemma foldl_extend_bind {A B} (f : B -> list A) (l : list B) (acc : list A) :
  foldl (fun result x => result ++ f x) acc l = acc ++ (l ≫= f).
Proof.
  revert acc. induction l as [|x l IH]; intros acc; csimpl.
  - by rewrite app_nil_r.
  - by rewrite IH, app_assoc.
Qed.

Section Sorted.
Context {A : Type} (key : A -> Z).

Lemma insert_by_Permutation (x : A) (l : list A) :
  Py.insert_by key x l ≡ₚ x :: l.
Proof.
  induction l as [|y l IH]; simpl; [done|].
  destruct (key x <=? key y); [done|].
  rewrite IH. apply Permutation_swap.
Qed.

Lemma sorted_Permutation (l : list A) : Py.sorted key l ≡ₚ l.
Proof.
  induction l as [|x l IH]; simpl; [done|].
  unfold Py.sorted in IH. by rewrite insert_by_Permutation, IH.
Qed.

Lemma insert_by_StronglySorted (x : A) (l : list A) :
  StronglySorted (Py.key_le key) l -> StronglySorted (Py.key_le key) (Py.insert_by key x l).
Proof.
  induction 1 as [|y l Hl IH Hy]; simpl.
  - repeat constructor.
  - destruct (Z.leb_spec (key x) (key y)) as [Hxy|Hxy].
    + constructor; [by constructor|].
      constructor; [done|].
      eapply Forall_impl; [exact Hy|]. unfold Py.key_le. intros; simpl in *; lia.
    + constructor; [done|].
      rewrite insert_by_Permutation. constructor; [|done].
      unfold Py.key_le. lia.
Qed.

Lemma sorted_StronglySorted (l : list A) : StronglySorted (Py.key_le key) (Py.sorted key l).
Proof.
  induction l as [|x l IH]; simpl; [constructor|].
  by apply insert_by_StronglySorted.
Qed.

Lemma StronglySorted_adjacent (l : list A) :
  StronglySorted (Py.key_le key) l -> Py.adjacent_sorted key l.
Proof.
  intros Hl i. revert l Hl.
  induction i as [|i IH]; intros l Hl a b Ha Hb.
  - destruct l as [|x [|y l]]; simplify_eq/=.
    apply StronglySorted_inv in Hl as [_ Hx].
    by apply Forall_cons in Hx as [Hx _].
  - destruct l as [|x l]; simplify_eq/=.
    apply StronglySorted_inv in Hl as [Hl _]. by eapply IH.
Qed.

Lemma sorted_adjacent (l : list A) : Py.adjacent_sorted key (Py.sorted key l).
Proof. apply StronglySorted_adjacent, sorted_StronglySorted. Qed.

(** The sort is stable: entries with equal keys keep their order, so the
    result restricted to one key is the input restricted to it. *)
Lemma insert_by_filter_key (k : Z) (x : A) (l : list A) :
  StronglySorted (Py.key_le key) l ->
  filter (fun a => key a = k) (Py.insert_by key x l)
  = filter (fun a => key a = k) (x :: l).
Proof.
  induction 1 as [|y l Hl IH Hy]; simpl; [done|].
  destruct (Z.leb_spec (key x) (key y)) as [Hxy|Hxy]; [done|].
  rewrite !filter_cons, IH, !filter_cons.
  destruct (decide (key y = k)), (decide (key x = k)); try done.
  exfalso; lia.
Qed.

Lemma sorted_stable (k : Z) (l : list A) :
  filter (fun a => key a = k) (Py.sorted key l) = filter (fun a => key a = k) l.
Proof.
  induction l as [|x l IH]; simpl; [done|].
  rewrite insert_by_filter_key by apply sorted_StronglySorted.
  rewrite !filter_cons. unfold Py.sorted in IH.
  destruct (decide (key x = k)); [f_equal|]; exact IH.
Qed.

End Sorted.

End PyFacts.

(** ** Facts about the progress expression *)

Module ProgressFacts.





(** [elapsed / total * 100.0], as a function of [elapsed]. *)
Local Abbreviation ratio_pct elapsed total :=
  (inject_Z elapsed / inject_Z total * 100)%Q.


Lemma ratio_pct_zero (t : Z) : (ratio_pct 0 t == 0)%Q.
Proof. unfold Qdiv. by rewrite !Qmult_0_l. Qed.



End ProgressFacts.

(** ** The crypto data source *)

Module BacktestFacts.
Import BacktestDataSource.

Lemma is_finished_iff (s : State) : is_finished s = true <-> _end_ts s <= _current_ts s.
Proof. unfold is_finished. apply Z.leb_le. Qed.

Lemma is_finished_false_iff (s : State) :
  is_finished s = false <-> _current_ts s < _end_ts s.
Proof. unfold is_finished. apply Z.leb_gt. Qed.

Lemma get_recent_candles_concat (s : State) (symbols : list string) (itv : string)
    (lookback : Z) :
  get_recent_candles s symbols itv lookback
  = symbols ≫= (fun sym =>
      let available := filter (fun c => ts c <= _current_ts s) (cached s sym itv) in
      if Py.truthy_list available then Py.slice_from (- lookback) available else []).
Proof. unfold get_recent_candles. by rewrite PyFacts.foldl_extend_bind. Qed.

Lemma get_recent_candles_no_lookahead (s : State) (symbols : list string)
    (itv : string) (lookback : Z) (c : Candle) :
  c ∈ get_recent_candles s symbols itv lookback -> ts c <= _current_ts s.
Proof.
  rewrite get_recent_candles_concat. intros Hc.
  apply list_elem_of_bind in Hc as (sym & Hc & _). simpl in Hc.
  destruct (Py.truthy_list _); [|by apply elem_of_nil in Hc].
  apply PyFacts.slice_from_elem in Hc.
  by apply list_elem_of_filter in Hc as [Hc _].
Qed.

(** *** The progress percentage *)


Lemma get_progress_pct_running (s : State) :
  _start_ts s < _end_ts s ->
  get_progress_pct s
  = Py.min 100%Q (inject_Z (_current_ts s - _start_ts s)
                  / inject_Z (_end_ts s - _start_ts s) * 100)%Q.
Proof.
  intros H. unfold get_progress_pct.
  by destruct (Z.leb_spec (_end_ts s) (_start_ts s)); [lia|].
Qed.





(** *** The stores of a pass *)

Lemma store_fields (itv : string) (s : State) (e : string * list Candle) :
  same_setup s (store itv s e) /\
  _current_ts (store itv s e) = _current_ts s /\
  _is_preloaded (store itv s e) = _is_preloaded s.
Proof. by destruct e. Qed.

Lemma foldl_store_fields (itv : string) (es : list (string * list Candle)) (s : State) :
  same_setup s (foldl (store itv) s es) /\
  _current_ts (foldl (store itv) s es) = _current_ts s /\
  _is_preloaded (foldl (store itv) s es) = _is_preloaded s.
Proof.
  revert s. induction es as [|e es IH]; intros s; simpl; [done|].
  destruct (IH (store itv s e)) as ((? & ? & ? & ?) & ? & ?).
  destruct (store_fields itv s e) as ((? & ? & ? & ?) & ? & ?).
  unfold same_setup. repeat split; congruence.
Qed.

Lemma cached_store (itv : string) (s : State) (sym : string) (cs : list Candle)
    (sym' itv' : string) :
  cached (store itv s (sym, cs)) sym' itv'
  = if decide (sym = sym' /\ itv = itv') then Py.sorted ts cs else cached s sym' itv'.
Proof.
  unfold cached, store, set_candle_cache; cbn [_candle_cache].
  case_decide as H.
  - destruct H as [-> ->]. rewrite lookup_insert_eq. simpl.
    by rewrite lookup_insert_eq.
  - destruct (decide (sym = sym')) as [->|Hsym].
    + rewrite lookup_insert_eq. simpl.
      rewrite lookup_insert_ne; [done|]. intros ->. by apply H.
    + by rewrite lookup_insert_ne.
Qed.

Lemma cached_foldl_store (itv : string) (f : string -> list Candle)
    (syms : list string) (s : State) (sym' itv' : string) :
  cached (foldl (store itv) s (zip syms (map f syms))) sym' itv'
  = if decide (sym' ∈ syms /\ itv = itv') then Py.sorted ts (f sym')
    else cached s sym' itv'.
Proof.
  revert s. induction syms as [|x syms IH]; intros s; cbn [map zip zip_with foldl].
  - case_decide as H; [|done]. destruct H as [H _]. by apply elem_of_nil in H.
  - rewrite IH, cached_store. clear IH.
    destruct (decide (sym' ∈ syms /\ itv = itv')) as [H1|H1],
             (decide (sym' ∈ x :: syms /\ itv = itv')) as [H2|H2],
             (decide (x = sym' /\ itv = itv')) as [H3|H3];
      rewrite ?elem_of_cons in *; try done;
      first [ by destruct H3 as [-> _]
            | exfalso; destruct H2 as [[->|?] ->]; tauto
            | exfalso; destruct H3 as [-> ->]; tauto
            | exfalso; tauto ].
Qed.

Lemma gather_returned {A} (tasks : list (option (outcome A))) (results : list A) :
  gather tasks = Some (Returned results) ->
  tasks = map (fun a => Some (Returned a)) results.
Proof.
  revert results. induction tasks as [|t tasks IH]; intros results; simpl.
  - intros; by simplify_eq.
  - destruct t as [[a|]|], (gather tasks) as [[l|]|]; intros; simplify_eq.
    simpl. f_equal. by apply IH.
Qed.

Lemma gather_results (h : string -> option (outcome (list Candle)))
    (syms : list string) (results : list (list Candle)) :
  gather (map h syms) = Some (Returned results) ->
  results = map (fun sym => task_result (h sym)) syms.
Proof.
  intros H%gather_returned.
  apply (f_equal (map task_result)) in H.
  rewrite !map_map in H. rewrite H. symmetry. exact (map_id results).
Qed.

Lemma store_cache_sorted (itv : string) (s : State) (e : string * list Candle) :
  cache_sorted s -> cache_sorted (store itv s e).
Proof.
  destruct e as [sym cs]. intros Hs sym' itv' m series.
  unfold store, set_candle_cache; cbn [_candle_cache].
  destruct (decide (sym = sym')) as [->|Hsym].
  - rewrite lookup_insert_eq. intros [= <-].
    destruct (decide (itv = itv')) as [->|Hitv].
    + rewrite lookup_insert_eq. intros [= <-]. apply PyFacts.sorted_adjacent.
    + rewrite lookup_insert_ne by done.
      destruct (_candle_cache s !! sym') as [m0|] eqn:E; simpl.
      * intros Hl. by eapply Hs.
      * by rewrite lookup_empty.
  - rewrite lookup_insert_ne by done. intros Hm Hl. by eapply Hs.
Qed.

Lemma foldl_store_cache_sorted (itv : string) (es : list (string * list Candle))
    (s : State) :
  cache_sorted s -> cache_sorted (foldl (store itv) s es).
Proof.
  revert s. induction es as [|e es IH]; intros s Hs; simpl; [done|].
  by apply IH, store_cache_sorted.
Qed.

Lemma cache_sorted_cached (s : State) (sym itv : string) :
  cache_sorted s -> Py.adjacent_sorted ts (cached s sym itv).
Proof.
  intros Hs. unfold cached.
  destruct (_candle_cache s !! sym) as [m|] eqn:Em; simpl.
  - destruct (m !! itv) as [series|] eqn:Es; simpl; [by eapply Hs|].
    by intros i a b [=].
  - rewrite lookup_empty. by intros i a b [=].
Qed.

Lemma init_cache_sorted exchange_id symbols start_ts end_ts :
  cache_sorted (__init__ exchange_id symbols start_ts end_ts).
Proof. intros sym itv m series. simpl. by rewrite lookup_empty. Qed.

Lemma same_setup_trans s1 s2 s3 :
  same_setup s1 s2 -> same_setup s2 s3 -> same_setup s1 s3.
Proof. unfold same_setup. intuition congruence. Qed.

Section Preload.
Variable fetch_ohlcv : string -> string -> Z -> nat -> fetch_reply.
Variable exchange_known : string -> bool.

Local Abbreviation paginate := (paginate fetch_ohlcv).
Local Abbreviation fetch_pages := (fetch_pages fetch_ohlcv).
Local Abbreviation _fetch_symbol := (_fetch_symbol fetch_ohlcv exchange_known).
Local Abbreviation _preload_interval := (_preload_interval fetch_ohlcv exchange_known).
Local Abbreviation preload_intervals := (preload_intervals fetch_ohlcv exchange_known).
Local Abbreviation preload_data := (preload_data fetch_ohlcv exchange_known).
Local Abbreviation step := (step fetch_ohlcv exchange_known).
Local Abbreviation run := (run fetch_ohlcv exchange_known).

(** *** Preloading leaves the clock and the setup alone *)

Lemma _preload_interval_fields fuel s itv s' :
  _preload_interval fuel s itv = Some (Returned s') ->
  same_setup s s' /\ _current_ts s' = _current_ts s /\
  _is_preloaded s' = _is_preloaded s.
Proof.
  unfold BacktestDataSource._preload_interval.
  destruct (gather _) as [[results|]|]; intros; simplify_eq.
  apply foldl_store_fields.
Qed.

Lemma preload_intervals_fields fuel ivs s r s' :
  preload_intervals fuel s ivs = Some (r, s') ->
  same_setup s s' /\ _current_ts s' = _current_ts s /\
  _is_preloaded s' = _is_preloaded s.
Proof.
  revert s. induction ivs as [|itv ivs IH]; intros s; simpl.
  - intros; by simplify_eq.
  - destruct (_preload_interval fuel s itv) as [[s1|]|] eqn:E; intros H; simplify_eq.
    + apply _preload_interval_fields in E as ((? & ? & ? & ?) & ? & ?).
      apply IH in H as ((? & ? & ? & ?) & ? & ?).
      unfold same_setup. repeat split; congruence.
    + done.
Qed.

Lemma preload_data_fields fuel s ivs r s' :
  preload_data fuel s ivs = Some (r, s') ->
  same_setup s s' /\ _current_ts s' = _current_ts s.
Proof.
  unfold BacktestDataSource.preload_data.
  destruct (_is_preloaded s); [intros; by simplify_eq|].
  destruct (preload_intervals fuel s _) as [[[[]|] s1]|] eqn:E;
    intros; simplify_eq;
    apply preload_intervals_fields in E as (? & ? & _); done.
Qed.

Lemma step_same_setup s o s' : step s o s' -> same_setup s s'.
Proof.
  destruct 1 as [s d|s|s fuel ivs r s' H|s]; try done.
  by apply preload_data_fields in H as [? _].
Qed.

Lemma run_same_setup s ops s' : run s ops s' -> same_setup s s'.
Proof.
  induction 1 as [s|s o s1 os s2 Hstep _ IH]; [done|].
  eapply same_setup_trans; [|exact IH]. by eapply step_same_setup.
Qed.

(** Only [advance_time] and [reset] move the clock. *)
Lemma step_clock s o s' :
  step s o s' ->
  _current_ts s' =
    match o with
    | AdvanceTime d => _current_ts s + d
    | Reset => _start_ts s
    | _ => _current_ts s
    end.
Proof.
  destruct 1 as [s d|s|s fuel ivs r s' H|s]; try done.
  by apply preload_data_fields in H as [_ ?].
Qed.

Lemma step_start_le_current s o s' :
  step s o s' -> forward o ->
  _start_ts s <= _current_ts s -> _start_ts s' <= _current_ts s'.
Proof.
  intros Hstep Hfw Hinv.
  pose proof (step_same_setup _ _ _ Hstep) as (_ & _ & Hs & _).
  rewrite Hs, (step_clock _ _ _ Hstep).
  destruct o; simpl in *; lia.
Qed.

Lemma run_start_le_current s ops s' :
  run s ops s' -> Forall forward ops ->
  _start_ts s <= _current_ts s -> _start_ts s' <= _current_ts s'.
Proof.
  induction 1 as [|s o s1 os s2 Hstep _ IH]; [done|].
  intros [Hfw Hos]%Forall_cons Hinv.
  apply IH; [done|]. by eapply step_start_le_current.
Qed.

Lemma step_monotone s o s' :
  step s o s' -> forward o -> o <> Reset -> _current_ts s <= _current_ts s'.
Proof.
  intros Hstep Hfw Hne. rewrite (step_clock _ _ _ Hstep).
  destruct o; simpl in *; try lia. done.
Qed.

(** *** What a pass stores *)

Lemma _preload_interval_cached fuel s itv s' (sym' itv' : string) :
  _preload_interval fuel s itv = Some (Returned s') ->
  cached s' sym' itv'
  = if decide (sym' ∈ _symbols s /\ itv = itv')
    then Py.sorted ts (task_result (_fetch_symbol fuel s itv sym'))
    else cached s sym' itv'.
Proof.
  unfold BacktestDataSource._preload_interval.
  destruct (gather _) as [[results|]|] eqn:E; intros; simplify_eq.
  apply gather_results in E as ->.
  apply (cached_foldl_store itv
           (fun sym => task_result (_fetch_symbol fuel s itv sym))).
Qed.

(** *** The cache stays sorted *)

Lemma preload_intervals_cache_sorted fuel ivs s r s' :
  preload_intervals fuel s ivs = Some (r, s') ->
  cache_sorted s -> cache_sorted s'.
Proof.
  revert s. induction ivs as [|itv ivs IH]; intros s; simpl.
  - intros; by simplify_eq.
  - unfold BacktestDataSource._preload_interval.
    destruct (gather _) as [[results|]|]; intros H Hs; simplify_eq; [|done].
    eapply IH; [done|]. by apply foldl_store_cache_sorted.
Qed.

Lemma preload_data_cache_sorted fuel s ivs r s' :
  preload_data fuel s ivs = Some (r, s') ->
  cache_sorted s -> cache_sorted s'.
Proof.
  unfold BacktestDataSource.preload_data.
  destruct (_is_preloaded s); [intros; by simplify_eq|].
  destruct (preload_intervals fuel s _) as [[[[]|] s1]|] eqn:E;
    intros; simplify_eq;
    apply preload_intervals_cache_sorted in E; done.
Qed.

Lemma step_cache_sorted s o s' :
  step s o s' -> cache_sorted s -> cache_sorted s'.
Proof.
  destruct 1 as [s d|s|s fuel ivs r s' H|s]; try done.
  exact (preload_data_cache_sorted _ _ _ _ _ H).
Qed.

Lemma run_cache_sorted s ops s' :
  run s ops s' -> cache_sorted s -> cache_sorted s'.
Proof.
  induction 1 as [|s o s1 os s2 Hstep _ IH]; [done|].
  intros Hs. by eapply IH, step_cache_sorted.
Qed.

(** *** A second call of [preload_data] *)

Lemma preload_data_returned_flag fuel s ivs s' :
  preload_data fuel s ivs = Some (Returned tt, s') -> _is_preloaded s' = true.
Proof.
  unfold BacktestDataSource.preload_data.
  destruct (_is_preloaded s) eqn:Ep; [intros; by simplify_eq|].
  destruct (preload_intervals fuel s _) as [[[[]|] s1]|]; intros; by simplify_eq.
Qed.

Lemma preload_data_preloaded fuel s ivs :
  _is_preloaded s = true -> preload_data fuel s ivs = Some (Returned tt, s).
Proof. unfold BacktestDataSource.preload_data. by intros ->. Qed.

(** *** Fuel *)

Lemma paginate_more_fuel fuel fuel' s sym itv n raw cs r :
  paginate fuel s sym itv n raw cs = Some r -> (fuel <= fuel')%nat ->
  paginate fuel' s sym itv n raw cs = Some r.
Proof.
  revert fuel' n raw cs. induction fuel as [|fuel IH]; intros fuel' n raw cs; [done|].
  destruct fuel' as [|fuel']; [lia|]. simpl.
  destruct (last raw) as [last_row|]; [|done].
  destruct (_end_ts s <=? row_ts last_row); [done|].
  destruct (fetch_ohlcv _ _ _ _) as [|raw']; [done|].
  intros H Hle. apply IH; [done|lia].
Qed.

Lemma fetch_pages_more_fuel fuel fuel' s sym itv r :
  fetch_pages fuel s sym itv = Some r -> (fuel <= fuel')%nat ->
  fetch_pages fuel' s sym itv = Some r.
Proof.
  unfold BacktestDataSource.fetch_pages.
  destruct (fetch_ohlcv _ _ _ _); [done|]. apply paginate_more_fuel.
Qed.

(** The outcome of a fetch that ends does not depend on the fuel. *)
Lemma fetch_pages_functional fuel1 fuel2 s sym itv r1 r2 :
  fetch_pages fuel1 s sym itv = Some r1 -> fetch_pages fuel2 s sym itv = Some r2 ->
  r1 = r2.
Proof.
  intros H1 H2.
  apply (fetch_pages_more_fuel _ (Nat.max fuel1 fuel2)) in H1; [|lia].
  apply (fetch_pages_more_fuel _ (Nat.max fuel1 fuel2)) in H2; [|lia].
  congruence.
Qed.

(** A fetch reads the setup of the object only. *)
Lemma page_candles_setup s s' sym itv raw :
  same_setup s s' -> page_candles s' sym itv raw = page_candles s sym itv raw.
Proof.
  intros (Hx & _ & _ & He). induction raw as [|row raw IH]; simpl; [done|].
  rewrite He, IH. unfold to_candle. by rewrite Hx.
Qed.

Lemma paginate_setup fuel s s' sym itv n raw cs :
  same_setup s s' ->
  paginate fuel s' sym itv n raw cs = paginate fuel s sym itv n raw cs.
Proof.
  intros Hs. revert n raw cs. induction fuel as [|fuel IH]; intros n raw cs; [done|].
  simpl. rewrite (page_candles_setup _ _ _ _ _ Hs).
  destruct Hs as (_ & _ & _ & ->).
  destruct (last raw); [|done].
  destruct (_ <=? _); [done|].
  destruct (fetch_ohlcv _ _ _ _); [done|]. apply IH.
Qed.

Lemma fetch_pages_setup fuel s s' sym itv :
  same_setup s s' -> fetch_pages fuel s' sym itv = fetch_pages fuel s sym itv.
Proof.
  intros Hs. unfold BacktestDataSource.fetch_pages.
  rewrite (proj1 (proj2 (proj2 Hs))).
  destruct (fetch_ohlcv _ _ _ _); [done|]. by apply paginate_setup.
Qed.

(** The fetches of a pass that all end do so within a common fuel. *)
Lemma fetch_pages_common_fuel s itv (syms : list string) :
  (forall sym, sym ∈ syms -> exists fuel r, fetch_pages fuel s sym itv = Some r) ->
  exists fuel0, forall fuel sym, (fuel0 <= fuel)%nat -> sym ∈ syms ->
    exists r, fetch_pages fuel s sym itv = Some r.
Proof.
  induction syms as [|x syms IH]; intros Hall.
  - exists 0%nat. intros fuel sym _ []%elem_of_nil.
  - destruct IH as [f1 Hf1]; [intros; apply Hall; by right|].
    destruct (Hall x) as (f0 & r & Hr); [by left|].
    exists (Nat.max f0 f1). intros fuel sym Hle [->|Hin]%elem_of_cons.
    + exists r. eapply fetch_pages_more_fuel; [done|lia].
    + apply Hf1; [lia|done].
Qed.

Lemma gather_all_returned (h : string -> option (outcome (list Candle)))
    (syms : list string) :
  (forall sym, sym ∈ syms -> exists cs, h sym = Some (Returned cs)) ->
  gather (map h syms) = Some (Returned (map (fun sym => task_result (h sym)) syms)).
Proof.
  induction syms as [|x syms IH]; intros Hall; simpl; [done|].
  rewrite IH by (intros; apply Hall; by right).
  destruct (Hall x) as [cs ->]; [by left|]. done.
Qed.

Lemma _fetch_symbol_returns fuel s itv sym r :
  exchange_known (_exchange_id s) = true ->
  fetch_pages fuel s sym itv = Some r ->
  _fetch_symbol fuel s itv sym = Some (Returned (caught r)).
Proof.
  intros Hk Hr. unfold BacktestDataSource._fetch_symbol. rewrite Hk, Hr.
  by destruct r.
Qed.

Lemma _fetch_symbol_more_fuel fuel fuel' s itv sym r :
  _fetch_symbol fuel s itv sym = Some r -> (fuel <= fuel')%nat ->
  _fetch_symbol fuel' s itv sym = Some r.
Proof.
  unfold BacktestDataSource._fetch_symbol.
  destruct (exchange_known _); [|done].
  destruct (fetch_pages fuel s sym itv) as [r0|] eqn:E; [|done].
  intros H Hle. by rewrite (fetch_pages_more_fuel _ _ _ _ _ _ E Hle).
Qed.

Lemma gather_more_fuel (h h' : string -> option (outcome (list Candle)))
    (syms : list string) (results : list (list Candle)) :
  (forall sym r, h sym = Some r -> h' sym = Some r) ->
  gather (map h syms) = Some (Returned results) ->
  gather (map h' syms) = Some (Returned results).
Proof.
  intros Hh. revert results. induction syms as [|x syms IH]; intros results; [done|].
  simpl. destruct (h x) as [[a|]|] eqn:E; try done.
  - rewrite (Hh _ _ E).
    destruct (gather (map h syms)) as [[l|]|]; try done.
    intros; simplify_eq. by rewrite (IH l).
  - by destruct (gather (map h syms)) as [[l|]|].
Qed.

Lemma _preload_interval_more_fuel fuel fuel' s itv s' :
  _preload_interval fuel s itv = Some (Returned s') -> (fuel <= fuel')%nat ->
  _preload_interval fuel' s itv = Some (Returned s').
Proof.
  unfold BacktestDataSource._preload_interval. intros H Hle.
  destruct (gather (map (_fetch_symbol fuel s itv) _)) as [[results|]|] eqn:E;
    simplify_eq.
  rewrite (gather_more_fuel _ (_fetch_symbol fuel' s itv) _ _ ltac:(
    intros sym r Hr; exact (_fetch_symbol_more_fuel _ _ _ _ _ _ Hr Hle)) E).
  done.
Qed.

Lemma preload_intervals_more_fuel fuel fuel' ivs s s' :
  preload_intervals fuel s ivs = Some (Returned tt, s') -> (fuel <= fuel')%nat ->
  preload_intervals fuel' s ivs = Some (Returned tt, s').
Proof.
  intros H Hle. revert s H. induction ivs as [|itv ivs IH]; intros s; simpl; [done|].
  destruct (_preload_interval fuel s itv) as [[s1|]|] eqn:E; intros H; simplify_eq.
  rewrite (_preload_interval_more_fuel _ _ _ _ _ E Hle). by apply IH.
Qed.

(** *** A whole preload *)

(** A pass for one interval leaves the series of the other intervals. *)
Lemma preload_intervals_frame fuel ivs s r s' (sym itv : string) :
  preload_intervals fuel s ivs = Some (r, s') -> itv ∉ ivs ->
  cached s' sym itv = cached s sym itv.
Proof.
  revert s. induction ivs as [|itv0 ivs IH]; intros s; simpl.
  - intros; by simplify_eq.
  - destruct (_preload_interval fuel s itv0) as [[s1|]|] eqn:E;
      intros H Hni; simplify_eq; [|done].
    apply not_elem_of_cons in Hni as [Hne Hni].
    rewrite (IH _ H Hni), (_preload_interval_cached _ _ _ _ sym itv E).
    rewrite decide_False; [done|]. intros [_ ->]. done.
Qed.

Lemma _preload_interval_completes s itv :
  exchange_known (_exchange_id s) = true ->
  (forall sym, sym ∈ _symbols s -> exists fuel r, fetch_pages fuel s sym itv = Some r) ->
  exists fuel s', _preload_interval fuel s itv = Some (Returned s') /\
    forall sym f r, sym ∈ _symbols s -> fetch_pages f s sym itv = Some r ->
      cached s' sym itv = Py.sorted ts (caught r).
Proof.
  intros Hk Hall.
  destruct (fetch_pages_common_fuel _ _ _ Hall) as [fuel0 Hf].
  assert (exists s', _preload_interval fuel0 s itv = Some (Returned s')) as [s' Hs'].
  { unfold BacktestDataSource._preload_interval.
    rewrite gather_all_returned; [by eexists|].
    intros sym Hin. destruct (Hf fuel0 sym (le_n _) Hin) as [r Hr].
    rewrite (_fetch_symbol_returns _ _ _ _ _ Hk Hr). by eexists. }
  exists fuel0, s'. split; [done|]. intros sym f r Hin Hr.
  rewrite (_preload_interval_cached _ _ _ _ sym itv Hs').
  rewrite decide_True by done.
  destruct (Hf fuel0 sym (le_n _) Hin) as [r0 Hr0].
  rewrite (_fetch_symbol_returns _ _ _ _ _ Hk Hr0). simpl.
  by rewrite (fetch_pages_functional _ _ _ _ _ _ _ Hr0 Hr).
Qed.

Lemma preload_intervals_completes ivs s :
  exchange_known (_exchange_id s) = true ->
  (forall itv sym, itv ∈ ivs -> sym ∈ _symbols s ->
     exists fuel r, fetch_pages fuel s sym itv = Some r) ->
  exists fuel s', preload_intervals fuel s ivs = Some (Returned tt, s') /\
    forall itv sym f r, itv ∈ ivs -> sym ∈ _symbols s ->
      fetch_pages f s sym itv = Some r ->
      cached s' sym itv = Py.sorted ts (caught r).
Proof.
  revert s. induction ivs as [|itv0 ivs IH]; intros s Hk Hall.
  - exists 0%nat, s. split; [done|]. intros itv sym f r []%elem_of_nil.
  - destruct (_preload_interval_completes s itv0 Hk) as (f0 & s1 & Hs1 & Hc1).
    { intros sym Hin. apply Hall; [by left|done]. }
    pose proof (_preload_interval_fields _ _ _ _ Hs1) as (Hset & _ & _).
    pose proof Hset as (Hx & Hsy & _ & _).
    destruct (IH s1) as (f1 & s' & Hs' & Hc').
    { by rewrite Hx. }
    { intros itv sym Hi Hin. rewrite Hsy in Hin.
      destruct (Hall itv sym) as (fuel & r & Hr); [by right|done|].
      exists fuel, r. by rewrite (fetch_pages_setup _ _ _ _ _ Hset). }
    exists (Nat.max f0 f1), s'. split.
    + simpl.
      rewrite (_preload_interval_more_fuel _ (Nat.max f0 f1) _ _ _ Hs1) by lia.
      apply (preload_intervals_more_fuel _ _ _ _ _ Hs'). lia.
    + intros itv sym f r Hi Hin Hr.
      destruct (decide (itv ∈ ivs)) as [Hi'|Hi'].
      * apply (Hc' itv sym f r Hi'); [by rewrite Hsy|].
        by rewrite (fetch_pages_setup _ _ _ _ _ Hset).
      * apply elem_of_cons in Hi as [->|]; [|done].
        rewrite (preload_intervals_frame _ _ _ _ _ sym itv0 Hs' Hi').
        by eapply Hc1.
Qed.

(** [intervals or ["1m"]] *)
Lemma preload_data_completes s ivs :
  _is_preloaded s = false ->
  exchange_known (_exchange_id s) = true ->
  (forall itv sym, itv ∈ intervals_or_default ivs -> sym ∈ _symbols s ->
     exists fuel r, fetch_pages fuel s sym itv = Some r) ->
  exists fuel s', preload_data fuel s ivs = Some (Returned tt, s') /\
    forall itv sym f r, itv ∈ intervals_or_default ivs -> sym ∈ _symbols s ->
      fetch_pages f s sym itv = Some r ->
      cached s' sym itv = Py.sorted ts (caught r).
Proof.
  intros Hp Hk Hall.
  destruct (preload_intervals_completes _ s Hk Hall) as (fuel & s' & Hs' & Hc).
  exists fuel, (set_is_preloaded s' true). split.
  - unfold BacktestDataSource.preload_data. rewrite Hp.
    fold (intervals_or_default ivs). by rewrite Hs'.
  - exact Hc.
Qed.

(** *** When the pagination ends *)

Lemma paginate_ends s sym itv :
  honours_since fetch_ohlcv ->
  forall fuel n raw cs,
    (1 <= fuel)%nat ->
    (forall r, last raw = Some r ->
       (Z.to_nat (_end_ts s - row_ts r) + 1 <= fuel)%nat) ->
    exists res, paginate fuel s sym itv n raw cs = Some res.
Proof.
  intros Hsince fuel. induction fuel as [|fuel IH]; intros n raw cs Hf Hraw; [lia|].
  simpl. destruct (last raw) as [r|] eqn:Hl; [|by eexists].
  specialize (Hraw r eq_refl).
  destruct (Z.leb_spec (_end_ts s) (row_ts r)) as [He|He]; [by eexists|].
  destruct (fetch_ohlcv _ _ _ _) as [|raw'] eqn:Hfetch; [by eexists|].
  apply IH; [lia|]. intros r' Hl'.
  pose proof (Hsince _ _ _ _ _ _ Hfetch Hl'). lia.
Qed.

Lemma fetch_pages_ends s sym itv :
  honours_since fetch_ohlcv ->
  exists res,
    fetch_pages (Z.to_nat (_end_ts s - _start_ts s) + 2) s sym itv = Some res.
Proof.
  intros Hsince. unfold BacktestDataSource.fetch_pages.
  destruct (fetch_ohlcv _ _ _ _) as [|raw] eqn:Hfetch; [by eexists|].
  apply paginate_ends; [done|lia|]. intros r Hl.
  pose proof (Hsince _ _ _ _ _ _ Hfetch Hl). lia.
Qed.

End Preload.

End BacktestFacts.

(** ** The daily equity data source *)

Module StockBacktestFacts.
Import StockBacktestDataSource.

Lemma stock_is_finished_iff (s : State) : is_finished s = true <-> _end_ts s <= _current_ts s.
Proof. unfold is_finished. apply Z.leb_le. Qed.

Lemma stock_is_finished_false_iff (s : State) :
  is_finished s = false <-> _current_ts s < _end_ts s.
Proof. unfold is_finished. apply Z.leb_gt. Qed.

Lemma stock_get_recent_candles_concat (s : State) (symbols : list string) (itv : string)
    (lookback : Z) :
  get_recent_candles s symbols itv lookback
  = symbols ≫= (fun sym =>
      let available := filter (fun c => ts c <= _current_ts s) (cached s sym itv) in
      if Py.truthy_list available then Py.slice_from (- lookback) available else []).
Proof. unfold get_recent_candles. by rewrite PyFacts.foldl_extend_bind. Qed.

Lemma stock_get_recent_candles_no_lookahead (s : State) (symbols : list string)
    (itv : string) (lookback : Z) (c : Candle) :
  c ∈ get_recent_candles s symbols itv lookback -> ts c <= _current_ts s.
Proof.
  rewrite stock_get_recent_candles_concat. intros Hc.
  apply list_elem_of_bind in Hc as (sym & Hc & _). simpl in Hc.
  destruct (Py.truthy_list _); [|by apply elem_of_nil in Hc].
  apply PyFacts.slice_from_elem in Hc.
  by apply list_elem_of_filter in Hc as [Hc _].
Qed.

(** *** The progress percentage *)


Lemma stock_get_progress_pct_running (s : State) :
  _start_ts s < _end_ts s ->
  get_progress_pct s
  = Py.min 100%Q (inject_Z (_current_ts s - _start_ts s)
                  / inject_Z (_end_ts s - _start_ts s) * 100)%Q.
Proof.
  intros H. unfold get_progress_pct.
  by destruct (Z.leb_spec (_end_ts s) (_start_ts s)); [lia|].
Qed.





(** *** The stores of a pass *)

Lemma stock_foldl_store_fields (itv : string) (es : list (string * list Candle)) (s : State) :
  same_setup s (foldl (store itv) s es) /\
  _current_ts (foldl (store itv) s es) = _current_ts s /\
  _is_preloaded (foldl (store itv) s es) = _is_preloaded s.
Proof.
  revert s. induction es as [|[sym cs] es IH]; intros s; simpl; [done|].
  destruct (IH (store itv s (sym, cs))) as ((? & ? & ?) & ? & ?).
  unfold same_setup. repeat split; simpl in *; congruence.
Qed.

Lemma stock_cached_store (itv : string) (s : State) (sym : string) (cs : list Candle)
    (sym' itv' : string) :
  cached (store itv s (sym, cs)) sym' itv'
  = if decide (sym = sym' /\ itv = itv') then Py.sorted ts cs else cached s sym' itv'.
Proof.
  unfold cached, store, set_candle_cache; cbn [_candle_cache].
  case_decide as H.
  - destruct H as [-> ->]. rewrite lookup_insert_eq. simpl.
    by rewrite lookup_insert_eq.
  - destruct (decide (sym = sym')) as [->|Hsym].
    + rewrite lookup_insert_eq. simpl.
      rewrite lookup_insert_ne; [done|]. intros ->. by apply H.
    + by rewrite lookup_insert_ne.
Qed.

Lemma stock_cached_foldl_store (itv : string) (f : string -> list Candle)
    (syms : list string) (s : State) (sym' itv' : string) :
  cached (foldl (store itv) s (zip syms (map f syms))) sym' itv'
  = if decide (sym' ∈ syms /\ itv = itv') then Py.sorted ts (f sym')
    else cached s sym' itv'.
Proof.
  revert s. induction syms as [|x syms IH]; intros s; cbn [map zip zip_with foldl].
  - case_decide as H; [|done]. destruct H as [H _]. by apply elem_of_nil in H.
  - rewrite IH, stock_cached_store. clear IH.
    destruct (decide (sym' ∈ syms /\ itv = itv')) as [H1|H1],
             (decide (sym' ∈ x :: syms /\ itv = itv')) as [H2|H2],
             (decide (x = sym' /\ itv = itv')) as [H3|H3];
      rewrite ?elem_of_cons in *; try done;
      first [ by destruct H3 as [-> _]
            | exfalso; destruct H2 as [[->|?] ->]; tauto
            | exfalso; destruct H3 as [-> ->]; tauto
            | exfalso; tauto ].
Qed.

Lemma stock_store_cache_sorted (itv : string) (s : State) (e : string * list Candle) :
  cache_sorted s -> cache_sorted (store itv s e).
Proof.
  destruct e as [sym cs]. intros Hs sym' itv' m series.
  unfold store, set_candle_cache; cbn [_candle_cache].
  destruct (decide (sym = sym')) as [->|Hsym].
  - rewrite lookup_insert_eq. intros [= <-].
    destruct (decide (itv = itv')) as [->|Hitv].
    + rewrite lookup_insert_eq. intros [= <-]. apply PyFacts.sorted_adjacent.
    + rewrite lookup_insert_ne by done.
      destruct (_candle_cache s !! sym') as [m0|] eqn:E; simpl.
      * intros Hl. by eapply Hs.
      * by rewrite lookup_empty.
  - rewrite lookup_insert_ne by done. intros Hm Hl. by eapply Hs.
Qed.

Lemma stock_foldl_store_cache_sorted (itv : string) (es : list (string * list Candle))
    (s : State) :
  cache_sorted s -> cache_sorted (foldl (store itv) s es).
Proof.
  revert s. induction es as [|e es IH]; intros s Hs; simpl; [done|].
  by apply IH, stock_store_cache_sorted.
Qed.

Lemma stock_cache_sorted_cached (s : State) (sym itv : string) :
  cache_sorted s -> Py.adjacent_sorted ts (cached s sym itv).
Proof.
  intros Hs. unfold cached.
  destruct (_candle_cache s !! sym) as [m|] eqn:Em; simpl.
  - destruct (m !! itv) as [series|] eqn:Es; simpl; [by eapply Hs|].
    by intros i a b [=].
  - rewrite lookup_empty. by intros i a b [=].
Qed.

Lemma stock_init_cache_sorted symbols start_ts end_ts :
  cache_sorted (__init__ symbols start_ts end_ts).
Proof. intros sym itv m series. simpl. by rewrite lookup_empty. Qed.

Lemma stock_same_setup_trans s1 s2 s3 :
  same_setup s1 s2 -> same_setup s2 s3 -> same_setup s1 s3.
Proof. unfold same_setup. intuition congruence. Qed.


Section Preload.
Variable history : string -> string -> string -> string -> history_reply.
Variable date_str : Z -> outcome string.
Variable upper : string -> string.

Local Abbreviation fetch_frame := (fetch_frame history upper).
Local Abbreviation _fetch_symbol := (_fetch_symbol history upper).
Local Abbreviation _preload_interval := (_preload_interval history date_str upper).
Local Abbreviation preload_intervals := (preload_intervals history date_str upper).
Local Abbreviation preload_data := (preload_data history date_str upper).
Local Abbreviation step := (step history date_str upper).
Local Abbreviation run := (run history date_str upper).

(** *** Preloading leaves the clock and the setup alone *)

Lemma stock_preload_interval_fields s itv s' :
  _preload_interval s itv = Returned s' ->
  same_setup s s' /\ _current_ts s' = _current_ts s /\
  _is_preloaded s' = _is_preloaded s.
Proof.
  unfold StockBacktestDataSource._preload_interval.
  destruct (date_str (_start_ts s)), (date_str (_end_ts s)); intros; simplify_eq.
  apply stock_foldl_store_fields.
Qed.

Lemma stock_preload_intervals_fields ivs s r s' :
  preload_intervals s ivs = (r, s') ->
  same_setup s s' /\ _current_ts s' = _current_ts s /\
  _is_preloaded s' = _is_preloaded s.
Proof.
  revert s. induction ivs as [|itv ivs IH]; intros s; simpl.
  - intros; by simplify_eq.
  - destruct (_preload_interval s itv) as [s1|] eqn:E; intros H; simplify_eq.
    + apply stock_preload_interval_fields in E as ((? & ? & ?) & ? & ?).
      apply IH in H as ((? & ? & ?) & ? & ?).
      unfold same_setup. repeat split; congruence.
    + done.
Qed.

Lemma stock_preload_data_fields s ivs r s' :
  preload_data s ivs = (r, s') ->
  same_setup s s' /\ _current_ts s' = _current_ts s.
Proof.
  unfold StockBacktestDataSource.preload_data.
  destruct (_is_preloaded s); [intros; by simplify_eq|].
  destruct (preload_intervals s _) as [[[]|] s1] eqn:E;
    intros; simplify_eq;
    apply stock_preload_intervals_fields in E as (? & ? & _); done.
Qed.

Lemma stock_step_same_setup s o s' : step s o s' -> same_setup s s'.
Proof.
  destruct 1 as [s d|s|s ivs r s' H|s]; try done.
  by apply stock_preload_data_fields in H as [? _].
Qed.

Lemma stock_run_same_setup s ops s' : run s ops s' -> same_setup s s'.
Proof.
  induction 1 as [s|s o s1 os s2 Hstep _ IH]; [done|].
  eapply stock_same_setup_trans; [|exact IH]. by eapply stock_step_same_setup.
Qed.

(** Only [advance_time] and [reset] move the clock. *)
Lemma stock_step_clock s o s' :
  step s o s' ->
  _current_ts s' =
    match o with
    | AdvanceTime d => _current_ts s + d
    | Reset => _start_ts s
    | _ => _current_ts s
    end.
Proof.
  destruct 1 as [s d|s|s ivs r s' H|s]; try done.
  by apply stock_preload_data_fields in H as [_ ?].
Qed.

Lemma stock_step_start_le_current s o s' :
  step s o s' -> forward o ->
  _start_ts s <= _current_ts s -> _start_ts s' <= _current_ts s'.
Proof.
  intros Hstep Hfw Hinv.
  pose proof (stock_step_same_setup _ _ _ Hstep) as (_ & Hs & _).
  rewrite Hs, (stock_step_clock _ _ _ Hstep).
  destruct o; simpl in *; lia.
Qed.

Lemma stock_run_start_le_current s ops s' :
  run s ops s' -> Forall forward ops ->
  _start_ts s <= _current_ts s -> _start_ts s' <= _current_ts s'.
Proof.
  induction 1 as [|s o s1 os s2 Hstep _ IH]; [done|].
  intros [Hfw Hos]%Forall_cons Hinv.
  apply IH; [done|]. by eapply stock_step_start_le_current.
Qed.

Lemma stock_step_monotone s o s' :
  step s o s' -> forward o -> o <> Reset -> _current_ts s <= _current_ts s'.
Proof.
  intros Hstep Hfw Hne. rewrite (stock_step_clock _ _ _ Hstep).
  destruct o; simpl in *; try lia. done.
Qed.

(** *** What a pass stores *)


Lemma stock_fetch_symbol_caught s itv a b yf sym :
  _fetch_symbol s itv a b yf sym = caught (fetch_frame s itv a b yf sym).
Proof.
  unfold StockBacktestDataSource._fetch_symbol. by destruct (fetch_frame _ _ _ _ _ _).
Qed.

Lemma stock_preload_interval_cached s itv a b s' (sym' itv' : string) :
  date_str (_start_ts s) = Returned a -> date_str (_end_ts s) = Returned b ->
  _preload_interval s itv = Returned s' ->
  cached s' sym' itv'
  = if decide (sym' ∈ _symbols s /\ itv = itv')
    then Py.sorted ts
           (caught (fetch_frame s itv a b (default "1d"%string (interval_map !! itv)) sym'))
    else cached s sym' itv'.
Proof.
  unfold StockBacktestDataSource._preload_interval. intros -> ->. intros [= <-].
  rewrite stock_cached_foldl_store. by rewrite stock_fetch_symbol_caught.
Qed.

(** *** The cache stays sorted *)

Lemma stock_preload_intervals_cache_sorted ivs s r s' :
  preload_intervals s ivs = (r, s') ->
  cache_sorted s -> cache_sorted s'.
Proof.
  revert s. induction ivs as [|itv ivs IH]; intros s; simpl.
  - intros; by simplify_eq.
  - unfold StockBacktestDataSource._preload_interval.
    destruct (date_str (_start_ts s)), (date_str (_end_ts s));
      intros H Hs; simplify_eq; try done.
    eapply IH; [done|]. by apply stock_foldl_store_cache_sorted.
Qed.

Lemma stock_preload_data_cache_sorted s ivs r s' :
  preload_data s ivs = (r, s') ->
  cache_sorted s -> cache_sorted s'.
Proof.
  unfold StockBacktestDataSource.preload_data.
  destruct (_is_preloaded s); [intros; by simplify_eq|].
  destruct (preload_intervals s _) as [[[]|] s1] eqn:E;
    intros; simplify_eq;
    apply stock_preload_intervals_cache_sorted in E; done.
Qed.

Lemma stock_step_cache_sorted s o s' :
  step s o s' -> cache_sorted s -> cache_sorted s'.
Proof.
  destruct 1 as [s d|s|s ivs r s' H|s]; try done.
  exact (stock_preload_data_cache_sorted _ _ _ _ H).
Qed.

Lemma stock_run_cache_sorted s ops s' :
  run s ops s' -> cache_sorted s -> cache_sorted s'.
Proof.
  induction 1 as [|s o s1 os s2 Hstep _ IH]; [done|].
  intros Hs. by eapply IH, stock_step_cache_sorted.
Qed.

(** *** A second call of [preload_data] *)

Lemma stock_preload_data_returned_flag s ivs s' :
  preload_data s ivs = (Returned tt, s') -> _is_preloaded s' = true.
Proof.
  unfold StockBacktestDataSource.preload_data.
  destruct (_is_preloaded s) eqn:Ep; [intros; by simplify_eq|].
  destruct (preload_intervals s _) as [[[]|] s1]; intros; by simplify_eq.
Qed.

Lemma stock_preload_data_preloaded s ivs :
  _is_preloaded s = true -> preload_data s ivs = (Returned tt, s).
Proof. unfold StockBacktestDataSource.preload_data. by intros ->. Qed.

(** *** A whole preload *)

Lemma stock_preload_intervals_frame ivs s r s' (sym itv : string) :
  preload_intervals s ivs = (r, s') -> itv ∉ ivs ->
  cached s' sym itv = cached s sym itv.
Proof.
  revert s. induction ivs as [|itv0 ivs IH]; intros s; simpl.
  - intros; by simplify_eq.
  - destruct (_preload_interval s itv0) as [s1|] eqn:E;
      intros H Hni; simplify_eq; [|done].
    apply not_elem_of_cons in Hni as [Hne Hni].
    rewrite (IH _ H Hni).
    revert E. unfold StockBacktestDataSource._preload_interval.
    destruct (date_str (_start_ts s)), (date_str (_end_ts s)); intros; simplify_eq.
    rewrite stock_cached_foldl_store.
    rewrite decide_False; [done|]. intros [_ ->]. done.
Qed.



End Preload.

End StockBacktestFacts.

(** ** The execution simulator *)

Module GatewayFacts.
Import StockPaperTrading.

(** A float above zero is not at or below it. *)
Lemma float_pos_not_le0 (p : float) :
  PrimFloat.ltb 0%float p = true -> PrimFloat.leb p 0%float = false.
Proof.
  rewrite ltb_spec, leb_spec. unfold SFltb, SFleb.
  change (Prim2SF 0%float) with (S754_zero false).
  destruct (Prim2SF p) as [[]| []| |[] m e]; simpl; congruence.
Qed.

(** Whatever it is multiplied by, [nan] stays [nan]. *)
Lemma nan_mul (x : float) : (nan * x)%float = nan.
Proof. apply Prim2SF_inj. by rewrite mul_spec. Qed.

(** *** Market hours *)

Lemma lex_leb_time (h m sec us h' m' sec' us' : Z) :
  0 <= m < 60 -> 0 <= sec < 60 -> 0 <= us < 1000000 ->
  0 <= m' < 60 -> 0 <= sec' < 60 -> 0 <= us' < 1000000 ->
  lex_leb (time_key h m sec us) (time_key h' m' sec' us') = true <->
  ((h * 60 + m) * 60 + sec) * 1000000 + us
  <= ((h' * 60 + m') * 60 + sec') * 1000000 + us'.
Proof.
  intros. unfold time_key, lex_leb.
  rewrite !orb_true_iff, !andb_true_iff, !Z.ltb_lt, !Z.eqb_eq. lia.
Qed.

(** The market is open from Monday to Friday, from 09:30:00 to 16:00:00
    sharp, both ends included. *)
Lemma is_us_market_open_iff (now : datetime) :
  valid_datetime now ->
  is_us_market_open now = true <->
  weekday now < 5 /\ 34200000000 <= micros_of_day now <= 57600000000.
Proof.
  intros (Hw & Hh & Hm & Hs & Hu). unfold is_us_market_open, micros_of_day.
  destruct (Z.leb_spec 5 (weekday now)) as [H5|H5]; [split; [done|lia]|].
  rewrite andb_true_iff, !lex_leb_time by lia. lia.
Qed.

Lemma is_us_market_open_closed (now : datetime) :
  valid_datetime now ->
  5 <= weekday now \/ micros_of_day now < 34200000000
    \/ 57600000000 < micros_of_day now ->
  is_us_market_open now = false.
Proof.
  intros Hv Hc. apply not_true_is_false. rewrite is_us_market_open_iff by done. lia.
Qed.

Section Execute.
Variable now_eastern : nat -> datetime.
Variable ticker_history : nat -> string -> outcome (list float).
Variable ticker_fast_info : nat -> string -> outcome (option fast_info).
Variable upper : string -> string.
Variable derive_side_from_action : option string -> option TradeSide.
Variable FeatureVector : Type.
Variable extract_price_map : list FeatureVector -> gmap string float.

Local Abbreviation _get_current_price :=
  (_get_current_price ticker_history ticker_fast_info upper).
Local Abbreviation reference_price :=
  (reference_price ticker_history ticker_fast_info upper).
Local Abbreviation resolve_side := (resolve_side derive_side_from_action).
Local Abbreviation gate_passes := (gate_passes now_eastern).
Local Abbreviation execute_one :=
  (execute_one now_eastern ticker_history ticker_fast_info upper
               derive_side_from_action).
Local Abbreviation execute :=
  (execute now_eastern ticker_history ticker_fast_info upper
           derive_side_from_action FeatureVector extract_price_map).

Lemma gate_passes_iff (g : Gateway) (k : nat) :
  gate_passes g k <->
  _enforce_market_hours g && negb (is_us_market_open (now_eastern k)) = false.
Proof.
  unfold StockPaperTrading.gate_passes.
  destruct (_enforce_market_hours g), (is_us_market_open _); simpl;
    split; intros H; try done; try (by left); try (by right); by destruct H.
Qed.

(** [execute] returns one result per instruction, in order: the result of
    the loop body at that position. *)
Lemma execute_lookup (g : Gateway) (instructions : list TradeInstruction.t)
    (market_features : option (list FeatureVector)) (k : nat) :
  (execute g instructions market_features).2 !! k
  = execute_one g (extract_price_map (default [] market_features)) k
      <$> instructions !! k.
Proof.
  unfold StockPaperTrading.execute. destruct instructions as [|i l]; [done|].
  apply list_lookup_imap.
Qed.

Lemma execute_length (g : Gateway) (instructions : list TradeInstruction.t)
    (market_features : option (list FeatureVector)) :
  length (execute g instructions market_features).2 = length instructions.
Proof.
  unfold StockPaperTrading.execute. destruct instructions as [|i l]; [done|].
  apply length_imap.
Qed.

Lemma execute_one_market_closed (g : Gateway) (pm : gmap string float) (k : nat)
    (inst : TradeInstruction.t) :
  _enforce_market_hours g = true -> is_us_market_open (now_eastern k) = false ->
  execute_one g pm k inst
  = {| TxResult.instruction_id := TradeInstruction.instruction_id inst;
       TxResult.instrument := TradeInstruction.instrument inst;
       TxResult.side := resolve_side inst;
       TxResult.requested_qty := TradeInstruction.quantity inst;
       TxResult.filled_qty := 0%float;
       TxResult.avg_exec_price := None;
       TxResult.slippage_bps := None;
       TxResult.fee_cost := None;
       TxResult.leverage := None;
       TxResult.status := REJECTED;
       TxResult.reason := Some "market_closed"%string;
       TxResult.meta := TradeInstruction.meta inst |}.
Proof. intros He Hc. unfold StockPaperTrading.execute_one. by rewrite He, Hc. Qed.

Lemma execute_one_no_price (g : Gateway) (pm : gmap string float) (k : nat)
    (inst : TradeInstruction.t) :
  gate_passes g k ->
  PrimFloat.leb (reference_price pm k (symbol (TradeInstruction.instrument inst))) 0%float
    = true ->
  execute_one g pm k inst
  = {| TxResult.instruction_id := TradeInstruction.instruction_id inst;
       TxResult.instrument := TradeInstruction.instrument inst;
       TxResult.side := resolve_side inst;
       TxResult.requested_qty := TradeInstruction.quantity inst;
       TxResult.filled_qty := 0%float;
       TxResult.avg_exec_price := None;
       TxResult.slippage_bps := None;
       TxResult.fee_cost := None;
       TxResult.leverage := None;
       TxResult.status := REJECTED;
       TxResult.reason := Some "no_price_data"%string;
       TxResult.meta := TradeInstruction.meta inst |}.
Proof.
  intros Hg%gate_passes_iff Hp. unfold StockPaperTrading.execute_one.
  by rewrite Hg, Hp.
Qed.

Lemma execute_one_fill (g : Gateway) (pm : gmap string float) (k : nat)
    (inst : TradeInstruction.t) :
  gate_passes g k ->
  PrimFloat.leb (reference_price pm k (symbol (TradeInstruction.instrument inst))) 0%float
    = false ->
  execute_one g pm k inst
  = let ref_price := reference_price pm k (symbol (TradeInstruction.instrument inst)) in
    let slip_bps := effective_slippage_bps g inst in
    let exec_price :=
      match resolve_side inst with
      | BUY => (ref_price * (1 + slip_bps / 10000))%float
      | SELL => (ref_price * (1 - slip_bps / 10000))%float
      end in
    let qty := TradeInstruction.quantity inst in
    let fee_cost :=
      (exec_price * qty * (_fee_bps g / 10000) + qty * _fee_per_share g)%float in
    {| TxResult.instruction_id := TradeInstruction.instruction_id inst;
       TxResult.instrument := TradeInstruction.instrument inst;
       TxResult.side := resolve_side inst;
       TxResult.requested_qty := qty;
       TxResult.filled_qty := qty;
       TxResult.avg_exec_price := Some exec_price;
       TxResult.slippage_bps := if PrimFloat.ltb 0%float slip_bps then Some slip_bps else None;
       TxResult.fee_cost := if PrimFloat.ltb 0%float fee_cost then Some fee_cost else None;
       TxResult.leverage := TradeInstruction.leverage inst;
       TxResult.status := FILLED;
       TxResult.reason := None;
       TxResult.meta := TradeInstruction.meta inst |}.
Proof.
  intros Hg%gate_passes_iff Hp. unfold StockPaperTrading.execute_one.
  by rewrite Hg, Hp.
Qed.

(** The three outcomes of the loop body exclude each other. *)
Lemma execute_one_reason (g : Gateway) (pm : gmap string float) (k : nat)
    (inst : TradeInstruction.t) :
  TxResult.reason (execute_one g pm k inst) = Some "no_price_data"%string <->
  gate_passes g k /\
  PrimFloat.leb (reference_price pm k (symbol (TradeInstruction.instrument inst))) 0%float
    = true.
Proof.
  split.
  - unfold StockPaperTrading.execute_one. rewrite gate_passes_iff.
    destruct (_ && _); [done|].
    destruct (PrimFloat.leb _ _); [done|]. done.
  - intros [Hg Hp]. by rewrite execute_one_no_price.
Qed.

(** The reference price is at or below zero exactly when the live lookup
    gave nothing above zero and neither did the fallback. *)
Lemma reference_price_le0 (pm : gmap string float) (k : nat) (sym : string) :
  PrimFloat.leb (reference_price pm k sym) 0%float = true <->
  no_price (_get_current_price k sym) = true /\
  PrimFloat.leb (fallback_price pm sym) 0%float = true.
Proof.
  unfold StockPaperTrading.reference_price.
  destruct (_get_current_price k sym) as [p|]; simpl.
  - destruct (PrimFloat.leb p 0%float) eqn:E.
    + split; [by intros ?|by intros [_ ?]].
    + rewrite E. split; [done|by intros [? _]].
  - split; [by intros ?|by intros [_ ?]].
Qed.

End Execute.

End GatewayFacts.

(** ** Series in ascending order *)

Module SeriesFacts.

Section Series.
Context {A : Type} (key : A -> Z).

Lemma adjacent_sorted_tail (a : A) (l : list A) :
  Py.adjacent_sorted key (a :: l) -> Py.adjacent_sorted key l.
Proof. intros H i x y Hx Hy. exact (H (S i) x y Hx Hy). Qed.

Lemma adjacent_StronglySorted (l : list A) :
  Py.adjacent_sorted key l -> StronglySorted (Py.key_le key) l.
Proof.
  induction l as [|a l IH]; intros H; [constructor|].
  pose proof (IH (adjacent_sorted_tail a l H)) as Hl.
  constructor; [exact Hl|].
  destruct l as [|b l]; [constructor|].
  assert (key a <= key b) as Hab by exact (H 0%nat a b eq_refl eq_refl).
  constructor; [exact Hab|].
  apply StronglySorted_inv in Hl as [_ Hb].
  eapply Forall_impl; [exact Hb|]. unfold Py.key_le. intros; lia.
Qed.

Lemma StronglySorted_sublist (l1 l2 : list A) :
  l1 `sublist_of` l2 -> StronglySorted (Py.key_le key) l2 ->
  StronglySorted (Py.key_le key) l1.
Proof.
  induction 1 as [|x l1 l2 Hsub IH|x l1 l2 Hsub IH]; intros Hs.
  - constructor.
  - apply StronglySorted_inv in Hs as [Hs Hx]. constructor; [by apply IH|].
    eapply Forall_forall. intros y Hy. eapply Forall_forall in Hx; [exact Hx|].
    by eapply elem_of_sublist.
  - apply StronglySorted_inv in Hs as [Hs _]. by apply IH.
Qed.

(** The last entry at or before [t] is the latest such entry. *)
Lemma last_filter_latest (t : Z) (l : list A) (c c' : A) :
  StronglySorted (Py.key_le key) l ->
  last (filter (fun c => key c <= t) l) = Some c ->
  c' ∈ l -> key c' <= t -> key c' <= key c.
Proof.
  intros Hs Hlast Hc' Ht.
  assert (StronglySorted (Py.key_le key) (filter (fun c => key c <= t) l)) as Hf.
  { eapply StronglySorted_sublist; [apply sublist_filter|exact Hs]. }
  assert (c' ∈ filter (fun c => key c <= t) l) as Hin
    by (by apply list_elem_of_filter).
  apply last_Some in Hlast as [l' El]. rewrite El in Hf, Hin.
  apply elem_of_app in Hin as [Hin|Hin].
  - eapply (StronglySorted_app_1_elem_of _ _ _ _ _ Hf Hin). by left.
  - apply list_elem_of_singleton in Hin as ->. lia.
Qed.

Lemma last_filter_elem (t : Z) (l : list A) (c : A) :
  last (filter (fun c => key c <= t) l) = Some c -> c ∈ l /\ key c <= t.
Proof.
  intros H%last_Some_elem_of. apply list_elem_of_filter in H. tauto.
Qed.

Lemma last_filter_is_Some (t : Z) (l : list A) :
  is_Some (last (filter (fun c => key c <= t) l))
  <-> exists c, c ∈ l /\ key c <= t.
Proof.
  rewrite last_is_Some. split.
  - intros H. destruct (filter _ l) as [|c l'] eqn:E; [done|].
    exists c. assert (c ∈ filter (fun c => key c <= t) l) as Hc
      by (rewrite E; by left).
    apply list_elem_of_filter in Hc. tauto.
  - intros (c & Hc & Ht) E.
    assert (c ∈ filter (fun c => key c <= t) l) as Hin
      by (by apply list_elem_of_filter).
    rewrite E in Hin. by apply elem_of_nil in Hin.
Qed.

(** Moving the bound forward only adds entries. *)
Lemma filter_le_mono (t t' : Z) (l : list A) :
  t <= t' ->
  filter (fun c => key c <= t) l `sublist_of` filter (fun c => key c <= t') l.
Proof.
  intros Ht.
  rewrite <- (list_filter_filter_l (fun c => key c <= t) (fun c => key c <= t') l)
    by (intros; lia).
  apply sublist_filter.
Qed.

(** The slice [available[-k:]] of the entries at or before [t] of a series
    in ascending order: how many there are, what is left out, and their
    order. *)
Lemma latest_slice (t k : Z) (l : list A) :
  1 <= k -> StronglySorted (Py.key_le key) l ->
  let available := filter (fun c => key c <= t) l in
  let r := Py.slice_from (- k) available in
  length r = Nat.min (Z.to_nat k) (length available) /\
  (exists older, available = older ++ r /\
     forall o c, o ∈ older -> c ∈ r -> key o <= key c) /\
  Py.adjacent_sorted key r.
Proof.
  intros Hk Hs available r.
  assert (StronglySorted (Py.key_le key) available) as Ha.
  { eapply StronglySorted_sublist; [apply sublist_filter|exact Hs]. }
  assert (r = drop (length available - Z.to_nat k) available) as Er
    by (by apply PyFacts.slice_from_last).
  set (n := (length available - Z.to_nat k)%nat) in Er.
  rewrite <- (take_drop n available), <- Er in Ha.
  split; [rewrite Er, length_drop; lia|]. split.
  - exists (take n available). split; [by rewrite Er, take_drop|].
    intros o c Ho Hc. exact (StronglySorted_app_1_elem_of _ _ _ _ _ Ha Ho Hc).
  - apply PyFacts.StronglySorted_adjacent.
    by apply StronglySorted_app_1_r in Ha.
Qed.

End Series.

(** A slice that keeps the end of a list keeps its last entry. *)
Lemma last_slice_from {A} (k : Z) (l : list A) :
  0 <= k -> last (Py.slice_from (- k) l) = last l.
Proof.
  intros Hk. destruct (decide (k = 0)) as [->|Hne].
  { by rewrite PyFacts.slice_from_zero. }
  rewrite PyFacts.slice_from_last by lia.
  destruct l as [|a l]; [done|].
  set (n := (length (a :: l) - Z.to_nat k)%nat).
  rewrite <- (take_drop n (a :: l)) at 2. rewrite last_app.
  destruct (last (drop n (a :: l))) eqn:E; [done|].
  apply last_None in E. apply (f_equal length) in E.
  rewrite length_drop in E. simpl in E, n. lia.
Qed.

End SeriesFacts.

(** ** The market snapshot of the crypto source *)

Module SnapshotFacts.
Import BacktestDataSource.

Local Abbreviation visible s sym itv :=
  (filter (fun c => ts c <= _current_ts s) (cached s sym itv)).

Lemma foldl_snapshot_lookup (s : State) (symbols : list string)
    (acc : gmap string Price.t) (sym : string) :
  foldl (fun snapshot sym =>
           match last (visible s sym "1m") with
           | Some latest => <[sym := price_entry sym latest]> snapshot
           | None => snapshot
           end) acc symbols !! sym
  = if decide (sym ∈ symbols)
    then match last (visible s sym "1m") with
         | Some latest => Some (price_entry sym latest)
         | None => acc !! sym
         end
    else acc !! sym.
Proof.
  revert acc. induction symbols as [|x symbols IH]; intros acc.
  - simpl. destruct (decide (sym ∈ [])) as [H|]; [by apply elem_of_nil in H|done].
  - cbn [foldl]. rewrite IH. destruct (decide (sym = x)) as [->|Hne].
    + destruct (decide (x ∈ x :: symbols)) as [_|H]; [|destruct H; by left].
      destruct (last (visible s x "1m")) as [latest|] eqn:E.
      * rewrite lookup_insert_eq. by destruct (decide _).
      * by destruct (decide _).
    + assert (match last (visible s x "1m") with
              | Some latest => <[x := price_entry x latest]> acc
              | None => acc
              end !! sym = acc !! sym) as ->.
      { destruct (last (visible s x "1m")); [|done].
        by rewrite lookup_insert_ne. }
      destruct (decide (sym ∈ symbols)) as [Hin|Hin];
        destruct (decide (sym ∈ x :: symbols)) as [Hin'|Hin']; try done.
      * destruct Hin'. by right.
      * apply elem_of_cons in Hin' as [?|?]; done.
Qed.

Lemma get_market_snapshot_lookup (s : State) (symbols : list string) (sym : string) :
  get_market_snapshot s symbols !! sym
  = if decide (sym ∈ symbols)
    then price_entry sym <$> last (visible s sym "1m")
    else None.
Proof.
  unfold get_market_snapshot. rewrite foldl_snapshot_lookup, lookup_empty.
  destruct (decide _); [|done]. by destruct (last _).
Qed.

Lemma get_recent_candles_one (s : State) (sym itv : string) (lookback : Z) :
  get_recent_candles s [sym] itv lookback
  = Py.slice_from (- lookback) (visible s sym itv).
Proof.
  unfold get_recent_candles. simpl.
  destruct (visible s sym itv) as [|c l] eqn:E; simpl; [|done].
  unfold Py.slice_from. simpl. by rewrite drop_nil.
Qed.

End SnapshotFacts.

(** ** The market snapshot of the daily equity source *)

Module StockSnapshotFacts.
Import StockBacktestDataSource.

Local Abbreviation visible s sym itv :=
  (filter (fun c => ts c <= _current_ts s) (cached s sym itv)).

Lemma stock_foldl_snapshot_lookup (s : State) (symbols : list string)
    (acc : gmap string Price.t) (sym : string) :
  foldl (fun snapshot sym =>
           match last (visible s sym "1d") with
           | Some latest => <[sym := price_entry sym latest]> snapshot
           | None => snapshot
           end) acc symbols !! sym
  = if decide (sym ∈ symbols)
    then match last (visible s sym "1d") with
         | Some latest => Some (price_entry sym latest)
         | None => acc !! sym
         end
    else acc !! sym.
Proof.
  revert acc. induction symbols as [|x symbols IH]; intros acc.
  - simpl. destruct (decide (sym ∈ [])) as [H|]; [by apply elem_of_nil in H|done].
  - cbn [foldl]. rewrite IH. destruct (decide (sym = x)) as [->|Hne].
    + destruct (decide (x ∈ x :: symbols)) as [_|H]; [|destruct H; by left].
      destruct (last (visible s x "1d")) as [latest|] eqn:E.
      * rewrite lookup_insert_eq. by destruct (decide _).
      * by destruct (decide _).
    + assert (match last (visible s x "1d") with
              | Some latest => <[x := price_entry x latest]> acc
              | None => acc
              end !! sym = acc !! sym) as ->.
      { destruct (last (visible s x "1d")); [|done].
        by rewrite lookup_insert_ne. }
      destruct (decide (sym ∈ symbols)) as [Hin|Hin];
        destruct (decide (sym ∈ x :: symbols)) as [Hin'|Hin']; try done.
      * destruct Hin'. by right.
      * apply elem_of_cons in Hin' as [?|?]; done.
Qed.

Lemma stock_get_market_snapshot_lookup (s : State) (symbols : list string) (sym : string) :
  get_market_snapshot s symbols !! sym
  = if decide (sym ∈ symbols)
    then price_entry sym <$> last (visible s sym "1d")
    else None.
Proof.
  unfold get_market_snapshot. rewrite stock_foldl_snapshot_lookup, lookup_empty.
  destruct (decide _); [|done]. by destruct (last _).
Qed.

Lemma stock_get_recent_candles_one (s : State) (sym itv : string) (lookback : Z) :
  get_recent_candles s [sym] itv lookback
  = Py.slice_from (- lookback) (visible s sym itv).
Proof.
  unfold get_recent_candles. simpl.
  destruct (visible s sym itv) as [|c l] eqn:E; simpl; [|done].
  unfold Py.slice_from. simpl. by rewrite drop_nil.
Qed.

End StockSnapshotFacts.

(** ** What the cache of the crypto source holds *)

Module LabelFacts.
Import BacktestDataSource.

Local Abbreviation good s sym itv c :=
  (sym ∈ _symbols s /\ symbol (instrument c) = sym /\
   exchange_id (instrument c) = _exchange_id s /\ interval c = itv /\
   ts c <= _end_ts s).

Lemma cache_labelled_cached (s : State) :
  cache_labelled s <-> forall sym itv c, c ∈ cached s sym itv -> good s sym itv c.
Proof.
  split.
  - intros H sym itv c. unfold cached.
    destruct (_candle_cache s !! sym) as [m|] eqn:Em; simpl.
    + destruct (m !! itv) as [series|] eqn:Es; simpl.
      * intros Hc. exact (H sym itv m series c Em Es Hc).
      * by intros ?%elem_of_nil.
    + rewrite lookup_empty. by intros ?%elem_of_nil.
  - intros H sym itv m series c Em Es Hc. apply H.
    unfold cached. by rewrite Em; simpl; rewrite Es.
Qed.

Lemma init_cache_labelled exchange_id symbols start_ts end_ts :
  cache_labelled (__init__ exchange_id symbols start_ts end_ts).
Proof. intros sym itv m series c Hm. simpl in Hm. by rewrite lookup_empty in Hm. Qed.

Section Preload.
Variable fetch_ohlcv : string -> string -> Z -> nat -> fetch_reply.
Variable exchange_known : string -> bool.

Local Abbreviation paginate := (paginate fetch_ohlcv).
Local Abbreviation fetch_pages := (fetch_pages fetch_ohlcv).
Local Abbreviation _fetch_symbol := (_fetch_symbol fetch_ohlcv exchange_known).
Local Abbreviation _preload_interval := (_preload_interval fetch_ohlcv exchange_known).
Local Abbreviation preload_intervals := (preload_intervals fetch_ohlcv exchange_known).
Local Abbreviation preload_data := (preload_data fetch_ohlcv exchange_known).
Local Abbreviation step := (step fetch_ohlcv exchange_known).
Local Abbreviation run := (run fetch_ohlcv exchange_known).

Local Abbreviation stamped s sym itv c :=
  (symbol (instrument c) = sym /\ exchange_id (instrument c) = _exchange_id s /\
   interval c = itv /\ ts c <= _end_ts s).

Lemma page_candles_stamped s sym itv raw :
  Forall (fun c => stamped s sym itv c) (page_candles s sym itv raw).
Proof.
  induction raw as [|row raw IH]; simpl; [constructor|].
  destruct (Z.ltb_spec (_end_ts s) (row_ts row)); constructor; [|exact IH].
  simpl. split; [done|]. split; [done|]. split; [done|]. lia.
Qed.

Lemma paginate_stamped fuel s sym itv n raw cs out :
  Forall (fun c => stamped s sym itv c) cs ->
  paginate fuel s sym itv n raw cs = Some (Returned out) ->
  Forall (fun c => stamped s sym itv c) out.
Proof.
  revert n raw cs. induction fuel as [|fuel IH]; intros n raw cs Hcs; simpl; [done|].
  destruct (last raw) as [last_row|]; [|intros; by simplify_eq].
  assert (Forall (fun c => stamped s sym itv c) (cs ++ page_candles s sym itv raw))
    as Hcs' by (apply Forall_app; split; [done|apply page_candles_stamped]).
  destruct (_end_ts s <=? row_ts last_row); [intros; by simplify_eq|].
  destruct (fetch_ohlcv _ _ _ _) as [|raw']; [done|].
  by apply IH.
Qed.

Lemma _fetch_symbol_stamped fuel s itv sym :
  Forall (fun c => stamped s sym itv c) (task_result (_fetch_symbol fuel s itv sym)).
Proof.
  unfold BacktestDataSource._fetch_symbol.
  destruct (exchange_known _); [|constructor].
  destruct (fetch_pages fuel s sym itv) as [[out|]|] eqn:E; simpl; try constructor.
  unfold BacktestDataSource.fetch_pages in E.
  destruct (fetch_ohlcv _ _ _ _) as [|raw]; [done|].
  eapply paginate_stamped; [|exact E]. constructor.
Qed.

Lemma _preload_interval_labelled fuel s itv s' :
  _preload_interval fuel s itv = Some (Returned s') ->
  cache_labelled s -> cache_labelled s'.
Proof.
  intros Hp Hs. apply cache_labelled_cached. intros sym' itv' c.
  rewrite (BacktestFacts._preload_interval_cached _ _ _ _ _ _ sym' itv' Hp).
  apply BacktestFacts._preload_interval_fields in Hp
    as ((He & Hsy & _ & Hend) & _ & _).
  rewrite He, Hsy, Hend.
  destruct (decide _) as [[Hin <-]|_].
  - rewrite PyFacts.sorted_Permutation. intros Hc.
    pose proof (_fetch_symbol_stamped fuel s itv sym') as Hf.
    eapply Forall_forall in Hf; [|exact Hc]. tauto.
  - by apply cache_labelled_cached.
Qed.

Lemma preload_intervals_labelled fuel ivs s r s' :
  preload_intervals fuel s ivs = Some (r, s') ->
  cache_labelled s -> cache_labelled s'.
Proof.
  revert s. induction ivs as [|itv ivs IH]; intros s; simpl.
  - intros; by simplify_eq.
  - destruct (_preload_interval fuel s itv) as [[s1|]|] eqn:E;
      intros H Hs; simplify_eq; [|done].
    eapply IH; [done|]. by eapply _preload_interval_labelled.
Qed.

Lemma preload_data_labelled fuel s ivs r s' :
  preload_data fuel s ivs = Some (r, s') ->
  cache_labelled s -> cache_labelled s'.
Proof.
  unfold BacktestDataSource.preload_data.
  destruct (_is_preloaded s); [intros; by simplify_eq|].
  destruct (preload_intervals fuel s _) as [[[[]|] s1]|] eqn:E;
    intros H Hs; simplify_eq;
    apply preload_intervals_labelled in E; done.
Qed.

Lemma step_labelled s o s' :
  step s o s' -> cache_labelled s -> cache_labelled s'.
Proof.
  destruct 1 as [s d|s|s fuel ivs r s' H|s]; try done.
  exact (preload_data_labelled _ _ _ _ _ H).
Qed.

Lemma run_labelled s ops s' :
  run s ops s' -> cache_labelled s -> cache_labelled s'.
Proof.
  induction 1 as [|s o s1 os s2 Hstep _ IH]; [done|].
  intros Hs. by eapply IH, step_labelled.
Qed.

End Preload.

End LabelFacts.

(** ** What the cache of the daily equity source holds *)

Module StockLabelFacts.
Import StockBacktestDataSource.

Local Abbreviation good s sym itv c :=
  (sym ∈ _symbols s /\ symbol (instrument c) = sym /\
   exchange_id (instrument c) = "yfinance"%string /\ interval c = itv /\
   ts c <= _end_ts s).

Lemma stock_cache_labelled_cached (s : State) :
  cache_labelled s <-> forall sym itv c, c ∈ cached s sym itv -> good s sym itv c.
Proof.
  split.
  - intros H sym itv c. unfold cached.
    destruct (_candle_cache s !! sym) as [m|] eqn:Em; simpl.
    + destruct (m !! itv) as [series|] eqn:Es; simpl.
      * intros Hc. exact (H sym itv m series c Em Es Hc).
      * by intros ?%elem_of_nil.
    + rewrite lookup_empty. by intros ?%elem_of_nil.
  - intros H sym itv m series c Em Es Hc. apply H.
    unfold cached. by rewrite Em; simpl; rewrite Es.
Qed.

Lemma stock_init_cache_labelled symbols start_ts end_ts :
  cache_labelled (__init__ symbols start_ts end_ts).
Proof. intros sym itv m series c Hm. simpl in Hm. by rewrite lookup_empty in Hm. Qed.

Section Preload.
Variable history : string -> string -> string -> string -> history_reply.
Variable date_str : Z -> outcome string.
Variable upper : string -> string.

Local Abbreviation fetch_frame := (fetch_frame history upper).
Local Abbreviation _fetch_symbol := (_fetch_symbol history upper).
Local Abbreviation _preload_interval := (_preload_interval history date_str upper).
Local Abbreviation preload_intervals := (preload_intervals history date_str upper).
Local Abbreviation preload_data := (preload_data history date_str upper).
Local Abbreviation step := (step history date_str upper).
Local Abbreviation run := (run history date_str upper).

Local Abbreviation stamped s sym itv c :=
  (symbol (instrument c) = sym /\ exchange_id (instrument c) = "yfinance"%string /\
   interval c = itv /\ ts c <= _end_ts s).

Lemma stock_frame_candles_stamped s sym itv data :
  Forall (fun c => stamped s sym itv c) (frame_candles s sym itv data).
Proof.
  induction data as [|row data IH]; simpl; [constructor|].
  destruct (Z.ltb_spec (_end_ts s) (row_ts row)); constructor; [|exact IH].
  simpl. split; [done|]. split; [done|]. split; [done|]. lia.
Qed.

Lemma stock_fetch_frame_stamped s itv a b yf sym :
  Forall (fun c => stamped s sym itv c) (caught (fetch_frame s itv a b yf sym)).
Proof.
  unfold StockBacktestDataSource.fetch_frame.
  destruct (history _ _ _ _); simpl; [constructor|].
  apply stock_frame_candles_stamped.
Qed.

Lemma stock_preload_interval_labelled s itv s' :
  _preload_interval s itv = Returned s' ->
  cache_labelled s -> cache_labelled s'.
Proof.
  intros Hp Hs.
  destruct (date_str (_start_ts s)) as [a|] eqn:Ea;
    [|unfold StockBacktestDataSource._preload_interval in Hp; by rewrite Ea in Hp].
  destruct (date_str (_end_ts s)) as [b|] eqn:Eb;
    [|unfold StockBacktestDataSource._preload_interval in Hp;
      by rewrite Ea, Eb in Hp].
  apply stock_cache_labelled_cached. intros sym' itv' c.
  rewrite (StockBacktestFacts.stock_preload_interval_cached
             _ _ _ _ _ _ _ _ sym' itv' Ea Eb Hp).
  apply StockBacktestFacts.stock_preload_interval_fields in Hp
    as ((Hsy & _ & Hend) & _ & _).
  rewrite Hsy, Hend.
  destruct (decide _) as [[Hin <-]|_].
  - rewrite PyFacts.sorted_Permutation. intros Hc.
    pose proof (stock_fetch_frame_stamped s itv a b
                  (default "1d"%string (interval_map !! itv)) sym') as Hf.
    eapply Forall_forall in Hf; [|exact Hc]. tauto.
  - by apply stock_cache_labelled_cached.
Qed.

Lemma stock_preload_intervals_labelled ivs s r s' :
  preload_intervals s ivs = (r, s') ->
  cache_labelled s -> cache_labelled s'.
Proof.
  revert s. induction ivs as [|itv ivs IH]; intros s; simpl.
  - intros; by simplify_eq.
  - destruct (_preload_interval s itv) as [s1|] eqn:E;
      intros H Hs; simplify_eq; [|done].
    eapply IH; [done|]. by eapply stock_preload_interval_labelled.
Qed.

Lemma stock_preload_data_labelled s ivs r s' :
  preload_data s ivs = (r, s') ->
  cache_labelled s -> cache_labelled s'.
Proof.
  unfold StockBacktestDataSource.preload_data.
  destruct (_is_preloaded s); [intros; by simplify_eq|].
  destruct (preload_intervals s _) as [[[]|] s1] eqn:E;
    intros H Hs; simplify_eq;
    apply stock_preload_intervals_labelled in E; done.
Qed.

Lemma stock_step_labelled s o s' :
  step s o s' -> cache_labelled s -> cache_labelled s'.
Proof.
  destruct 1 as [s d|s|s ivs r s' H|s]; try done.
  exact (stock_preload_data_labelled _ _ _ _ H).
Qed.

Lemma stock_run_labelled s ops s' :
  run s ops s' -> cache_labelled s -> cache_labelled s'.
Proof.
  induction 1 as [|s o s1 os s2 Hstep _ IH]; [done|].
  intros Hs. by eapply IH, stock_step_labelled.
Qed.

End Preload.

End StockLabelFacts.

(** ** A preloaded source: only the clock moves *)

Module ReplayFacts.

Lemma bind_sublist {A B} (f g : A -> list B) (l : list A) :
  (forall x, f x `sublist_of` g x) -> (l ≫= f) `sublist_of` (l ≫= g).
Proof.
  intros H. induction l as [|x l IH]; csimpl; [done|]. by apply sublist_app.
Qed.

Section Crypto.
Import BacktestDataSource.
Variable fetch_ohlcv : string -> string -> Z -> nat -> fetch_reply.
Variable exchange_known : string -> bool.

Local Abbreviation preload_data := (preload_data fetch_ohlcv exchange_known).
Local Abbreviation step := (step fetch_ohlcv exchange_known).
Local Abbreviation run := (run fetch_ohlcv exchange_known).

Lemma step_preloaded s o s' :
  step s o s' -> _is_preloaded s = true ->
  _is_preloaded s' = true /\ s' = set_current_ts s (_current_ts s').
Proof.
  destruct 1 as [s d|s|s fuel ivs r s' H|s]; intros Hp.
  - done.
  - done.
  - rewrite BacktestFacts.preload_data_preloaded in H by done.
    injection H as _ <-. split; [done|]. by destruct s.
  - split; [done|]. by destruct s.
Qed.

Lemma run_preloaded s ops s' :
  run s ops s' -> _is_preloaded s = true ->
  _is_preloaded s' = true /\ s' = set_current_ts s (_current_ts s').
Proof.
  induction 1 as [s|s o s1 os s2 Hstep _ IH]; intros Hp.
  - split; [done|]. by destruct s.
  - destruct (step_preloaded _ _ _ Hstep Hp) as [Hp1 E1].
    destruct (IH Hp1) as [Hp2 E2]. split; [done|].
    rewrite E2 at 1. by rewrite E1.
Qed.

(** A preload that did its work leaves the intervals it was not asked for
    as they were. *)
Lemma preload_data_frame fuel s ivs r s' (sym itv : string) :
  _is_preloaded s = false ->
  preload_data fuel s ivs = Some (r, s') ->
  itv ∉ intervals_or_default ivs ->
  cached s' sym itv = cached s sym itv.
Proof.
  unfold BacktestDataSource.preload_data. intros -> H Hni.
  destruct (BacktestDataSource.preload_intervals _ _ fuel s _)
    as [[[[]|] s1]|] eqn:E; simplify_eq;
    by apply (BacktestFacts.preload_intervals_frame _ _ _ _ _ _ _ sym itv) in E.
Qed.

End Crypto.

Section Stock.
Import StockBacktestDataSource.
Variable history : string -> string -> string -> string -> history_reply.
Variable date_str : Z -> outcome string.
Variable upper : string -> string.

Local Abbreviation preload_data := (preload_data history date_str upper).
Local Abbreviation step := (step history date_str upper).
Local Abbreviation run := (run history date_str upper).

Lemma stock_step_preloaded s o s' :
  step s o s' -> _is_preloaded s = true ->
  _is_preloaded s' = true /\ s' = set_current_ts s (_current_ts s').
Proof.
  destruct 1 as [s d|s|s ivs r s' H|s]; intros Hp.
  - done.
  - done.
  - rewrite StockBacktestFacts.stock_preload_data_preloaded in H by done.
    injection H as _ <-. split; [done|]. by destruct s.
  - split; [done|]. by destruct s.
Qed.

Lemma stock_run_preloaded s ops s' :
  run s ops s' -> _is_preloaded s = true ->
  _is_preloaded s' = true /\ s' = set_current_ts s (_current_ts s').
Proof.
  induction 1 as [s|s o s1 os s2 Hstep _ IH]; intros Hp.
  - split; [done|]. by destruct s.
  - destruct (stock_step_preloaded _ _ _ Hstep Hp) as [Hp1 E1].
    destruct (IH Hp1) as [Hp2 E2]. split; [done|].
    rewrite E2 at 1. by rewrite E1.
Qed.

Lemma stock_preload_data_frame s ivs r s' (sym itv : string) :
  _is_preloaded s = false ->
  preload_data s ivs = (r, s') ->
  itv ∉ intervals_or_default ivs ->
  cached s' sym itv = cached s sym itv.
Proof.
  unfold StockBacktestDataSource.preload_data. intros -> H Hni.
  destruct (StockBacktestDataSource.preload_intervals _ _ _ s _)
    as [[[]|] s1] eqn:E; simplify_eq;
    by apply (StockBacktestFacts.stock_preload_intervals_frame
                _ _ _ _ _ _ _ sym itv) in E.
Qed.

End Stock.

End ReplayFacts.

(** ** Facts about the string helpers *)

Module StrFacts.
Import PyStr.

Lemma contains_char_app (c : ascii) (s1 s2 : string) :
  contains_char c (s1 +:+ s2) = contains_char c s1 || contains_char c s2.
Proof.
  induction s1 as [|x s1 IH]; simpl; [done|]. by rewrite IH, orb_assoc.
Qed.

Lemma replace_char_app (a b : ascii) (s1 s2 : string) :
  replace_char a b (s1 +:+ s2) = replace_char a b s1 +:+ replace_char a b s2.
Proof. induction s1 as [|x s1 IH]; simpl; [done|]. by rewrite IH. Qed.

Lemma replace_char_absent (a b : ascii) (s : string) :
  a <> b -> contains_char a (replace_char a b s) = false.
Proof.
  intros Hab. induction s as [|x s IH]; simpl; [done|]. rewrite IH, orb_false_r.
  destruct (Ascii.eqb_spec x a) as [->|Hx].
  - apply Ascii.eqb_neq. congruence.
  - by apply Ascii.eqb_neq.
Qed.

Lemma replace_char_id (a b : ascii) (s : string) :
  contains_char a s = false -> replace_char a b s = s.
Proof.
  induction s as [|x s IH]; simpl; [done|].
  intros [Hx Hs]%orb_false_iff. by rewrite Hx, IH.
Qed.

Lemma replace_char_other (a b c : ascii) (s : string) :
  c <> a -> c <> b -> contains_char c (replace_char a b s) = contains_char c s.
Proof.
  intros Ha Hb. induction s as [|x s IH]; simpl; [done|]. rewrite IH. f_equal.
  destruct (Ascii.eqb_spec x a) as [->|Hx]; [|done].
  transitivity false; [|symmetry]; apply Ascii.eqb_neq; congruence.
Qed.

Lemma split_char_parts (sep c : ascii) (s : string) :
  contains_char c s = false ->
  Forall (fun p => contains_char c p = false) (split_char sep s).
Proof.
  induction s as [|x s IH]; simpl; [by repeat constructor|].
  intros [Hx Hs]%orb_false_iff. specialize (IH Hs).
  destruct (Ascii.eqb x sep); [by constructor|].
  destruct (split_char sep s) as [|p ps].
  - repeat constructor. simpl. by rewrite Hx.
  - apply Forall_cons in IH as [Hp Hps]. constructor; [|done].
    simpl. by rewrite Hx.
Qed.

Lemma split_char_none (sep : ascii) (s : string) :
  contains_char sep s = false -> split_char sep s = [s].
Proof.
  induction s as [|x s IH]; simpl; [done|].
  intros [Hx Hs]%orb_false_iff. by rewrite Hx, IH.
Qed.

Lemma split_char_app (sep : ascii) (a b : string) :
  contains_char sep a = false ->
  split_char sep (a +:+ String sep b) = a :: split_char sep b.
Proof.
  induction a as [|x a IH]; simpl.
  - intros _. by rewrite Ascii.eqb_refl.
  - intros [Hx Ha]%orb_false_iff. by rewrite Hx, IH.
Qed.

End StrFacts.

(** ** The symbol sent to the exchange client *)

Module NormalizeFacts.

Lemma normalize_unfold (sym : string) :
  B._normalize_symbol sym
  = let b := PyStr.replace_char "-" "/" sym in
    if PyStr.contains_char ":" b then b
    else match PyStr.split_char "/" b with
         | [p0; p1] => p0 +:+ "/" +:+ p1 +:+ ":" +:+ p1
         | _ => b
         end.
Proof. unfold B._normalize_symbol. cbv zeta. by destruct (PyStr.contains_char _ _). Qed.

Lemma replaced_no_dash (sym : string) :
  PyStr.contains_char "-" (PyStr.replace_char "-" "/" sym) = false.
Proof. by apply StrFacts.replace_char_absent. Qed.

Lemma normalize_fixed (s : string) :
  PyStr.contains_char "-" s = false -> PyStr.contains_char ":" s = true ->
  B._normalize_symbol s = s.
Proof.
  intros Hd Hc. rewrite normalize_unfold. cbv zeta.
  rewrite (StrFacts.replace_char_id _ _ _ Hd). by rewrite Hc.
Qed.

Lemma normalize_colon (sym : string) :
  PyStr.contains_char ":" sym = true ->
  B._normalize_symbol sym = PyStr.replace_char "-" "/" sym.
Proof.
  intros Hc. rewrite normalize_unfold. cbv zeta.
  by rewrite StrFacts.replace_char_other, Hc.
Qed.

Lemma joined_no_dash (p0 p1 : string) :
  PyStr.contains_char "-" p0 = false -> PyStr.contains_char "-" p1 = false ->
  PyStr.contains_char "-" (p0 +:+ "/" +:+ p1 +:+ ":" +:+ p1) = false.
Proof.
  intros H0 H1. rewrite !StrFacts.contains_char_app. simpl. by rewrite H0, H1.
Qed.

Lemma joined_colon (p0 p1 : string) :
  PyStr.contains_char ":" (p0 +:+ "/" +:+ p1 +:+ ":" +:+ p1) = true.
Proof. rewrite !StrFacts.contains_char_app. simpl. by rewrite !orb_true_r. Qed.

Lemma normalize_no_dash (sym : string) :
  PyStr.contains_char "-" (B._normalize_symbol sym) = false.
Proof.
  rewrite normalize_unfold. cbv zeta.
  pose proof (replaced_no_dash sym) as H0.
  pose proof (StrFacts.split_char_parts "/" _ _ H0) as Hparts.
  destruct (PyStr.contains_char ":" _); [done|].
  destruct (PyStr.split_char "/" _) as [|p0 [|p1 [|p2 l]]]; try exact H0.
  apply Forall_cons in Hparts as [Hp0 Hp1].
  apply Forall_cons in Hp1 as [Hp1 _]. by apply joined_no_dash.
Qed.

Lemma normalize_idempotent (sym : string) :
  B._normalize_symbol (B._normalize_symbol sym) = B._normalize_symbol sym.
Proof.
  pose proof (replaced_no_dash sym) as H0.
  pose proof (StrFacts.split_char_parts "/" _ _ H0) as Hparts.
  rewrite (normalize_unfold sym). cbv zeta.
  destruct (PyStr.contains_char ":" (PyStr.replace_char "-" "/" sym)) eqn:Ec.
  { by apply normalize_fixed. }
  assert (B._normalize_symbol (PyStr.replace_char "-" "/" sym)
          = match PyStr.split_char "/" (PyStr.replace_char "-" "/" sym) with
            | [p0; p1] => p0 +:+ "/" +:+ p1 +:+ ":" +:+ p1
            | _ => PyStr.replace_char "-" "/" sym
            end) as Hb.
  { rewrite normalize_unfold. cbv zeta.
    rewrite (StrFacts.replace_char_id _ _ _ H0). by rewrite Ec. }
  destruct (PyStr.split_char "/" _) as [|p0 [|p1 [|p2 l]]]; try exact Hb.
  apply Forall_cons in Hparts as [Hp0 Hp1].
  apply Forall_cons in Hp1 as [Hp1 _].
  apply normalize_fixed; [by apply joined_no_dash|apply joined_colon].
Qed.

Lemma normalize_pair (base quote : string) :
  (forall c, c ∈ ["-"; "/"; ":"]%char ->
     PyStr.contains_char c base = false /\ PyStr.contains_char c quote = false) ->
  B._normalize_symbol (base +:+ "-" +:+ quote)
  = base +:+ "/" +:+ quote +:+ ":" +:+ quote.
Proof.
  intros Hfree.
  destruct (Hfree "-"%char) as [Hb1 Hq1]; [by left|].
  destruct (Hfree "/"%char) as [Hb2 Hq2]; [right; by left|].
  destruct (Hfree ":"%char) as [Hb3 Hq3]; [right; right; by left|].
  rewrite normalize_unfold. cbv zeta.
  change (base +:+ "-" +:+ quote) with (base +:+ String "-" quote).
  rewrite StrFacts.replace_char_app. simpl.
  rewrite !StrFacts.replace_char_id by done.
  rewrite StrFacts.contains_char_app. simpl. rewrite Hb3, Hq3. simpl.
  by rewrite StrFacts.split_char_app, StrFacts.split_char_none.
Qed.

End NormalizeFacts.

(** ** More on the execution simulator *)

Module PriceFacts.
Import StockPaperTrading.

(** The first truthy price among the three of [fast_info]. *)
Lemma or_else_chain (a b c : option float) :
  match or_else (or_else a b) c with
  | Some price => if Py.truthy_float price then Some price else None
  | None => None
  end
  = head (filter (fun p => Py.truthy_float p = true) (omap id [a; b; c])).
Proof.
  unfold or_else.
  destruct a as [a|], b as [b|], c as [c|]; simpl;
    repeat (match goal with
            | |- context [Py.truthy_float ?x] =>
                let E := fresh "E" in
                destruct (Py.truthy_float x) eqn:E; simpl
            | |- context [decide (?b = true)] =>
                rewrite ?(decide_True (P := b = true)) by done;
                rewrite ?(decide_False (P := b = true)) by (by intros ?)
            end);
    rewrite ?filter_cons, ?filter_nil; simpl;
    repeat case_decide; try done; try congruence.
Qed.

Section Execute.
Variable now_eastern : nat -> datetime.
Variable ticker_history : nat -> string -> outcome (list float).
Variable ticker_fast_info : nat -> string -> outcome (option fast_info).
Variable upper : string -> string.
Variable derive_side_from_action : option string -> option TradeSide.

Local Abbreviation _get_current_price :=
  (_get_current_price ticker_history ticker_fast_info upper).
Local Abbreviation reference_price :=
  (reference_price ticker_history ticker_fast_info upper).
Local Abbreviation execute_one :=
  (execute_one now_eastern ticker_history ticker_fast_info upper
     derive_side_from_action).

(** The ticker asked for is the one the stock data source would ask for. *)
Lemma _get_current_price_normalized (k : nat) (sym : string) :
  _get_current_price k sym
  = let normalized := StockBacktestDataSource._normalize_symbol upper sym in
    match ticker_history k normalized with
    | Raised => None
    | Returned closes =>
        match last closes with
        | Some c => Some c
        | None =>
            match ticker_fast_info k normalized with
            | Raised => None
            | Returned None => None
            | Returned (Some fi) =>
                head (filter (fun p => Py.truthy_float p = true)
                        (omap id [last_price fi; regular_market_price fi;
                                  last_close fi]))
            end
        end
    end.
Proof.
  unfold StockPaperTrading._get_current_price,
    StockBacktestDataSource._normalize_symbol. cbv zeta.
  destruct (PyStr.contains_char "-" sym);
    (destruct (ticker_history k _) as [closes|]; [|done];
     destruct (last closes); [done|];
     destruct (ticker_fast_info k _) as [[fi|]|]; try done;
     apply or_else_chain).
Qed.

Lemma reference_price_live (pm : gmap string float) (k : nat) (sym : string) :
  no_price (_get_current_price k sym) = false ->
  reference_price pm k sym = default 0%float (_get_current_price k sym).
Proof. unfold StockPaperTrading.reference_price. by intros ->. Qed.

Lemma reference_price_fallback (pm : gmap string float) (k : nat) (sym : string) :
  no_price (_get_current_price k sym) = true ->
  reference_price pm k sym = fallback_price pm sym.
Proof. unfold StockPaperTrading.reference_price. by intros ->. Qed.

Lemma execute_one_price_map (g : Gateway) (pm pm' : gmap string float) (k : nat)
    (inst : TradeInstruction.t) :
  no_price (_get_current_price k (symbol (TradeInstruction.instrument inst))) = false ->
  execute_one g pm k inst = execute_one g pm' k inst.
Proof.
  intros H. unfold StockPaperTrading.execute_one.
  by rewrite !(reference_price_live _ _ _ H).
Qed.

(** The two rejections and the fill, by what decides them. *)
Lemma execute_one_cases (g : Gateway) (pm : gmap string float) (k : nat)
    (inst : TradeInstruction.t) :
  let r := execute_one g pm k inst in
  TxResult.requested_qty r = TradeInstruction.quantity inst /\
  TxResult.side r = resolve_side derive_side_from_action inst /\
  ((TxResult.status r = REJECTED /\
    (TxResult.reason r = Some "market_closed"%string \/
     TxResult.reason r = Some "no_price_data"%string) /\
    TxResult.filled_qty r = 0%float /\ TxResult.avg_exec_price r = None /\
    TxResult.slippage_bps r = None /\ TxResult.fee_cost r = None /\
    TxResult.leverage r = None) \/
   (TxResult.status r = FILLED /\ TxResult.reason r = None /\
    TxResult.filled_qty r = TradeInstruction.quantity inst /\
    is_Some (TxResult.avg_exec_price r) /\
    TxResult.leverage r = TradeInstruction.leverage inst)).
Proof.
  unfold StockPaperTrading.execute_one. cbv zeta.
  destruct (_ && _); simpl.
  { split; [done|]. split; [done|]. left. repeat split; try done. by left. }
  destruct (PrimFloat.leb _ _); simpl.
  { split; [done|]. split; [done|]. left. repeat split; try done. by right. }
  split; [done|]. split; [done|]. right. repeat split; try done.
Qed.

Lemma execute_one_closed_reason (g : Gateway) (pm : gmap string float) (k : nat)
    (inst : TradeInstruction.t) :
  TxResult.reason (execute_one g pm k inst) = Some "market_closed"%string <->
  _enforce_market_hours g = true /\ is_us_market_open (now_eastern k) = false.
Proof.
  unfold StockPaperTrading.execute_one. cbv zeta.
  destruct (_enforce_market_hours g), (is_us_market_open (now_eastern k)); simpl;
    try (destruct (PrimFloat.leb _ _); simpl);
    split; first [by intros [? ?] | by intros ? | done].
Qed.

End Execute.

Lemma execute_one_clock (now now' : nat -> datetime)
    (ticker_history : nat -> string -> outcome (list float))
    (ticker_fast_info : nat -> string -> outcome (option fast_info))
    (upper : string -> string)
    (derive_side_from_action : option string -> option TradeSide)
    (g : Gateway) (pm : gmap string float) (k : nat) (inst : TradeInstruction.t) :
  _enforce_market_hours g = false ->
  execute_one now ticker_history ticker_fast_info upper derive_side_from_action
    g pm k inst
  = execute_one now' ticker_history ticker_fast_info upper derive_side_from_action
      g pm k inst.
Proof. intros H. unfold execute_one. by rewrite H. Qed.

End PriceFacts.

(** ** The runtime and its data source *)

Module RuntimeFacts.
Import Runtime.

(** At its start a data source whose range is not empty is not finished
    and has made no progress. *)
Lemma crypto_at_start (s : B.State) :
  B._current_ts s = B._start_ts s -> B._start_ts s < B._end_ts s ->
  B.is_finished s = false /\ (B.get_progress_pct s == 0)%Q.
Proof.
  intros Hc Hlt. split.
  - apply BacktestFacts.is_finished_false_iff. lia.
  - rewrite BacktestFacts.get_progress_pct_running by done.
    rewrite Hc, Z.sub_diag. unfold Py.min.
    destruct (Qlt_le_dec _ _) as [_|Hle].
    + apply ProgressFacts.ratio_pct_zero.
    + rewrite ProgressFacts.ratio_pct_zero in Hle. by apply Qle_bool_iff in Hle.
Qed.

Lemma stock_at_start (s : S.State) :
  S._current_ts s = S._start_ts s -> S._start_ts s < S._end_ts s ->
  S.is_finished s = false /\ (S.get_progress_pct s == 0)%Q.
Proof.
  intros Hc Hlt. split.
  - apply StockBacktestFacts.stock_is_finished_false_iff. lia.
  - rewrite StockBacktestFacts.stock_get_progress_pct_running by done.
    rewrite Hc, Z.sub_diag. unfold Py.min.
    destruct (Qlt_le_dec _ _) as [_|Hle].
    + apply ProgressFacts.ratio_pct_zero.
    + rewrite ProgressFacts.ratio_pct_zero in Hle. by apply Qle_bool_iff in Hle.
Qed.

Lemma or_okx_init (e : option string) (symbols : list string) (a b : Z) :
  B._exchange_id (B.__init__ (or_okx e) symbols a b) = or_okx e.
Proof.
  simpl. destruct e as [e|]; simpl; [|done].
  destruct (String.eqb e EmptyString) eqn:E; [done|]. by rewrite E.
Qed.

Lemma falsy_ts_false (t : option Z) :
  falsy_ts t = false <-> exists z, t = Some z /\ z <> 0.
Proof.
  destruct t as [z|]; simpl.
  - rewrite Z.eqb_neq. split; [intros H; by exists z|by intros (z' & [= <-] & H)].
  - split; [done|by intros (z' & [=] & _)].
Qed.

Section Create.
Variable fetch_ohlcv : string -> string -> Z -> nat -> B.fetch_reply.
Variable exchange_known : string -> bool.
Variable history : string -> string -> string -> string -> S.history_reply.
Variable date_str : Z -> outcome string.
Variable upper : string -> string.

Local Abbreviation backtest_block :=
  (backtest_block fetch_ohlcv exchange_known history date_str upper).

Lemma backtest_block_other_mode fuel req :
  ExchangeConfig.trading_mode (UserRequest.exchange_config req) <> BACKTEST ->
  backtest_block fuel req = Some (Returned None).
Proof.
  unfold Runtime.backtest_block. by destruct (ExchangeConfig.trading_mode _).
Qed.

Lemma backtest_block_returned fuel req ods :
  ExchangeConfig.trading_mode (UserRequest.exchange_config req) = BACKTEST ->
  backtest_block fuel req = Some (Returned ods) ->
  exists ds start_ts end_ts,
    ods = Some ds /\
    TradingConfig.backtest_start_ts (UserRequest.trading_config req) = Some start_ts /\
    TradingConfig.backtest_end_ts (UserRequest.trading_config req) = Some end_ts /\
    start_ts <> 0 /\ end_ts <> 0 /\ start_ts < end_ts /\
    as_created req start_ts end_ts ds.
Proof.
  intros Hm. unfold Runtime.backtest_block. rewrite Hm. cbv zeta.
  destruct (falsy_ts (TradingConfig.backtest_start_ts _)) eqn:Ea; [done|].
  destruct (falsy_ts (TradingConfig.backtest_end_ts _)) eqn:Eb; [done|].
  apply falsy_ts_false in Ea as (a & Ea & Ha).
  apply falsy_ts_false in Eb as (b & Eb & Hb).
  rewrite Ea, Eb. simpl.
  destruct (Z.leb_spec b a) as [|Hlt]; [done|].
  destruct (ExchangeConfig.asset_class _) eqn:Ek.
  - destruct (B.preload_data _ _ _ _ _) as [[[[]|] s']|] eqn:Ep; try done.
    intros [= <-]. exists (Crypto s'), a, b.
    pose proof (BacktestFacts.preload_data_returned_flag _ _ _ _ _ _ Ep) as Hf.
    apply BacktestFacts.preload_data_fields in Ep as ((He & Hsy & Hs & Hend) & Hc).
    rewrite or_okx_init in He. simpl in *.
    unfold as_created. rewrite Ek. by repeat split.
  - destruct (S.preload_data _ _ _ _ _) as [[[]|] s'] eqn:Ep; try done.
    intros [= <-]. exists (Stock s'), a, b.
    pose proof (StockBacktestFacts.stock_preload_data_returned_flag
                  _ _ _ _ _ _ Ep) as Hf.
    apply StockBacktestFacts.stock_preload_data_fields in Ep
      as ((Hsy & Hs & Hend) & Hc).
    simpl in *. unfold as_created. rewrite Ek. by repeat split.
Qed.

Lemma backtest_block_misconfigured fuel req :
  ExchangeConfig.trading_mode (UserRequest.exchange_config req) = BACKTEST ->
  let start_ts := TradingConfig.backtest_start_ts (UserRequest.trading_config req) in
  let end_ts := TradingConfig.backtest_end_ts (UserRequest.trading_config req) in
  start_ts = None \/ start_ts = Some 0 \/ end_ts = None \/ end_ts = Some 0 \/
  (exists a b, start_ts = Some a /\ end_ts = Some b /\ b <= a) ->
  backtest_block fuel req = Some Raised.
Proof.
  intros Hm start_ts end_ts H. unfold Runtime.backtest_block. rewrite Hm. cbv zeta.
  fold start_ts end_ts.
  destruct H as [->|[->|[->|[->|(a & b & -> & -> & Hle)]]]]; simpl; try done.
  - by rewrite orb_true_r.
  - by rewrite orb_true_r.
  - destruct (a =? 0), (b =? 0); simpl; try done.
    by destruct (Z.leb_spec b a); [|lia].
Qed.

End Create.

End RuntimeFacts.

(** ** Preloads that do not return, and preloads that raise *)

Module PreloadEdgeFacts.

Section Crypto.
Import BacktestDataSource.
Variable fetch_ohlcv : string -> string -> Z -> nat -> fetch_reply.
Variable exchange_known : string -> bool.

Local Abbreviation paginate := (paginate fetch_ohlcv).
Local Abbreviation fetch_pages := (fetch_pages fetch_ohlcv).
Local Abbreviation _fetch_symbol := (_fetch_symbol fetch_ohlcv exchange_known).
Local Abbreviation _preload_interval := (_preload_interval fetch_ohlcv exchange_known).
Local Abbreviation preload_intervals := (preload_intervals fetch_ohlcv exchange_known).
Local Abbreviation preload_data := (preload_data fetch_ohlcv exchange_known).
Local Abbreviation step := (step fetch_ohlcv exchange_known).
Local Abbreviation run := (run fetch_ohlcv exchange_known).

(** Every page the provider sends ends before [end_ts]. *)
Local Abbreviation stuck s :=
  (forall nsym itv since n, exists raw last_row,
     fetch_ohlcv nsym itv since n = FetchRows raw /\
     last raw = Some last_row /\ row_ts last_row < _end_ts s).

Lemma paginate_stuck fuel s sym itv n raw last_row cs :
  stuck s -> last raw = Some last_row -> row_ts last_row < _end_ts s ->
  paginate fuel s sym itv n raw cs = None.
Proof.
  intros Hst. revert n raw last_row cs.
  induction fuel as [|fuel IH]; intros n raw last_row cs Hl Hlt; simpl; [done|].
  rewrite Hl. destruct (Z.leb_spec (_end_ts s) (row_ts last_row)); [lia|].
  destruct (Hst (_normalize_symbol sym) itv (row_ts last_row + 1) n)
    as (raw' & last' & -> & Hl' & Hlt').
  by eapply IH.
Qed.

Lemma _fetch_symbol_stuck fuel s itv sym :
  stuck s -> exchange_known (_exchange_id s) = true ->
  _fetch_symbol fuel s itv sym = None.
Proof.
  intros Hst Hk. unfold BacktestDataSource._fetch_symbol. rewrite Hk.
  unfold BacktestDataSource.fetch_pages.
  destruct (Hst (_normalize_symbol sym) itv (_start_ts s) 0%nat)
    as (raw & last_row & -> & Hl & Hlt).
  by rewrite (paginate_stuck _ _ _ _ _ _ _ _ Hst Hl Hlt).
Qed.

Lemma gather_none {A} (tasks : list (option (outcome A))) :
  tasks <> [] -> Forall (fun t => t = None) tasks -> gather tasks = None.
Proof.
  induction tasks as [|t tasks IH]; [done|]. intros _ Hall.
  apply Forall_cons in Hall as [-> Hall]. simpl.
  destruct tasks as [|t' tasks]; [done|]. by rewrite IH.
Qed.

Lemma preload_data_stuck fuel s ivs :
  stuck s -> _is_preloaded s = false -> exchange_known (_exchange_id s) = true ->
  _symbols s <> [] -> preload_data fuel s ivs = None.
Proof.
  intros Hst Hp Hk Hne. unfold BacktestDataSource.preload_data. rewrite Hp.
  assert (forall itv, _preload_interval fuel s itv = None) as Hpass.
  { intros itv. unfold BacktestDataSource._preload_interval.
    rewrite gather_none; [done| |].
    - by destruct (_symbols s).
    - apply Forall_map, Forall_forall. intros sym _.
      by apply _fetch_symbol_stuck. }
  destruct ivs as [[|itv ivs]|]; simpl; by rewrite Hpass.
Qed.

(** An exchange that is not known makes the first pass raise. *)
Lemma preload_data_unknown_exchange fuel s ivs :
  _is_preloaded s = false -> exchange_known (_exchange_id s) = false ->
  _symbols s <> [] -> preload_data fuel s ivs = Some (Raised, s).
Proof.
  intros Hp Hk Hne. unfold BacktestDataSource.preload_data. rewrite Hp.
  assert (forall itv, _preload_interval fuel s itv = Some Raised) as Hpass.
  { intros itv. unfold BacktestDataSource._preload_interval.
    destruct (_symbols s) as [|sym syms]; [done|]. simpl.
    unfold BacktestDataSource._fetch_symbol at 1. by rewrite Hk. }
  destruct ivs as [[|itv ivs]|]; simpl; by rewrite Hpass.
Qed.

(** No method writes the snapshot cache. *)
Lemma foldl_store_snapshot_cache (itv : string) (es : list (string * list Candle))
    (s : State) :
  _snapshot_cache (foldl (store itv) s es) = _snapshot_cache s.
Proof.
  revert s. induction es as [|[sym cs] es IH]; intros s; simpl; [done|].
  by rewrite IH.
Qed.

Lemma preload_intervals_snapshot_cache fuel ivs s r s' :
  preload_intervals fuel s ivs = Some (r, s') ->
  _snapshot_cache s' = _snapshot_cache s.
Proof.
  revert s. induction ivs as [|itv ivs IH]; intros s; simpl.
  - intros; by simplify_eq.
  - unfold BacktestDataSource._preload_interval.
    destruct (gather _) as [[results|]|]; intros H; simplify_eq; [|done].
    rewrite (IH _ H). apply foldl_store_snapshot_cache.
Qed.

Lemma step_snapshot_cache s o s' :
  step s o s' -> _snapshot_cache s' = _snapshot_cache s.
Proof.
  destruct 1 as [s d|s|s fuel ivs r s' H|s]; try done.
  revert H. unfold BacktestDataSource.preload_data.
  destruct (_is_preloaded s); [intros; by simplify_eq|].
  destruct (BacktestDataSource.preload_intervals _ _ fuel s _)
    as [[[[]|] s1]|] eqn:E; intros; simplify_eq;
    by apply preload_intervals_snapshot_cache in E.
Qed.

Lemma run_snapshot_cache s ops s' :
  run s ops s' -> _snapshot_cache s' = _snapshot_cache s.
Proof.
  induction 1 as [|s o s1 os s2 Hstep _ IH]; [done|].
  rewrite IH. by eapply step_snapshot_cache.
Qed.

End Crypto.

Section Stock.
Import StockBacktestDataSource.
Variable history : string -> string -> string -> string -> history_reply.
Variable date_str : Z -> outcome string.
Variable upper : string -> string.

Local Abbreviation preload_data := (preload_data history date_str upper).

(** A range that cannot be turned into dates makes the first pass raise. *)
Lemma stock_preload_data_bad_date s ivs :
  _is_preloaded s = false ->
  date_str (_start_ts s) = Raised \/ date_str (_end_ts s) = Raised ->
  preload_data s ivs = (Raised, s).
Proof.
  intros Hp Hd. unfold StockBacktestDataSource.preload_data. rewrite Hp.
  assert (forall itv, StockBacktestDataSource._preload_interval
                        history date_str upper s itv = Raised) as Hpass.
  { intros itv. unfold StockBacktestDataSource._preload_interval.
    destruct Hd as [-> | ->]; [done|]. by destruct (date_str (_start_ts s)). }
  destruct ivs as [[|itv ivs]|]; simpl; by rewrite Hpass.
Qed.

End Stock.

End PreloadEdgeFacts.

(** * The claims

    The claims of the specification, in their order; a claim that has a
    premise is followed by an instance at a concrete scenario. *)

(** C1.  No lookahead: whatever the clock position, the symbols, the
    interval and the lookback, every candle [get_recent_candles] returns
    has a timestamp at or before [current_ts], on the crypto and on the
    stock data source. *)
Theorem C1_no_lookahead (sc : B.State) (ss : S.State) (symbols : list string)
    (itv : string) (lookback : Z) :
  Forall (fun c => ts c <= B._current_ts sc)
         (B.get_recent_candles sc symbols itv lookback) /\
  Forall (fun c => ts c <= S._current_ts ss)
         (S.get_recent_candles ss symbols itv lookback).
Proof.
  split; apply Forall_forall; intros c Hc.
  - by eapply BacktestFacts.get_recent_candles_no_lookahead.
  - by eapply StockBacktestFacts.stock_get_recent_candles_no_lookahead.
Qed.

(** A zero override is not used (the default is), and a fee of zero is
    reported as no fee: two points where the fill differs from C2 as it is
    stated. *)
Lemma C2_counterexample :
  let g := G.__init__ 0 0 10 false in
  let inst :=
    TradeInstruction.mk "i1" (mkInstrumentRef "AAPL" "yfinance") (Some BUY) None
                        2%float (Some 0%float) None None in
  let r :=
    G.execute_one (fun _ => mkDatetime 0 12 0 0 0)
                  (fun _ _ => Returned [100%float]) (fun _ _ => Raised)
                  (fun s => s) (fun _ => None) g ∅ 0%nat inst in
  let P := 100%float in
  let q := TradeInstruction.quantity inst in
  TxResult.status r = FILLED /\ TxResult.side r = BUY /\
  PrimFloat.ltb 0 P = true /\
  TradeInstruction.max_slippage_bps inst = Some 0%float /\
  TxResult.avg_exec_price r <> Some (P * (1 + 0 / 10000))%float /\
  TxResult.fee_cost r
  <> Some ((P * (1 + 10 / 10000)) * q * (G._fee_bps g / 10000)
           + q * G._fee_per_share g)%float.
Proof.
  repeat split; try reflexivity; intros H;
    apply (f_equal (fun o => match o with
                             | Some x => Some (Prim2SF x)
                             | None => None
                             end)) in H;
    vm_compute in H; discriminate H.
Qed.

(** C2, as the code has it.  An instruction that passes the market-hours
    check and resolves a reference price [P > 0] is FILLED in full:
    [filled_qty = requested_qty], the quantity of the instruction, and a
    price is given.  The side of the result is the side of the instruction:
    its own [side] when it has one, else the one derived from its [action],
    else BUY.  For that side, [avg_exec_price] is [P * (1 + s/10000)] when
    it is BUY and [P * (1 - s/10000)] when it is SELL, where [s] is the
    override of the instruction when it has one that is not zero, and the
    configured default when it has none; and [fee_cost] is
    [exec_price * qty * (fee_bps/10000) + qty * fee_per_share] when that
    amount is above zero, and absent otherwise. *)
Theorem C2_fill_postcondition
    (now_eastern : nat -> datetime)
    (ticker_history : nat -> string -> outcome (list float))
    (ticker_fast_info : nat -> string -> outcome (option G.fast_info))
    (upper : string -> string)
    (derive_side_from_action : option string -> option TradeSide)
    (FeatureVector : Type)
    (extract_price_map : list FeatureVector -> gmap string float)
    (g : G.Gateway) (instructions : list TradeInstruction.t)
    (market_features : option (list FeatureVector))
    (k : nat) (inst : TradeInstruction.t) (P : float) :
  instructions !! k = Some inst ->
  G.gate_passes now_eastern g k ->
  G.reference_price ticker_history ticker_fast_info upper
    (extract_price_map (default [] market_features)) k
    (symbol (TradeInstruction.instrument inst)) = P ->
  PrimFloat.ltb 0 P = true ->
  let side_of_instruction :=
    match TradeInstruction.side inst with
    | Some sd => sd
    | None =>
        match derive_side_from_action (TradeInstruction.action inst) with
        | Some sd => sd
        | None => BUY
        end
    end in
  exists r,
    (G.execute now_eastern ticker_history ticker_fast_info upper
       derive_side_from_action FeatureVector extract_price_map
       g instructions market_features).2 !! k = Some r /\
    TxResult.status r = FILLED /\
    TxResult.requested_qty r = TradeInstruction.quantity inst /\
    TxResult.filled_qty r = TxResult.requested_qty r /\
    TxResult.side r = side_of_instruction /\
    is_Some (TxResult.avg_exec_price r) /\
    forall s : float,
      (TradeInstruction.max_slippage_bps inst = Some s /\ Py.truthy_float s = true) \/
      (TradeInstruction.max_slippage_bps inst = None /\ s = G._slippage_bps g) ->
      let exec_price :=
        match side_of_instruction with
        | BUY => (P * (1 + s / 10000))%float
        | SELL => (P * (1 - s / 10000))%float
        end in
      let qty := TradeInstruction.quantity inst in
      let fee :=
        (exec_price * qty * (G._fee_bps g / 10000) + qty * G._fee_per_share g)%float in
      TxResult.avg_exec_price r = Some exec_price /\
      TxResult.fee_cost r = (if PrimFloat.ltb 0 fee then Some fee else None).
Proof.
  intros Hk Hg HP Hpos side_of_instruction.
  exists (G.execute_one now_eastern ticker_history ticker_fast_info upper
            derive_side_from_action g
            (extract_price_map (default [] market_features)) k inst).
  split; [by rewrite GatewayFacts.execute_lookup, Hk|].
  rewrite GatewayFacts.execute_one_fill;
    [|done|rewrite HP; by apply GatewayFacts.float_pos_not_le0].
  rewrite HP. cbn.
  assert (G.resolve_side derive_side_from_action inst = side_of_instruction) as ->.
  { unfold G.resolve_side, side_of_instruction.
    destruct (TradeInstruction.side inst); [done|].
    by destruct (derive_side_from_action _). }
  split; [done|]. split; [done|]. split; [done|]. split; [done|].
  split; [by eexists|].
  intros s Hs.
  assert (G.effective_slippage_bps g inst = s) as ->.
  { unfold G.effective_slippage_bps.
    destruct Hs as [[-> ->]|[-> ->]]; done. }
  by split.
Qed.

(** The scenario: an order of 2 AAPL whose side comes from its action,
    "sell", at a live price of 100 on a Wednesday at 10:00 is filled in
    full at 100 less 10 basis points. *)
Lemma C2_witness :
  exists r,
    (G.execute Fixture.now_eastern Fixture.ticker_history Fixture.ticker_fast_info
       Fixture.upper Fixture.derive_side_from_action (string * float)
       Fixture.extract_price_map Fixture.gateway
       [Fixture.sell_aapl] None).2 !! 0%nat = Some r /\
    TxResult.status r = FILLED /\
    TxResult.filled_qty r = TxResult.requested_qty r /\
    TxResult.side r = SELL /\
    TxResult.avg_exec_price r = Some (100 * (1 - 10 / 10000))%float.
Proof.
  destruct (C2_fill_postcondition
              Fixture.now_eastern Fixture.ticker_history Fixture.ticker_fast_info
              Fixture.upper Fixture.derive_side_from_action (string * float)
              Fixture.extract_price_map Fixture.gateway
              [Fixture.sell_aapl] None 0%nat Fixture.sell_aapl 100%float)
    as (r & Hr & Hst & _ & Hq & Hside & _ & Hprice).
  - reflexivity.
  - by right.
  - reflexivity.
  - reflexivity.
  - destruct (Hprice 10%float) as [Hp _]; [right; by split|].
    exists r. split; [exact Hr|]. split; [exact Hst|]. split; [exact Hq|].
    split; [exact Hside|exact Hp].
Defined.

(** C3.  The code at a price that is not a number.  The last close of
    the one-minute history of AAPL is NaN, there is no entry for AAPL in the
    price map, and the order passes the market-hours check.  Neither source
    yields a positive price ([0 < nan] is false, the fallback is 0), yet
    the order is not rejected: [nan <= 0] is false at both guards of
    [execute], and the result is FILLED with an execution price that is
    not a number.  The connection test of the same gateway, which asks
    [price > 0], does turn the same price down. *)
Theorem C3_nan_price_is_not_rejected :
  let ticker_history := fun (_ : nat) (_ : string) => Returned [nan] in
  let live :=
    G._get_current_price ticker_history Fixture.ticker_fast_info Fixture.upper
      0 "AAPL" in
  let out :=
    G.execute Fixture.now_eastern ticker_history Fixture.ticker_fast_info
      Fixture.upper Fixture.derive_side_from_action (string * float)
      Fixture.extract_price_map Fixture.gateway [Fixture.buy_aapl] None in
  G.gate_passes Fixture.now_eastern Fixture.gateway 0 /\
  live = Some nan /\
  PrimFloat.ltb 0 nan = false /\
  PrimFloat.ltb 0 (G.fallback_price (Fixture.extract_price_map []) "AAPL") = false /\
  G.test_connection ticker_history Fixture.ticker_fast_info Fixture.upper 0 = false /\
  exists r,
    out.2 !! 0%nat = Some r /\
    TxResult.status r = FILLED /\
    TxResult.reason r = None /\
    TxResult.filled_qty r = TradeInstruction.quantity Fixture.buy_aapl /\
    TxResult.avg_exec_price r = Some nan.
Proof.
  split; [by right|]. split; [reflexivity|]. split; [reflexivity|].
  split; [reflexivity|]. split; [reflexivity|].
  eexists. split; [reflexivity|]. repeat split.
Qed.

(** C4.  Sortedness: when [preload_data] has returned, at any point of the
    life of a data source, every series stored in its candle cache has
    each pair of adjacent candles in ascending order of timestamp.  (The
    first conjunct is the crypto source, the second the stock source.) *)
Theorem C4_cache_sorted_after_preload
    (fetch_ohlcv : string -> string -> Z -> nat -> B.fetch_reply)
    (exchange_known : string -> bool)
    (history : string -> string -> string -> string -> S.history_reply)
    (date_str : Z -> outcome string) (upper : string -> string)
    (exchange_id : string) (symbols : list string) (start_ts end_ts : Z)
    (opsc : list B.op) (sc sc' : B.State) (fuel : nat)
    (opss : list S.op) (ss ss' : S.State)
    (intervals : option (list string)) :
  (B.run fetch_ohlcv exchange_known
         (B.__init__ exchange_id symbols start_ts end_ts) opsc sc ->
   B.preload_data fetch_ohlcv exchange_known fuel sc intervals
     = Some (Returned tt, sc') ->
   forall sym itv m series,
     B._candle_cache sc' !! sym = Some m -> m !! itv = Some series ->
     forall i a b, series !! i = Some a -> series !! S i = Some b -> ts a <= ts b)
  /\
  (S.run history date_str upper (S.__init__ symbols start_ts end_ts) opss ss ->
   S.preload_data history date_str upper ss intervals = (Returned tt, ss') ->
   forall sym itv m series,
     S._candle_cache ss' !! sym = Some m -> m !! itv = Some series ->
     forall i a b, series !! i = Some a -> series !! S i = Some b -> ts a <= ts b).
Proof.
  split.
  - intros Hrun Hpre.
    apply (BacktestFacts.preload_data_cache_sorted _ _ _ _ _ _ _ Hpre).
    apply (BacktestFacts.run_cache_sorted _ _ _ _ _ Hrun).
    apply BacktestFacts.init_cache_sorted.
  - intros Hrun Hpre.
    apply (StockBacktestFacts.stock_preload_data_cache_sorted _ _ _ _ _ _ _ Hpre).
    apply (StockBacktestFacts.stock_run_cache_sorted _ _ _ _ _ _ Hrun).
    apply StockBacktestFacts.stock_init_cache_sorted.
Qed.

(** The scenario: both sources, preloaded, hold sorted series. *)
Lemma C4_witness :
  exists sc' ss',
    B.preload_data Fixture.fetch_ohlcv Fixture.exchange_known 2 Fixture.crypto None
      = Some (Returned tt, sc') /\
    S.preload_data Fixture.history Fixture.date_str Fixture.upper Fixture.stock None
      = (Returned tt, ss') /\
    B.cache_sorted sc' /\ S.cache_sorted ss'.
Proof.
  eexists _, _. split; [reflexivity|]. split; [reflexivity|]. split.
  - intros sym itv m series Hm Hl.
    exact (proj1 (C4_cache_sorted_after_preload
                    Fixture.fetch_ohlcv Fixture.exchange_known
                    Fixture.history Fixture.date_str Fixture.upper
                    "okx" ["BTC-USDT"; "BAD-USDT"]%string 0 100
                    [] Fixture.crypto _ 2%nat [] Fixture.stock Fixture.stock None)
                 (B.run_nil _ _ _) eq_refl sym itv m series Hm Hl).
  - intros sym itv m series Hm Hl.
    exact (proj2 (C4_cache_sorted_after_preload
                    Fixture.fetch_ohlcv Fixture.exchange_known
                    Fixture.history Fixture.date_str Fixture.upper
                    "okx" ["QQQ"; "BAD"]%string 0 100
                    [] Fixture.crypto Fixture.crypto 0%nat [] Fixture.stock _ None)
                 (S.run_nil _ _ _ _) eq_refl sym itv m series Hm Hl).
Defined.

(** A negative [interval_ms] takes the clock back below [start_ts]: the
    invariant of C5 does not hold for every argument of [advance_time]. *)
Lemma C5_counterexample :
  let s0 := B.__init__ "okx" ["BTC-USDT"]%string 0 10000 in
  let s1 := B.advance_time s0 (-5000) in
  ~ (B._start_ts s1 <= B._current_ts s1) /\
  ~ (B._current_ts s0 <= B._current_ts s1).
Proof. simpl. lia. Qed.

(** C5, as the code has it.  Along every history of a data source in which
    no [advance_time] is given a negative [interval_ms], [start_ts <=
    current_ts] holds; every operation of such a history other than
    [reset] leaves [current_ts] where it was or moves it forward, and
    [reset] puts it back to [start_ts]; [is_finished()] is false while
    [current_ts < end_ts] and true exactly when [current_ts >= end_ts]. *)
Theorem C5_clock_invariant
    (fetch_ohlcv : string -> string -> Z -> nat -> B.fetch_reply)
    (exchange_known : string -> bool)
    (history : string -> string -> string -> string -> S.history_reply)
    (date_str : Z -> outcome string) (upper : string -> string)
    (exchange_id : string) (symbols : list string) (start_ts end_ts : Z)
    (opsc : list B.op) (sc sc' : B.State) (oc : B.op)
    (opss : list S.op) (ss ss' : S.State) (os : S.op) :
  (B.run fetch_ohlcv exchange_known
         (B.__init__ exchange_id symbols start_ts end_ts) opsc sc ->
   Forall B.forward opsc ->
   B.step fetch_ohlcv exchange_known sc oc sc' -> B.forward oc ->
   B._start_ts sc = start_ts /\ B._end_ts sc = end_ts /\
   start_ts <= B._current_ts sc /\
   (oc <> B.Reset -> B._current_ts sc <= B._current_ts sc') /\
   (oc = B.Reset -> B._current_ts sc' = start_ts) /\
   (B.is_finished sc = false <-> B._current_ts sc < end_ts) /\
   (B.is_finished sc = true <-> end_ts <= B._current_ts sc))
  /\
  (S.run history date_str upper (S.__init__ symbols start_ts end_ts) opss ss ->
   Forall S.forward opss ->
   S.step history date_str upper ss os ss' -> S.forward os ->
   S._start_ts ss = start_ts /\ S._end_ts ss = end_ts /\
   start_ts <= S._current_ts ss /\
   (os <> S.Reset -> S._current_ts ss <= S._current_ts ss') /\
   (os = S.Reset -> S._current_ts ss' = start_ts) /\
   (S.is_finished ss = false <-> S._current_ts ss < end_ts) /\
   (S.is_finished ss = true <-> end_ts <= S._current_ts ss)).
Proof.
  split.
  - intros Hrun Hfw Hstep Hoc.
    pose proof (BacktestFacts.run_same_setup _ _ _ _ _ Hrun) as (_ & _ & Hs & He).
    simpl in Hs, He.
    pose proof (BacktestFacts.run_start_le_current _ _ _ _ _ Hrun Hfw (Z.le_refl _)).
    rewrite <- Hs, <- He. repeat split; try done.
    + intros Hne. by eapply BacktestFacts.step_monotone.
    + intros ->. by rewrite (BacktestFacts.step_clock _ _ _ _ _ Hstep).
    + by apply BacktestFacts.is_finished_false_iff.
    + by apply BacktestFacts.is_finished_false_iff.
    + by apply BacktestFacts.is_finished_iff.
    + by apply BacktestFacts.is_finished_iff.
  - intros Hrun Hfw Hstep Hoc.
    pose proof (StockBacktestFacts.stock_run_same_setup _ _ _ _ _ _ Hrun) as (_ & Hs & He).
    simpl in Hs, He.
    pose proof (StockBacktestFacts.stock_run_start_le_current _ _ _ _ _ _ Hrun Hfw
                  (Z.le_refl _)).
    rewrite <- Hs, <- He. repeat split; try done.
    + intros Hne. by eapply StockBacktestFacts.stock_step_monotone.
    + intros ->. by rewrite (StockBacktestFacts.stock_step_clock _ _ _ _ _ _ Hstep).
    + by apply StockBacktestFacts.stock_is_finished_false_iff.
    + by apply StockBacktestFacts.stock_is_finished_false_iff.
    + by apply StockBacktestFacts.stock_is_finished_iff.
    + by apply StockBacktestFacts.stock_is_finished_iff.
Qed.

(** The scenario of section 8: start 0, end 10000; a preload that raises
    for want of a known exchange and [advance_time(3000)], then
    [advance_time(8000)]. *)
Lemma C5_witness :
  let fetch := fun (_ _ : string) (_ : Z) (_ : nat) => B.FetchRaises in
  let known := fun _ : string => false in
  let history := fun _ _ _ _ : string => S.HistoryRaises in
  let date_str := fun _ : Z => @Raised string in
  let upper := fun s : string => s in
  let sc := B.advance_time (B.__init__ "okx" ["BTC-USDT"]%string 0 10000) 3000 in
  let ss := S.advance_time (S.__init__ ["BTC-USDT"]%string 0 10000) 3000 in
  (0 <= B._current_ts sc /\
   B._current_ts sc <= B._current_ts (B.advance_time sc 8000) /\
   (B.is_finished sc = false <-> B._current_ts sc < 10000)) /\
  (0 <= S._current_ts ss /\
   S._current_ts ss <= S._current_ts (S.advance_time ss 8000) /\
   (S.is_finished ss = false <-> S._current_ts ss < 10000)).
Proof.
  intros fetch known history date_str upper sc ss.
  pose proof (C5_clock_invariant fetch known history date_str upper
                "okx" ["BTC-USDT"]%string 0 10000
                [B.Preload None; B.AdvanceTime 3000] sc (B.advance_time sc 8000)
                (B.AdvanceTime 8000)
                [S.Preload None; S.AdvanceTime 3000] ss (S.advance_time ss 8000)
                (S.AdvanceTime 8000)) as [Hc Hs].
  split.
  - destruct Hc as (_ & _ & H1 & H2 & _ & H3 & _).
    + eapply B.run_cons.
      * eapply B.step_preload with (fuel := 0%nat). reflexivity.
      * eapply B.run_cons; [apply B.step_advance_time|apply B.run_nil].
    + repeat constructor; simpl; lia.
    + apply B.step_advance_time.
    + simpl; lia.
    + split; [exact H1|]. split; [by apply H2|exact H3].
  - destruct Hs as (_ & _ & H1 & H2 & _ & H3 & _).
    + eapply S.run_cons.
      * eapply S.step_preload. reflexivity.
      * eapply S.run_cons; [apply S.step_advance_time|apply S.run_nil].
    + repeat constructor; simpl; lia.
    + apply S.step_advance_time.
    + simpl; lia.
    + split; [exact H1|]. split; [by apply H2|exact H3].
Defined.




(** C7.  Market closed: with market-hours enforcement on, an instruction
    executed at an Eastern time that is a Saturday or a Sunday, or before
    09:30 or after 16:00, gets the result below: REJECTED, reason
    "market_closed", filled quantity 0, and no price, slippage or fee.  The
    result is the same for every price source, price map and fee or
    slippage setting: none of them is consulted. *)
Theorem C7_market_closed
    (now_eastern : nat -> datetime)
    (ticker_history : nat -> string -> outcome (list float))
    (ticker_fast_info : nat -> string -> outcome (option G.fast_info))
    (upper : string -> string)
    (derive_side_from_action : option string -> option TradeSide)
    (FeatureVector : Type)
    (extract_price_map : list FeatureVector -> gmap string float)
    (g : G.Gateway) (instructions : list TradeInstruction.t)
    (market_features : option (list FeatureVector))
    (k : nat) (inst : TradeInstruction.t) :
  instructions !! k = Some inst ->
  G._enforce_market_hours g = true ->
  G.valid_datetime (now_eastern k) ->
  5 <= weekday (now_eastern k)
    \/ G.micros_of_day (now_eastern k) < 34200000000
    \/ 57600000000 < G.micros_of_day (now_eastern k) ->
  (G.execute now_eastern ticker_history ticker_fast_info upper
     derive_side_from_action FeatureVector extract_price_map
     g instructions market_features).2 !! k
  = Some {| TxResult.instruction_id := TradeInstruction.instruction_id inst;
            TxResult.instrument := TradeInstruction.instrument inst;
            TxResult.side := G.resolve_side derive_side_from_action inst;
            TxResult.requested_qty := TradeInstruction.quantity inst;
            TxResult.filled_qty := 0%float;
            TxResult.avg_exec_price := None;
            TxResult.slippage_bps := None;
            TxResult.fee_cost := None;
            TxResult.leverage := None;
            TxResult.status := REJECTED;
            TxResult.reason := Some "market_closed"%string;
            TxResult.meta := TradeInstruction.meta inst |}.
Proof.
  intros Hk He Hv Hc.
  rewrite GatewayFacts.execute_lookup, Hk. simpl. f_equal.
  apply GatewayFacts.execute_one_market_closed; [done|].
  by apply GatewayFacts.is_us_market_open_closed.
Qed.

(** The scenario: the second instruction is read on a Saturday and is
    rejected, with no price. *)
Lemma C7_witness :
  exists r,
    (G.execute Fixture.now_eastern Fixture.ticker_history Fixture.ticker_fast_info
       Fixture.upper Fixture.derive_side_from_action (string * float)
       Fixture.extract_price_map Fixture.gateway
       [Fixture.buy_aapl; Fixture.buy_aapl] None).2 !! 1%nat = Some r /\
    TxResult.status r = REJECTED /\
    TxResult.reason r = Some "market_closed"%string /\
    TxResult.avg_exec_price r = None.
Proof.
  eexists. split.
  - apply C7_market_closed; [reflexivity|reflexivity| |].
    + unfold G.valid_datetime. simpl. lia.
    + left. simpl. lia.
  - by simpl.
Defined.



(** C9.  Idempotence: once a call of [preload_data] has returned, any
    further call, with any [intervals], returns without raising and leaves
    the object as it is: the same candle cache, the same flag, the same
    clock. *)
Theorem C9_preload_idempotent
    (fetch_ohlcv : string -> string -> Z -> nat -> B.fetch_reply)
    (exchange_known : string -> bool)
    (history : string -> string -> string -> string -> S.history_reply)
    (date_str : Z -> outcome string) (upper : string -> string)
    (sc sc1 : B.State) (fuel fuel' : nat) (ss ss1 : S.State)
    (intervals intervals' : option (list string)) :
  (B.preload_data fetch_ohlcv exchange_known fuel sc intervals
     = Some (Returned tt, sc1) ->
   B.preload_data fetch_ohlcv exchange_known fuel' sc1 intervals'
     = Some (Returned tt, sc1))
  /\
  (S.preload_data history date_str upper ss intervals = (Returned tt, ss1) ->
   S.preload_data history date_str upper ss1 intervals' = (Returned tt, ss1)).
Proof.
  split; intros H.
  - apply BacktestFacts.preload_data_preloaded.
    by eapply BacktestFacts.preload_data_returned_flag.
  - apply StockBacktestFacts.stock_preload_data_preloaded.
    by eapply StockBacktestFacts.stock_preload_data_returned_flag.
Qed.

(** The scenario: a second preload, for another interval, leaves each
    preloaded source as it is. *)
Lemma C9_witness :
  B.preload_data Fixture.fetch_ohlcv Fixture.exchange_known 0 Fixture.crypto_loaded
    (Some ["5m"]%string) = Some (Returned tt, Fixture.crypto_loaded) /\
  S.preload_data Fixture.history Fixture.date_str Fixture.upper Fixture.stock_loaded
    (Some ["1w"]%string) = (Returned tt, Fixture.stock_loaded) /\
  map ts (B.cached Fixture.crypto_loaded "BTC-USDT" "1m") = [10; 20; 30] /\
  map ts (S.cached Fixture.stock_loaded "QQQ" "1d") = [10; 20; 30].
Proof.
  destruct (C9_preload_idempotent
              Fixture.fetch_ohlcv Fixture.exchange_known
              Fixture.history Fixture.date_str Fixture.upper
              Fixture.crypto Fixture.crypto_loaded 2%nat 0%nat
              Fixture.stock Fixture.stock_loaded
              None (Some ["5m"]%string)) as [Hc _].
  destruct (C9_preload_idempotent
              Fixture.fetch_ohlcv Fixture.exchange_known
              Fixture.history Fixture.date_str Fixture.upper
              Fixture.crypto Fixture.crypto_loaded 2%nat 0%nat
              Fixture.stock Fixture.stock_loaded
              None (Some ["1w"]%string)) as [_ Hs].
  split; [apply Hc; reflexivity|]. split; [apply Hs; reflexivity|].
  split; reflexivity.
Defined.

(** C10.  With [lookback = 0] the query returns, for each requested
    symbol, all of its cached candles with a timestamp at or before
    [current_ts] (the slice [available[-0:]] is the whole list); with
    [lookback >= 1] it returns the last [lookback] of them. *)
Theorem C10_lookback_zero_returns_all (sc : B.State) (ss : S.State)
    (symbols : list string) (itv : string) (lookback : Z) :
  1 <= lookback ->
  B.get_recent_candles sc symbols itv 0
  = symbols ≫= (fun sym => filter (fun c => ts c <= B._current_ts sc) (B.cached sc sym itv))
  /\ S.get_recent_candles ss symbols itv 0
  = symbols ≫= (fun sym => filter (fun c => ts c <= S._current_ts ss) (S.cached ss sym itv))
  /\ B.get_recent_candles sc symbols itv lookback
  = symbols ≫= (fun sym =>
      let available := filter (fun c => ts c <= B._current_ts sc) (B.cached sc sym itv) in
      drop (length available - Z.to_nat lookback) available)
  /\ S.get_recent_candles ss symbols itv lookback
  = symbols ≫= (fun sym =>
      let available := filter (fun c => ts c <= S._current_ts ss) (S.cached ss sym itv) in
      drop (length available - Z.to_nat lookback) available).
Proof.
  intros Hk.
  rewrite !BacktestFacts.get_recent_candles_concat,
          !StockBacktestFacts.stock_get_recent_candles_concat.
  repeat split; apply list_bind_ext; try done; intros sym; cbv zeta;
    rewrite PyFacts.truthy_list_slice;
    first [ apply PyFacts.slice_from_zero | by apply PyFacts.slice_from_last ].
Qed.

(** The scenario: with the clock at 25, of the candles at 10, 20 and 30 a
    lookback of 0 returns the two visible ones and a lookback of 1 the last
    of them. *)
Lemma C10_witness :
  map ts (B.get_recent_candles Fixture.crypto_at_25 ["BTC-USDT"]%string "1m" 0)
  = [10; 20] /\
  map ts (B.get_recent_candles Fixture.crypto_at_25 ["BTC-USDT"]%string "1m" 1)
  = [20].
Proof.
  destruct (C10_lookback_zero_returns_all Fixture.crypto_at_25 Fixture.stock
              ["BTC-USDT"]%string "1m" 1) as (H0 & _ & H1 & _); [lia|].
  rewrite H0, H1. split; reflexivity.
Defined.

(** ** Further properties of the code *)

(** X1.  A preload returns when the provider honours [since]: if the last
    row of every page is not older than the [since] the page was asked
    for, every fetch ends within [end_ts - start_ts + 2] turns of the
    pagination loop, and [preload_data] on a known exchange returns without
    raising. *)
Theorem X1_preload_returns
    (fetch_ohlcv : string -> string -> Z -> nat -> B.fetch_reply)
    (exchange_known : string -> bool)
    (sc : B.State) (intervals : option (list string)) :
  B.honours_since fetch_ohlcv ->
  B._is_preloaded sc = false ->
  exchange_known (B._exchange_id sc) = true ->
  (forall sym itv, exists r,
     B.fetch_pages fetch_ohlcv (Z.to_nat (B._end_ts sc - B._start_ts sc) + 2)
                   sc sym itv = Some r) /\
  exists fuel sc',
    B.preload_data fetch_ohlcv exchange_known fuel sc intervals
    = Some (Returned tt, sc').
Proof.
  intros Hsince Hp Hk. split.
  - intros sym itv. by apply BacktestFacts.fetch_pages_ends.
  - destruct (BacktestFacts.preload_data_completes fetch_ohlcv exchange_known
                sc intervals Hp Hk) as (fuel & sc' & Hpre & _).
    + intros itv sym _ _.
      destruct (BacktestFacts.fetch_pages_ends fetch_ohlcv sc sym itv Hsince)
        as [r Hr].
      by eexists _, _.
    + by exists fuel, sc'.
Qed.

(** A provider that answers every request with one row at [since]. *)
Lemma X1_witness :
  (exists r,
     B.fetch_pages (fun _ _ since _ => B.FetchRows [Fixture.row since])
                   (Z.to_nat (100 - 0) + 2) Fixture.crypto "BTC-USDT" "1m" = Some r) /\
  exists fuel sc',
    B.preload_data (fun _ _ since _ => B.FetchRows [Fixture.row since])
                   Fixture.exchange_known fuel Fixture.crypto None
    = Some (Returned tt, sc').
Proof.
  destruct (X1_preload_returns (fun _ _ since _ => B.FetchRows [Fixture.row since])
              Fixture.exchange_known Fixture.crypto None) as [Hf Hp].
  - intros nsym itv since n raw last_row [= <-] [= <-]. simpl. lia.
  - reflexivity.
  - reflexivity.
  - split; [apply Hf|exact Hp].
Defined.

(** X2.  A live price that is not a number is neither rejected nor replaced
    by the fallback: [nan <= 0] is false, so the order is FILLED at an
    average execution price that is not a number. *)
Theorem X2_nan_price_is_filled
    (now_eastern : nat -> datetime)
    (ticker_history : nat -> string -> outcome (list float))
    (ticker_fast_info : nat -> string -> outcome (option G.fast_info))
    (upper : string -> string)
    (derive_side_from_action : option string -> option TradeSide)
    (g : G.Gateway) (price_map : gmap string float)
    (k : nat) (inst : TradeInstruction.t) :
  G.gate_passes now_eastern g k ->
  G._get_current_price ticker_history ticker_fast_info upper k
    (symbol (TradeInstruction.instrument inst)) = Some nan ->
  let r := G.execute_one now_eastern ticker_history ticker_fast_info upper
             derive_side_from_action g price_map k inst in
  TxResult.status r = FILLED /\ TxResult.reason r = None /\
  TxResult.avg_exec_price r = Some nan.
Proof.
  intros Hg Hnan r. subst r.
  assert (G.reference_price ticker_history ticker_fast_info upper price_map k
            (symbol (TradeInstruction.instrument inst)) = nan) as Href.
  { unfold G.reference_price. by rewrite Hnan. }
  rewrite GatewayFacts.execute_one_fill; [|done|by rewrite Href].
  rewrite Href. cbn. repeat split.
  f_equal. destruct (G.resolve_side _ _); apply GatewayFacts.nan_mul.
Qed.

(** The scenario, with a live price that is not a number. *)
Lemma X2_witness :
  let r := G.execute_one Fixture.now_eastern (fun _ _ => Returned [nan])
             Fixture.ticker_fast_info Fixture.upper Fixture.derive_side_from_action
             Fixture.gateway ∅ 0%nat Fixture.buy_aapl in
  TxResult.status r = FILLED /\ TxResult.reason r = None /\
  TxResult.avg_exec_price r = Some nan.
Proof.
  apply X2_nan_price_is_filled; [by right|reflexivity].
Defined.

(** X3.  [execute] returns one result per instruction, in the order of the
    instructions; an empty list of instructions gives an empty list of
    results; and the instructions are appended to the [executed] log. *)
Theorem X3_one_result_per_instruction
    (now_eastern : nat -> datetime)
    (ticker_history : nat -> string -> outcome (list float))
    (ticker_fast_info : nat -> string -> outcome (option G.fast_info))
    (upper : string -> string)
    (derive_side_from_action : option string -> option TradeSide)
    (FeatureVector : Type)
    (extract_price_map : list FeatureVector -> gmap string float)
    (g : G.Gateway) (instructions : list TradeInstruction.t)
    (market_features : option (list FeatureVector)) :
  let out := G.execute now_eastern ticker_history ticker_fast_info upper
               derive_side_from_action FeatureVector extract_price_map
               g instructions market_features in
  length out.2 = length instructions /\
  (instructions = [] -> out.2 = []) /\
  (forall k inst r, instructions !! k = Some inst -> out.2 !! k = Some r ->
     TxResult.instruction_id r = TradeInstruction.instruction_id inst /\
     TxResult.instrument r = TradeInstruction.instrument inst /\
     TxResult.meta r = TradeInstruction.meta inst) /\
  G.executed out.1 = G.executed g ++ instructions.
Proof.
  intros out. subst out. split; [apply GatewayFacts.execute_length|].
  split; [by intros ->|]. split.
  - intros k inst r Hk. rewrite GatewayFacts.execute_lookup, Hk. intros [= <-].
    unfold G.execute_one.
    destruct (_ && _); [done|]. by destruct (PrimFloat.leb _ _).
  - unfold G.execute. destruct instructions; [|done]. simpl. by rewrite app_nil_r.
Qed.

(** X4.  The market snapshot shows nothing from the future: an entry of
    [get_market_snapshot] belongs to a requested symbol, is built from a
    candle cached for that symbol in the primary interval (one minute for
    the crypto source, one day for the stock source), and its timestamp is
    not later than the simulated clock. *)
Theorem X4_snapshot_no_lookahead (sc : B.State) (ss : S.State)
    (symbols : list string) (sym : string) (p : Price.t) :
  (B.get_market_snapshot sc symbols !! sym = Some p ->
   sym ∈ symbols /\ Price.symbol p = sym /\
   Price.timestamp p <= B._current_ts sc /\
   exists c, c ∈ B.cached sc sym "1m" /\ p = B.price_entry sym c) /\
  (S.get_market_snapshot ss symbols !! sym = Some p ->
   sym ∈ symbols /\ Price.symbol p = sym /\
   Price.timestamp p <= S._current_ts ss /\
   exists c, c ∈ S.cached ss sym "1d" /\ p = S.price_entry sym c).
Proof.
  split.
  - rewrite SnapshotFacts.get_market_snapshot_lookup.
    destruct (decide _) as [Hin|]; [|done].
    destruct (last _) as [c|] eqn:E; [|done]. intros [= <-].
    apply (SeriesFacts.last_filter_elem ts) in E as [Hc Ht].
    split; [done|]. split; [done|]. split; [done|]. by exists c.
  - rewrite StockSnapshotFacts.stock_get_market_snapshot_lookup.
    destruct (decide _) as [Hin|]; [|done].
    destruct (last _) as [c|] eqn:E; [|done]. intros [= <-].
    apply (SeriesFacts.last_filter_elem ts) in E as [Hc Ht].
    split; [done|]. split; [done|]. split; [done|]. by exists c.
Qed.

(** The scenario at time 25: the snapshot of BTC-USDT is the candle of
    time 20, not the cached one of time 30. *)
Lemma X4_witness :
  exists p,
    B.get_market_snapshot Fixture.crypto_at_25 ["BTC-USDT"]%string !! "BTC-USDT"%string
    = Some p /\
    Price.timestamp p = 20 /\ Price.timestamp p <= B._current_ts Fixture.crypto_at_25.
Proof.
  eexists. split; [reflexivity|]. split; [reflexivity|].
  apply (proj1 (X4_snapshot_no_lookahead Fixture.crypto_at_25 Fixture.stock
                  ["BTC-USDT"]%string "BTC-USDT"%string _) eq_refl).
Defined.

(** X5.  Which symbols a snapshot has: exactly the requested symbols with
    at least one cached candle of the primary interval at or before the
    clock.  A symbol that was not requested, that has no data, whose data
    all lies after the clock, or that was preloaded at other intervals
    only, is absent. *)
Theorem X5_snapshot_domain (sc : B.State) (ss : S.State)
    (symbols : list string) (sym : string) :
  (is_Some (B.get_market_snapshot sc symbols !! sym)
   <-> sym ∈ symbols /\
       exists c, c ∈ B.cached sc sym "1m" /\ ts c <= B._current_ts sc) /\
  (is_Some (S.get_market_snapshot ss symbols !! sym)
   <-> sym ∈ symbols /\
       exists c, c ∈ S.cached ss sym "1d" /\ ts c <= S._current_ts ss).
Proof.
  split.
  - rewrite SnapshotFacts.get_market_snapshot_lookup.
    destruct (decide _) as [Hin|Hin].
    + rewrite fmap_is_Some, (SeriesFacts.last_filter_is_Some ts). tauto.
    + split; [by intros [? ?]|tauto].
  - rewrite StockSnapshotFacts.stock_get_market_snapshot_lookup.
    destruct (decide _) as [Hin|Hin].
    + rewrite fmap_is_Some, (SeriesFacts.last_filter_is_Some ts). tauto.
    + split; [by intros [? ?]|tauto].
Qed.

(** X6.  The snapshot is the most recent candle.  At every point of the
    life of a data source, whatever was preloaded and however the clock
    was moved, the entry of a symbol carries the greatest timestamp among
    the cached candles of the primary interval that are not later than
    the clock. *)
Theorem X6_snapshot_is_latest
    (fetch_ohlcv : string -> string -> Z -> nat -> B.fetch_reply)
    (exchange_known : string -> bool)
    (history : string -> string -> string -> string -> S.history_reply)
    (date_str : Z -> outcome string) (upper : string -> string)
    (exchange_id : string) (symbols0 : list string) (start_ts end_ts : Z)
    (opsc : list B.op) (sc : B.State) (opss : list S.op) (ss : S.State)
    (symbols : list string) (sym : string) (p : Price.t) (c : Candle) :
  (B.run fetch_ohlcv exchange_known
         (B.__init__ exchange_id symbols0 start_ts end_ts) opsc sc ->
   B.get_market_snapshot sc symbols !! sym = Some p ->
   c ∈ B.cached sc sym "1m" -> ts c <= B._current_ts sc ->
   ts c <= Price.timestamp p) /\
  (S.run history date_str upper (S.__init__ symbols0 start_ts end_ts) opss ss ->
   S.get_market_snapshot ss symbols !! sym = Some p ->
   c ∈ S.cached ss sym "1d" -> ts c <= S._current_ts ss ->
   ts c <= Price.timestamp p).
Proof.
  split.
  - intros Hrun Hp Hc Ht.
    assert (B.cache_sorted sc) as Hs.
    { apply (BacktestFacts.run_cache_sorted _ _ _ _ _ Hrun).
      apply BacktestFacts.init_cache_sorted. }
    rewrite SnapshotFacts.get_market_snapshot_lookup in Hp.
    destruct (decide _) as [Hin|]; [|done].
    destruct (last _) as [latest|] eqn:E; [|done]. injection Hp as <-.
    apply (SeriesFacts.last_filter_latest ts _ _ _ c) in E; [done| |done|done].
    apply SeriesFacts.adjacent_StronglySorted.
    by apply BacktestFacts.cache_sorted_cached.
  - intros Hrun Hp Hc Ht.
    assert (S.cache_sorted ss) as Hs.
    { apply (StockBacktestFacts.stock_run_cache_sorted _ _ _ _ _ _ Hrun).
      apply StockBacktestFacts.stock_init_cache_sorted. }
    rewrite StockSnapshotFacts.stock_get_market_snapshot_lookup in Hp.
    destruct (decide _) as [Hin|]; [|done].
    destruct (last _) as [latest|] eqn:E; [|done]. injection Hp as <-.
    apply (SeriesFacts.last_filter_latest ts _ _ _ c) in E; [done| |done|done].
    apply SeriesFacts.adjacent_StronglySorted.
    by apply StockBacktestFacts.stock_cache_sorted_cached.
Qed.

(** The scenario: the provider sent the rows of times 30, 10, 20; with the
    clock at 25 the snapshot is at 20, which is not before the candle of
    time 10. *)
Lemma X6_witness :
  exists p,
    B.get_market_snapshot Fixture.crypto_at_25 ["BTC-USDT"]%string !! "BTC-USDT"%string
    = Some p /\
    ts (B.to_candle Fixture.crypto "BTC-USDT" "1m" (Fixture.row 10))
    <= Price.timestamp p.
Proof.
  eexists. split; [reflexivity|].
  refine (proj1 (X6_snapshot_is_latest
                   Fixture.fetch_ohlcv Fixture.exchange_known
                   Fixture.history Fixture.date_str Fixture.upper
                   "okx" ["BTC-USDT"; "BAD-USDT"]%string 0 100
                   [B.Preload None; B.AdvanceTime 25] Fixture.crypto_at_25
                   [] Fixture.stock
                   ["BTC-USDT"]%string "BTC-USDT" _
                   (B.to_candle Fixture.crypto "BTC-USDT" "1m" (Fixture.row 10)))
                _ eq_refl _ _).
  - eapply B.run_cons; [apply (B.step_preload _ _ _ 2%nat _ (Returned tt)
                                 Fixture.crypto_loaded); reflexivity|].
    eapply B.run_cons; [apply B.step_advance_time|]. apply B.run_nil.
  - vm_compute. left.
  - vm_compute. discriminate.
Defined.

(** X7.  The snapshot and the candle query agree: for a requested symbol
    and any [lookback >= 0], the entry of the snapshot is built from the
    last candle that [get_recent_candles] returns for the primary interval,
    and there is no entry when that query returns nothing.  A symbol that
    was not requested has no entry. *)
Theorem X7_snapshot_agrees_with_candles (sc : B.State) (ss : S.State)
    (symbols : list string) (sym : string) (lookback : Z) :
  0 <= lookback ->
  B.get_market_snapshot sc symbols !! sym
  = (if decide (sym ∈ symbols)
     then B.price_entry sym <$> last (B.get_recent_candles sc [sym] "1m" lookback)
     else None) /\
  S.get_market_snapshot ss symbols !! sym
  = (if decide (sym ∈ symbols)
     then S.price_entry sym <$> last (S.get_recent_candles ss [sym] "1d" lookback)
     else None).
Proof.
  intros Hl. split.
  - rewrite SnapshotFacts.get_market_snapshot_lookup,
      SnapshotFacts.get_recent_candles_one.
    destruct (decide _); [|done]. f_equal. symmetry.
    by apply SeriesFacts.last_slice_from.
  - rewrite StockSnapshotFacts.stock_get_market_snapshot_lookup,
      StockSnapshotFacts.stock_get_recent_candles_one.
    destruct (decide _); [|done]. f_equal. symmetry.
    by apply SeriesFacts.last_slice_from.
Qed.

(** The scenario at time 25, with a look-back of one candle. *)
Lemma X7_witness :
  B.get_market_snapshot Fixture.crypto_at_25 ["BTC-USDT"]%string !! "BTC-USDT"%string
  = B.price_entry "BTC-USDT"
      <$> last (B.get_recent_candles Fixture.crypto_at_25 ["BTC-USDT"]%string "1m" 1) /\
  map ts (B.get_recent_candles Fixture.crypto_at_25 ["BTC-USDT"]%string "1m" 1) = [20].
Proof.
  destruct (X7_snapshot_agrees_with_candles Fixture.crypto_at_25 Fixture.stock
              ["BTC-USDT"]%string "BTC-USDT" 1) as [H _]; [lia|].
  split; [exact H|reflexivity].
Defined.

(** X8.  [get_recent_candles] returns the latest candles, oldest first.
    At every point of the life of a data source, for one symbol and
    [lookback >= 1], the result is the end of the list of all candles of
    that symbol at or before the clock (the result for look-back 0): it has
    [lookback] candles, or all of them when there are fewer; no candle that
    is left out is later than one that is returned; and the result is in
    ascending order of timestamp. *)
Theorem X8_recent_candles_are_latest
    (fetch_ohlcv : string -> string -> Z -> nat -> B.fetch_reply)
    (exchange_known : string -> bool)
    (history : string -> string -> string -> string -> S.history_reply)
    (date_str : Z -> outcome string) (upper : string -> string)
    (exchange_id : string) (symbols0 : list string) (start_ts end_ts : Z)
    (opsc : list B.op) (sc : B.State) (opss : list S.op) (ss : S.State)
    (sym itv : string) (lookback : Z) :
  1 <= lookback ->
  (B.run fetch_ohlcv exchange_known
         (B.__init__ exchange_id symbols0 start_ts end_ts) opsc sc ->
   let available := B.get_recent_candles sc [sym] itv 0 in
   let r := B.get_recent_candles sc [sym] itv lookback in
   length r = Nat.min (Z.to_nat lookback) (length available) /\
   (exists older, available = older ++ r /\
      forall o c, o ∈ older -> c ∈ r -> ts o <= ts c) /\
   Py.adjacent_sorted ts r) /\
  (S.run history date_str upper (S.__init__ symbols0 start_ts end_ts) opss ss ->
   let available := S.get_recent_candles ss [sym] itv 0 in
   let r := S.get_recent_candles ss [sym] itv lookback in
   length r = Nat.min (Z.to_nat lookback) (length available) /\
   (exists older, available = older ++ r /\
      forall o c, o ∈ older -> c ∈ r -> ts o <= ts c) /\
   Py.adjacent_sorted ts r).
Proof.
  intros Hl. split.
  - intros Hrun. cbv zeta.
    rewrite !SnapshotFacts.get_recent_candles_one.
    change (- 0) with 0. rewrite (PyFacts.slice_from_zero (filter _ _)).
    apply (SeriesFacts.latest_slice ts); [done|].
    apply SeriesFacts.adjacent_StronglySorted,
      BacktestFacts.cache_sorted_cached.
    apply (BacktestFacts.run_cache_sorted _ _ _ _ _ Hrun).
    apply BacktestFacts.init_cache_sorted.
  - intros Hrun. cbv zeta.
    rewrite !StockSnapshotFacts.stock_get_recent_candles_one.
    change (- 0) with 0. rewrite (PyFacts.slice_from_zero (filter _ _)).
    apply (SeriesFacts.latest_slice ts); [done|].
    apply SeriesFacts.adjacent_StronglySorted,
      StockBacktestFacts.stock_cache_sorted_cached.
    apply (StockBacktestFacts.stock_run_cache_sorted _ _ _ _ _ _ Hrun).
    apply StockBacktestFacts.stock_init_cache_sorted.
Qed.

(** The scenario at time 25: of the candles of times 10 and 20, a look-back
    of one returns the one of time 20. *)
Lemma X8_witness :
  map ts (B.get_recent_candles Fixture.crypto_at_25 ["BTC-USDT"]%string "1m" 0)
  = [10; 20] /\
  length (B.get_recent_candles Fixture.crypto_at_25 ["BTC-USDT"]%string "1m" 1)
  = 1%nat /\
  exists older,
    B.get_recent_candles Fixture.crypto_at_25 ["BTC-USDT"]%string "1m" 0
    = older ++ B.get_recent_candles Fixture.crypto_at_25 ["BTC-USDT"]%string "1m" 1.
Proof.
  destruct (X8_recent_candles_are_latest
              Fixture.fetch_ohlcv Fixture.exchange_known
              Fixture.history Fixture.date_str Fixture.upper
              "okx" ["BTC-USDT"; "BAD-USDT"]%string 0 100
              [B.Preload None; B.AdvanceTime 25] Fixture.crypto_at_25
              [] Fixture.stock "BTC-USDT" "1m" 1) as [H _]; [lia|].
  destruct H as (Hlen & (older & Ho & _) & _).
  - eapply B.run_cons; [apply (B.step_preload _ _ _ 2%nat _ (Returned tt)
                                 Fixture.crypto_loaded); reflexivity|].
    eapply B.run_cons; [apply B.step_advance_time|]. apply B.run_nil.
  - split; [reflexivity|]. split; [exact Hlen|]. by exists older.
Defined.

(** X9.  How [get_recent_candles] treats the list of symbols: the result
    for a list is the results for its symbols one after the other, in the
    order of the request; a symbol with nothing cached for the interval
    (an unknown symbol, an interval that was not preloaded) contributes
    nothing and raises nothing; every candle returned is cached under a
    requested symbol; and for [lookback >= 1] there are at most [lookback]
    candles per requested symbol. *)
Theorem X9_recent_candles_per_symbol (sc : B.State) (ss : S.State)
    (symbols symbols' : list string) (sym itv : string) (lookback : Z)
    (c : Candle) :
  (B.get_recent_candles sc (symbols ++ symbols') itv lookback
   = B.get_recent_candles sc symbols itv lookback
     ++ B.get_recent_candles sc symbols' itv lookback /\
   (B.cached sc sym itv = [] -> B.get_recent_candles sc [sym] itv lookback = []) /\
   (c ∈ B.get_recent_candles sc symbols itv lookback ->
    exists sym', sym' ∈ symbols /\ c ∈ B.cached sc sym' itv) /\
   (1 <= lookback ->
    (length (B.get_recent_candles sc symbols itv lookback)
     <= Z.to_nat lookback * length symbols)%nat)) /\
  (S.get_recent_candles ss (symbols ++ symbols') itv lookback
   = S.get_recent_candles ss symbols itv lookback
     ++ S.get_recent_candles ss symbols' itv lookback /\
   (S.cached ss sym itv = [] -> S.get_recent_candles ss [sym] itv lookback = []) /\
   (c ∈ S.get_recent_candles ss symbols itv lookback ->
    exists sym', sym' ∈ symbols /\ c ∈ S.cached ss sym' itv) /\
   (1 <= lookback ->
    (length (S.get_recent_candles ss symbols itv lookback)
     <= Z.to_nat lookback * length symbols)%nat)).
Proof.
  split.
  - split; [|split; [|split]].
    + rewrite !BacktestFacts.get_recent_candles_concat. apply bind_app.
    + intros E. rewrite SnapshotFacts.get_recent_candles_one, E.
      unfold Py.slice_from. by rewrite filter_nil, drop_nil.
    + rewrite BacktestFacts.get_recent_candles_concat.
      intros (sym' & Hc & Hin)%list_elem_of_bind. exists sym'. split; [done|].
      simpl in Hc. destruct (Py.truthy_list _); [|by apply elem_of_nil in Hc].
      apply PyFacts.slice_from_elem in Hc.
      by apply list_elem_of_filter in Hc as [_ Hc].
    + intros Hl. induction symbols as [|x symbols IH]; [simpl; lia|].
      change (x :: symbols) with ([x] ++ symbols).
      rewrite BacktestFacts.get_recent_candles_concat, bind_app,
        <- !BacktestFacts.get_recent_candles_concat, length_app.
      rewrite SnapshotFacts.get_recent_candles_one, PyFacts.slice_from_last by done.
      rewrite length_drop. simpl length. lia.
  - split; [|split; [|split]].
    + rewrite !StockBacktestFacts.stock_get_recent_candles_concat. apply bind_app.
    + intros E. rewrite StockSnapshotFacts.stock_get_recent_candles_one, E.
      unfold Py.slice_from. by rewrite filter_nil, drop_nil.
    + rewrite StockBacktestFacts.stock_get_recent_candles_concat.
      intros (sym' & Hc & Hin)%list_elem_of_bind. exists sym'. split; [done|].
      simpl in Hc. destruct (Py.truthy_list _); [|by apply elem_of_nil in Hc].
      apply PyFacts.slice_from_elem in Hc.
      by apply list_elem_of_filter in Hc as [_ Hc].
    + intros Hl. induction symbols as [|x symbols IH]; [simpl; lia|].
      change (x :: symbols) with ([x] ++ symbols).
      rewrite StockBacktestFacts.stock_get_recent_candles_concat, bind_app,
        <- !StockBacktestFacts.stock_get_recent_candles_concat, length_app.
      rewrite StockSnapshotFacts.stock_get_recent_candles_one,
        PyFacts.slice_from_last by done.
      rewrite length_drop. simpl length. lia.
Qed.

(** X10.  What the cache can hold.  At every point of the life of a data
    source, a candle cached under a symbol and an interval belongs to a
    configured symbol, carries that symbol (as configured, not as
    normalized for the provider), that interval and the exchange of the
    source, and is not later than [end_ts]: the loaders never keep a row
    beyond the end of the backtest. *)
Theorem X10_cache_holds_labelled_candles
    (fetch_ohlcv : string -> string -> Z -> nat -> B.fetch_reply)
    (exchange_known : string -> bool)
    (history : string -> string -> string -> string -> S.history_reply)
    (date_str : Z -> outcome string) (upper : string -> string)
    (exchange : string) (symbols : list string) (start_ts end_ts : Z)
    (opsc : list B.op) (sc : B.State) (opss : list S.op) (ss : S.State)
    (sym itv : string) (c : Candle) :
  (B.run fetch_ohlcv exchange_known
         (B.__init__ exchange symbols start_ts end_ts) opsc sc ->
   c ∈ B.cached sc sym itv ->
   sym ∈ symbols /\ symbol (instrument c) = sym /\ interval c = itv /\
   exchange_id (instrument c)
   = (if String.eqb exchange EmptyString then "okx"%string else exchange) /\
   ts c <= end_ts) /\
  (S.run history date_str upper (S.__init__ symbols start_ts end_ts) opss ss ->
   c ∈ S.cached ss sym itv ->
   sym ∈ symbols /\ symbol (instrument c) = sym /\ interval c = itv /\
   exchange_id (instrument c) = "yfinance"%string /\
   ts c <= end_ts).
Proof.
  split.
  - intros Hrun Hc.
    pose proof (LabelFacts.run_labelled _ _ _ _ _ Hrun
                  (LabelFacts.init_cache_labelled _ _ _ _)) as Hl.
    destruct (proj1 (LabelFacts.cache_labelled_cached _) Hl sym itv c Hc)
      as (H1 & H2 & H3 & H4 & H5).
    apply BacktestFacts.run_same_setup in Hrun as (He & Hsy & _ & Hend).
    rewrite He in H3. rewrite Hsy in H1. rewrite Hend in H5. simpl in *.
    by repeat split.
  - intros Hrun Hc.
    pose proof (StockLabelFacts.stock_run_labelled _ _ _ _ _ _ Hrun
                  (StockLabelFacts.stock_init_cache_labelled _ _ _)) as Hl.
    destruct (proj1 (StockLabelFacts.stock_cache_labelled_cached _) Hl sym itv c Hc)
      as (H1 & H2 & H3 & H4 & H5).
    apply StockBacktestFacts.stock_run_same_setup in Hrun as (Hsy & _ & Hend).
    rewrite Hsy in H1. rewrite Hend in H5. simpl in *.
    by repeat split.
Qed.

(** The scenario: the candle of time 10 that the preload cached for
    BTC-USDT is labelled with that symbol and lies before the end, 100. *)
Lemma X10_witness :
  B.to_candle Fixture.crypto "BTC-USDT" "1m" (Fixture.row 10)
    ∈ B.cached Fixture.crypto_loaded "BTC-USDT" "1m" /\
  symbol (instrument (B.to_candle Fixture.crypto "BTC-USDT" "1m" (Fixture.row 10)))
  = "BTC-USDT"%string /\
  ts (B.to_candle Fixture.crypto "BTC-USDT" "1m" (Fixture.row 10)) <= 100.
Proof.
  assert (B.to_candle Fixture.crypto "BTC-USDT" "1m" (Fixture.row 10)
            ∈ B.cached Fixture.crypto_loaded "BTC-USDT" "1m") as Hin
    by (vm_compute; left).
  split; [exact Hin|].
  assert (B.run Fixture.fetch_ohlcv Fixture.exchange_known
            (B.__init__ "okx" ["BTC-USDT"; "BAD-USDT"]%string 0 100)
            [B.Preload None] Fixture.crypto_loaded) as Hrun.
  { eapply B.run_cons; [apply (B.step_preload _ _ _ 2%nat _ (Returned tt)
                                 Fixture.crypto_loaded); reflexivity|].
    apply B.run_nil. }
  destruct (proj1 (X10_cache_holds_labelled_candles
                     Fixture.fetch_ohlcv Fixture.exchange_known
                     Fixture.history Fixture.date_str Fixture.upper
                     "okx" ["BTC-USDT"; "BAD-USDT"]%string 0 100
                     [B.Preload None] Fixture.crypto_loaded [] Fixture.stock
                     "BTC-USDT" "1m" _) Hrun Hin) as (_ & Hsym & _ & _ & Hts).
  by split.
Defined.

(** X11.  Once a data source is preloaded, only its clock ever changes:
    whatever is called afterwards ([advance_time], [reset], queries,
    further calls of [preload_data]), the state differs from the preloaded
    one in [current_ts] at most.  So [reset] gives back the same state
    whatever happened in between, and a source preloaded at its start
    is, after any history and a [reset], exactly as it was: a backtest can
    be replayed without loading again. *)
Theorem X11_preloaded_source_replays
    (fetch_ohlcv : string -> string -> Z -> nat -> B.fetch_reply)
    (exchange_known : string -> bool)
    (history : string -> string -> string -> string -> S.history_reply)
    (date_str : Z -> outcome string) (upper : string -> string)
    (opsc : list B.op) (sc sc' : B.State) (opss : list S.op) (ss ss' : S.State) :
  (B._is_preloaded sc = true -> B.run fetch_ohlcv exchange_known sc opsc sc' ->
   sc' = B.set_current_ts sc (B._current_ts sc') /\
   B.reset sc' = B.reset sc /\
   (B._current_ts sc = B._start_ts sc -> B.reset sc' = sc)) /\
  (S._is_preloaded ss = true -> S.run history date_str upper ss opss ss' ->
   ss' = S.set_current_ts ss (S._current_ts ss') /\
   S.reset ss' = S.reset ss /\
   (S._current_ts ss = S._start_ts ss -> S.reset ss' = ss)).
Proof.
  split.
  - intros Hp Hrun.
    destruct (ReplayFacts.run_preloaded _ _ _ _ _ Hrun Hp) as [_ E].
    split; [exact E|].
    assert (B.reset sc' = B.reset sc) as Er by (by rewrite E).
    split; [exact Er|]. intros Hc. rewrite Er.
    unfold B.reset. rewrite <- Hc. by destruct sc.
  - intros Hp Hrun.
    destruct (ReplayFacts.stock_run_preloaded _ _ _ _ _ _ Hrun Hp) as [_ E].
    split; [exact E|].
    assert (S.reset ss' = S.reset ss) as Er by (by rewrite E).
    split; [exact Er|]. intros Hc. rewrite Er.
    unfold S.reset. rewrite <- Hc. by destruct ss.
Qed.

(** The scenario: the preloaded crypto source is advanced by 25, asked to
    preload again, advanced by 50 and reset. *)
Lemma X11_witness :
  exists sc',
    B.run Fixture.fetch_ohlcv Fixture.exchange_known Fixture.crypto_loaded
      [B.AdvanceTime 25; B.Preload (Some ["5m"]%string); B.AdvanceTime 50] sc' /\
    B._current_ts sc' = 75 /\
    B.reset sc' = Fixture.crypto_loaded.
Proof.
  assert (B.run Fixture.fetch_ohlcv Fixture.exchange_known Fixture.crypto_loaded
            [B.AdvanceTime 25; B.Preload (Some ["5m"]%string); B.AdvanceTime 50]
            (B.advance_time (B.advance_time Fixture.crypto_loaded 25) 50)) as Hrun.
  { eapply B.run_cons; [apply B.step_advance_time|].
    eapply B.run_cons;
      [apply (B.step_preload _ _ _ 0%nat _ (Returned tt)
                (B.advance_time Fixture.crypto_loaded 25)); reflexivity|].
    eapply B.run_cons; [apply B.step_advance_time|]. apply B.run_nil. }
  eexists. split; [exact Hrun|]. split; [reflexivity|].
  exact (proj2 (proj2 (proj1 (X11_preloaded_source_replays
           Fixture.fetch_ohlcv Fixture.exchange_known
           Fixture.history Fixture.date_str Fixture.upper
           _ Fixture.crypto_loaded _ [] Fixture.stock_loaded Fixture.stock_loaded)
           eq_refl Hrun)) eq_refl).
Defined.

(** X12.  Advancing the clock only reveals candles.  After
    [advance_time(d)] with [d >= 0], every candle that was visible (the
    result of [get_recent_candles] with look-back 0) is still visible, in
    the same order, and every symbol that had a snapshot entry still has
    one. *)
Theorem X12_advancing_only_reveals (sc : B.State) (ss : S.State)
    (symbols : list string) (itv sym : string) (d : Z) :
  0 <= d ->
  (B.get_recent_candles sc symbols itv 0
     `sublist_of` B.get_recent_candles (B.advance_time sc d) symbols itv 0 /\
   (is_Some (B.get_market_snapshot sc symbols !! sym) ->
    is_Some (B.get_market_snapshot (B.advance_time sc d) symbols !! sym))) /\
  (S.get_recent_candles ss symbols itv 0
     `sublist_of` S.get_recent_candles (S.advance_time ss d) symbols itv 0 /\
   (is_Some (S.get_market_snapshot ss symbols !! sym) ->
    is_Some (S.get_market_snapshot (S.advance_time ss d) symbols !! sym))).
Proof.
  intros Hd. split; split.
  - rewrite !BacktestFacts.get_recent_candles_concat.
    apply ReplayFacts.bind_sublist. intros x. cbv zeta.
    rewrite !PyFacts.truthy_list_slice. change (- 0) with 0.
    rewrite !PyFacts.slice_from_zero.
    apply (SeriesFacts.filter_le_mono ts). simpl. lia.
  - rewrite !SnapshotFacts.get_market_snapshot_lookup.
    destruct (decide _); [|done].
    rewrite !fmap_is_Some, !(SeriesFacts.last_filter_is_Some ts).
    intros (c & Hc & Ht). exists c. split; [done|]. simpl. lia.
  - rewrite !StockBacktestFacts.stock_get_recent_candles_concat.
    apply ReplayFacts.bind_sublist. intros x. cbv zeta.
    rewrite !PyFacts.truthy_list_slice. change (- 0) with 0.
    rewrite !PyFacts.slice_from_zero.
    apply (SeriesFacts.filter_le_mono ts). simpl. lia.
  - rewrite !StockSnapshotFacts.stock_get_market_snapshot_lookup.
    destruct (decide _); [|done].
    rewrite !fmap_is_Some, !(SeriesFacts.last_filter_is_Some ts).
    intros (c & Hc & Ht). exists c. split; [done|]. simpl. lia.
Qed.

(** The scenario: going from time 25 to time 35 reveals the candle of
    time 30 and keeps those of times 10 and 20. *)
Lemma X12_witness :
  map ts (B.get_recent_candles (B.advance_time Fixture.crypto_at_25 10)
            ["BTC-USDT"]%string "1m" 0) = [10; 20; 30] /\
  B.get_recent_candles Fixture.crypto_at_25 ["BTC-USDT"]%string "1m" 0
    `sublist_of` B.get_recent_candles (B.advance_time Fixture.crypto_at_25 10)
                   ["BTC-USDT"]%string "1m" 0.
Proof.
  split; [reflexivity|].
  apply (X12_advancing_only_reveals Fixture.crypto_at_25 Fixture.stock
           ["BTC-USDT"]%string "1m" "BTC-USDT" 10). lia.
Defined.

(** X13.  The snapshot never goes back in time while the clock goes
    forward: at every point of the life of a data source, if a symbol has
    an entry before and after [advance_time(d)] with [d >= 0], the
    timestamp of the later entry is not before that of the earlier one. *)
Theorem X13_snapshot_moves_forward
    (fetch_ohlcv : string -> string -> Z -> nat -> B.fetch_reply)
    (exchange_known : string -> bool)
    (history : string -> string -> string -> string -> S.history_reply)
    (date_str : Z -> outcome string) (upper : string -> string)
    (exchange : string) (symbols0 : list string) (start_ts end_ts : Z)
    (opsc : list B.op) (sc : B.State) (opss : list S.op) (ss : S.State)
    (symbols : list string) (sym : string) (d : Z) (p p' : Price.t) :
  0 <= d ->
  (B.run fetch_ohlcv exchange_known
         (B.__init__ exchange symbols0 start_ts end_ts) opsc sc ->
   B.get_market_snapshot sc symbols !! sym = Some p ->
   B.get_market_snapshot (B.advance_time sc d) symbols !! sym = Some p' ->
   Price.timestamp p <= Price.timestamp p') /\
  (S.run history date_str upper (S.__init__ symbols0 start_ts end_ts) opss ss ->
   S.get_market_snapshot ss symbols !! sym = Some p ->
   S.get_market_snapshot (S.advance_time ss d) symbols !! sym = Some p' ->
   Price.timestamp p <= Price.timestamp p').
Proof.
  intros Hd. split.
  - intros Hrun Hp Hp'.
    assert (B.cache_sorted sc) as Hs.
    { apply (BacktestFacts.run_cache_sorted _ _ _ _ _ Hrun).
      apply BacktestFacts.init_cache_sorted. }
    rewrite SnapshotFacts.get_market_snapshot_lookup in Hp, Hp'.
    destruct (decide _) as [Hin|]; [|done].
    destruct (last (filter _ (B.cached sc sym "1m"))) as [c|] eqn:E; [|done].
    destruct (last (filter _ (B.cached (B.advance_time sc d) sym "1m")))
      as [c'|] eqn:E'; [|done].
    injection Hp as <-. injection Hp' as <-. simpl.
    apply (SeriesFacts.last_filter_elem ts) in E as [Hc Ht].
    apply (SeriesFacts.last_filter_latest ts _ _ _ c) in E'; [done| |done|].
    + apply SeriesFacts.adjacent_StronglySorted.
      by apply BacktestFacts.cache_sorted_cached.
    + simpl. lia.
  - intros Hrun Hp Hp'.
    assert (S.cache_sorted ss) as Hs.
    { apply (StockBacktestFacts.stock_run_cache_sorted _ _ _ _ _ _ Hrun).
      apply StockBacktestFacts.stock_init_cache_sorted. }
    rewrite StockSnapshotFacts.stock_get_market_snapshot_lookup in Hp, Hp'.
    destruct (decide _) as [Hin|]; [|done].
    destruct (last (filter _ (S.cached ss sym "1d"))) as [c|] eqn:E; [|done].
    destruct (last (filter _ (S.cached (S.advance_time ss d) sym "1d")))
      as [c'|] eqn:E'; [|done].
    injection Hp as <-. injection Hp' as <-. simpl.
    apply (SeriesFacts.last_filter_elem ts) in E as [Hc Ht].
    apply (SeriesFacts.last_filter_latest ts _ _ _ c) in E'; [done| |done|].
    + apply SeriesFacts.adjacent_StronglySorted.
      by apply StockBacktestFacts.stock_cache_sorted_cached.
    + simpl. lia.
Qed.

(** The scenario: from time 25 to time 35 the snapshot goes from the
    candle of time 20 to that of time 30. *)
Lemma X13_witness :
  exists p p',
    B.get_market_snapshot Fixture.crypto_at_25 ["BTC-USDT"]%string !! "BTC-USDT"%string
    = Some p /\
    B.get_market_snapshot (B.advance_time Fixture.crypto_at_25 10)
      ["BTC-USDT"]%string !! "BTC-USDT"%string = Some p' /\
    Price.timestamp p' = 30 /\
    Price.timestamp p <= Price.timestamp p'.
Proof.
  eexists _, _. split; [reflexivity|]. split; [reflexivity|]. split; [reflexivity|].
  refine (proj1 (X13_snapshot_moves_forward
                   Fixture.fetch_ohlcv Fixture.exchange_known
                   Fixture.history Fixture.date_str Fixture.upper
                   "okx" ["BTC-USDT"; "BAD-USDT"]%string 0 100
                   [B.Preload None; B.AdvanceTime 25] Fixture.crypto_at_25
                   [] Fixture.stock
                   ["BTC-USDT"]%string "BTC-USDT" 10 _ _ _) _ eq_refl eq_refl);
    [lia|].
  eapply B.run_cons; [apply (B.step_preload _ _ _ 2%nat _ (Returned tt)
                               Fixture.crypto_loaded); reflexivity|].
  eapply B.run_cons; [apply B.step_advance_time|]. apply B.run_nil.
Defined.

(** X14.  The snapshot reads the primary interval only.  If the first
    preload of a data source returns and was asked for a list of intervals
    without the primary one (one minute for the crypto source, one day for
    the stock source), [get_market_snapshot] is empty from then on,
    whatever the clock shows and whatever was cached for other intervals;
    a later call of [preload_data] does not fill the gap. *)
Theorem X14_snapshot_needs_primary_interval
    (fetch_ohlcv : string -> string -> Z -> nat -> B.fetch_reply)
    (exchange_known : string -> bool)
    (history : string -> string -> string -> string -> S.history_reply)
    (date_str : Z -> outcome string) (upper : string -> string)
    (exchange : string) (symbols0 : list string) (start_ts end_ts : Z)
    (intervals : list string) (fuel : nat)
    (sc1 : B.State) (opsc : list B.op) (sc : B.State)
    (ss1 : S.State) (opss : list S.op) (ss : S.State)
    (symbols : list string) :
  intervals <> [] ->
  ("1m"%string ∉ intervals ->
   B.preload_data fetch_ohlcv exchange_known fuel
     (B.__init__ exchange symbols0 start_ts end_ts) (Some intervals)
   = Some (Returned tt, sc1) ->
   B.run fetch_ohlcv exchange_known sc1 opsc sc ->
   B.get_market_snapshot sc symbols = ∅) /\
  ("1d"%string ∉ intervals ->
   S.preload_data history date_str upper
     (S.__init__ symbols0 start_ts end_ts) (Some intervals)
   = (Returned tt, ss1) ->
   S.run history date_str upper ss1 opss ss ->
   S.get_market_snapshot ss symbols = ∅).
Proof.
  intros Hne. split.
  - intros Hni Hpre Hrun. apply map_eq. intros sym.
    rewrite lookup_empty, SnapshotFacts.get_market_snapshot_lookup.
    destruct (decide _); [|done].
    destruct (ReplayFacts.run_preloaded _ _ _ _ _ Hrun
                (BacktestFacts.preload_data_returned_flag _ _ _ _ _ _ Hpre))
      as [_ ->].
    change (B.cached (B.set_current_ts sc1 (B._current_ts sc)) sym "1m")
      with (B.cached sc1 sym "1m").
    rewrite (ReplayFacts.preload_data_frame
               _ _ _ (B.__init__ exchange symbols0 start_ts end_ts)
               _ _ _ sym "1m" eq_refl Hpre).
    + done.
    + by destruct intervals.
  - intros Hni Hpre Hrun. apply map_eq. intros sym.
    rewrite lookup_empty, StockSnapshotFacts.stock_get_market_snapshot_lookup.
    destruct (decide _); [|done].
    destruct (ReplayFacts.stock_run_preloaded _ _ _ _ _ _ Hrun
                (StockBacktestFacts.stock_preload_data_returned_flag
                   _ _ _ _ _ _ Hpre))
      as [_ ->].
    change (S.cached (S.set_current_ts ss1 (S._current_ts ss)) sym "1d")
      with (S.cached ss1 sym "1d").
    rewrite (ReplayFacts.stock_preload_data_frame
               _ _ _ (S.__init__ symbols0 start_ts end_ts)
               _ _ _ sym "1d" eq_refl Hpre).
    + done.
    + by destruct intervals.
Qed.

(** The scenario, preloaded with five-minute candles only: at time 25 the
    candle query has the candles of times 10 and 20, the snapshot has
    nothing. *)
Lemma X14_witness :
  exists sc1,
    B.preload_data Fixture.fetch_ohlcv Fixture.exchange_known 2
      Fixture.crypto (Some ["5m"]%string) = Some (Returned tt, sc1) /\
    map ts (B.get_recent_candles (B.advance_time sc1 25) ["BTC-USDT"]%string "5m" 0)
    = [10; 20] /\
    B.get_market_snapshot (B.advance_time sc1 25) ["BTC-USDT"]%string = ∅.
Proof.
  eexists. split; [reflexivity|]. split; [reflexivity|].
  refine (proj1 (X14_snapshot_needs_primary_interval
                   Fixture.fetch_ohlcv Fixture.exchange_known
                   Fixture.history Fixture.date_str Fixture.upper
                   "okx" ["BTC-USDT"; "BAD-USDT"]%string 0 100
                   ["5m"]%string 2%nat _ [B.AdvanceTime 25] _
                   Fixture.stock [] Fixture.stock ["BTC-USDT"]%string _)
                _ eq_refl _).
  - discriminate.
  - intros [H|H]%elem_of_cons; [discriminate H|by apply elem_of_nil in H].
  - eapply B.run_cons; [apply B.step_advance_time|]. apply B.run_nil.
Defined.

(** X15.  [BacktestDataSource._normalize_symbol]: normalizing twice is
    normalizing once; the result has no ["-"]; a symbol that has a [":"]
    already only has its dashes turned into slashes; and a pair
    [BASE-QUOTE] whose two parts are free of ["-"], ["/"] and [":"]
    becomes [BASE/QUOTE:QUOTE]. *)
Theorem X15_normalize_symbol (sym base quote : string) :
  B._normalize_symbol (B._normalize_symbol sym) = B._normalize_symbol sym /\
  PyStr.contains_char "-" (B._normalize_symbol sym) = false /\
  (PyStr.contains_char ":" sym = true ->
   B._normalize_symbol sym = PyStr.replace_char "-" "/" sym) /\
  ((forall c, c ∈ ["-"; "/"; ":"]%char ->
      PyStr.contains_char c base = false /\ PyStr.contains_char c quote = false) ->
   B._normalize_symbol (base +:+ "-" +:+ quote)
   = base +:+ "/" +:+ quote +:+ ":" +:+ quote).
Proof.
  split; [apply NormalizeFacts.normalize_idempotent|].
  split; [apply NormalizeFacts.normalize_no_dash|].
  split; [apply NormalizeFacts.normalize_colon|apply NormalizeFacts.normalize_pair].
Qed.

(** The usual pair, and a swap symbol that is qualified already. *)
Lemma X15_witness :
  B._normalize_symbol "BTC-USDT" = "BTC/USDT:USDT"%string /\
  B._normalize_symbol "ETH-USDT:USDT" = "ETH/USDT:USDT"%string.
Proof.
  destruct (X15_normalize_symbol "ETH-USDT:USDT" "BTC" "USDT") as (_ & _ & Hc & Hp).
  split.
  - apply Hp. intros c Hc'. by repeat (apply elem_of_cons in Hc' as [->|Hc']);
      [..|apply elem_of_nil in Hc'].
  - by rewrite Hc.
Defined.

(** X16.  Stock symbols are cut at the first dash.  The ticker the stock
    data source asks YFinance for is the upper-cased part of the symbol
    before its first ["-"] (the whole symbol when it has none), so a
    symbol with a class suffix loses it; and the live price lookup of the
    gateway asks for the same ticker: two symbols that normalize alike get
    the same price. *)
Theorem X16_stock_symbol_cut_at_first_dash
    (ticker_history : nat -> string -> outcome (list float))
    (ticker_fast_info : nat -> string -> outcome (option G.fast_info))
    (upper : string -> string) (k : nat) (head rest sym sym' : string) :
  (PyStr.contains_char "-" head = false ->
   S._normalize_symbol upper (head +:+ "-" +:+ rest) = upper head) /\
  (PyStr.contains_char "-" sym = false -> S._normalize_symbol upper sym = upper sym) /\
  (S._normalize_symbol upper sym = S._normalize_symbol upper sym' ->
   G._get_current_price ticker_history ticker_fast_info upper k sym
   = G._get_current_price ticker_history ticker_fast_info upper k sym').
Proof.
  split; [|split].
  - intros H. unfold S._normalize_symbol.
    change (head +:+ "-" +:+ rest) with (head +:+ String "-" rest).
    rewrite StrFacts.contains_char_app. simpl. rewrite orb_true_r.
    by rewrite StrFacts.split_char_app.
  - intros H. unfold S._normalize_symbol. by rewrite H.
  - intros H. rewrite !PriceFacts._get_current_price_normalized. cbv zeta.
    by rewrite H.
Qed.

(** A share class is lost: [BRK-B] is looked up as [BRK], like [BRK-USD]. *)
Lemma X16_witness :
  S._normalize_symbol Fixture.upper "BRK-B" = "BRK"%string /\
  G._get_current_price Fixture.ticker_history Fixture.ticker_fast_info
    Fixture.upper 0 "AAPL-USD"
  = G._get_current_price Fixture.ticker_history Fixture.ticker_fast_info
      Fixture.upper 0 "AAPL".
Proof.
  destruct (X16_stock_symbol_cut_at_first_dash
              Fixture.ticker_history Fixture.ticker_fast_info Fixture.upper 0
              "BRK" "B" "AAPL-USD" "AAPL") as (H1 & _ & H3).
  split; [by apply H1|by apply H3].
Defined.

(** X17.  The reason "market_closed" is given exactly when market hours
    are enforced and the Eastern clock shows a Saturday or Sunday or a time
    outside 09:30:00 to 16:00:00; both ends are inside (an order at
    16:00:00.000000 goes on, one a microsecond later does not).  With
    enforcement off the clock is not consulted: the result is the same
    for every clock. *)
Theorem X17_market_closed_exactly_outside_hours
    (now_eastern now' : nat -> datetime)
    (ticker_history : nat -> string -> outcome (list float))
    (ticker_fast_info : nat -> string -> outcome (option G.fast_info))
    (upper : string -> string)
    (derive_side_from_action : option string -> option TradeSide)
    (g : G.Gateway) (price_map : gmap string float)
    (k : nat) (inst : TradeInstruction.t) :
  G.valid_datetime (now_eastern k) ->
  (TxResult.reason
     (G.execute_one now_eastern ticker_history ticker_fast_info upper
        derive_side_from_action g price_map k inst)
   = Some "market_closed"%string
   <-> G._enforce_market_hours g = true /\
       ~ (weekday (now_eastern k) < 5 /\
          34200000000 <= G.micros_of_day (now_eastern k) <= 57600000000)) /\
  (G._enforce_market_hours g = false ->
   G.execute_one now_eastern ticker_history ticker_fast_info upper
     derive_side_from_action g price_map k inst
   = G.execute_one now' ticker_history ticker_fast_info upper
       derive_side_from_action g price_map k inst).
Proof.
  intros Hv. split; [|apply PriceFacts.execute_one_clock].
  rewrite PriceFacts.execute_one_closed_reason.
  rewrite <- (GatewayFacts.is_us_market_open_iff _ Hv).
  destruct (G.is_us_market_open (now_eastern k));
    split; intros [He H]; split; try done; by destruct H.
Qed.

(** A Friday: at 16:00:00.000001 the order is rejected as "market_closed",
    at 16:00:00.000000 it is filled. *)
Lemma X17_witness :
  TxResult.reason
    (G.execute_one (fun _ => mkDatetime 4 16 0 0 1) Fixture.ticker_history
       Fixture.ticker_fast_info Fixture.upper Fixture.derive_side_from_action
       Fixture.gateway ∅ 0 Fixture.buy_aapl) = Some "market_closed"%string /\
  TxResult.status
    (G.execute_one (fun _ => mkDatetime 4 16 0 0 0) Fixture.ticker_history
       Fixture.ticker_fast_info Fixture.upper Fixture.derive_side_from_action
       Fixture.gateway ∅ 0 Fixture.buy_aapl) = FILLED.
Proof.
  split; [|reflexivity].
  apply (X17_market_closed_exactly_outside_hours
           (fun _ => mkDatetime 4 16 0 0 1) (fun _ => mkDatetime 4 16 0 0 1)).
  - unfold G.valid_datetime. simpl. lia.
  - split; [reflexivity|]. unfold G.micros_of_day. simpl. lia.
Defined.

(** X18.  Where the reference price comes from.  When the live lookup
    gives a price that [ref_price is None or ref_price <= 0] lets through,
    the price map is not used: the result is the same for every price map.
    When the live lookup gives none, or one at or below zero, and the
    price map has a price above zero for the symbol, an order that passes
    the market-hours check is FILLED in full at that price, moved by the
    slippage. *)
Theorem X18_price_source_priority
    (now_eastern : nat -> datetime)
    (ticker_history : nat -> string -> outcome (list float))
    (ticker_fast_info : nat -> string -> outcome (option G.fast_info))
    (upper : string -> string)
    (derive_side_from_action : option string -> option TradeSide)
    (g : G.Gateway) (price_map price_map' : gmap string float)
    (k : nat) (inst : TradeInstruction.t) :
  let sym := symbol (TradeInstruction.instrument inst) in
  let live := G._get_current_price ticker_history ticker_fast_info upper k sym in
  let execute_one :=
    G.execute_one now_eastern ticker_history ticker_fast_info upper
      derive_side_from_action g in
  (G.no_price live = false ->
   execute_one price_map k inst = execute_one price_map' k inst) /\
  (G.no_price live = true -> G.gate_passes now_eastern g k ->
   PrimFloat.ltb 0 (G.fallback_price price_map sym) = true ->
   let r := execute_one price_map k inst in
   let slip := (G.effective_slippage_bps g inst / 10000)%float in
   TxResult.status r = FILLED /\
   TxResult.filled_qty r = TradeInstruction.quantity inst /\
   TxResult.avg_exec_price r
   = Some (match G.resolve_side derive_side_from_action inst with
           | BUY => G.fallback_price price_map sym * (1 + slip)
           | SELL => G.fallback_price price_map sym * (1 - slip)
           end)%float).
Proof.
  intros sym live execute_one. split.
  - apply PriceFacts.execute_one_price_map.
  - intros Hl Hg Hf r slip. subst r slip execute_one live sym.
    pose proof (PriceFacts.reference_price_fallback ticker_history ticker_fast_info
                  upper price_map k _ Hl) as Href.
    rewrite GatewayFacts.execute_one_fill;
      [|done|rewrite Href; by apply GatewayFacts.float_pos_not_le0].
    cbv zeta. simpl. by rewrite Href.
Qed.

(** The scenario, for a ticker without a live price: with 50 in the price
    map for it, the order is filled at 50 plus 10 basis points. *)
Lemma X18_witness :
  let r := G.execute_one Fixture.now_eastern Fixture.ticker_history
             Fixture.ticker_fast_info Fixture.upper Fixture.derive_side_from_action
             Fixture.gateway {["ZZZ"%string := 50%float]} 0 Fixture.buy_unknown in
  TxResult.status r = FILLED /\
  TxResult.avg_exec_price r = Some (50 * (1 + 10 / 10000))%float.
Proof.
  destruct (proj2 (X18_price_source_priority
              Fixture.now_eastern Fixture.ticker_history Fixture.ticker_fast_info
              Fixture.upper Fixture.derive_side_from_action Fixture.gateway
              {["ZZZ"%string := 50%float]} ∅ 0 Fixture.buy_unknown))
    as (Hs & _ & Hp); [reflexivity|by right|reflexivity|].
  split; [exact Hs|exact Hp].
Defined.

(** X19.  The three outcomes of an instruction.  Every result of [execute]
    repeats the quantity of its instruction as [requested_qty] and carries
    the resolved side.  It is either REJECTED, with one of the two reasons,
    nothing filled, no price, slippage, fee or leverage; or FILLED, with no
    reason, the whole quantity filled, a price, and the leverage of the
    instruction.  There is no partial fill and no other status. *)
Theorem X19_three_outcomes
    (now_eastern : nat -> datetime)
    (ticker_history : nat -> string -> outcome (list float))
    (ticker_fast_info : nat -> string -> outcome (option G.fast_info))
    (upper : string -> string)
    (derive_side_from_action : option string -> option TradeSide)
    (FeatureVector : Type)
    (extract_price_map : list FeatureVector -> gmap string float)
    (g : G.Gateway) (instructions : list TradeInstruction.t)
    (market_features : option (list FeatureVector))
    (k : nat) (inst : TradeInstruction.t) (r : TxResult.t) :
  instructions !! k = Some inst ->
  (G.execute now_eastern ticker_history ticker_fast_info upper
     derive_side_from_action FeatureVector extract_price_map
     g instructions market_features).2 !! k = Some r ->
  TxResult.requested_qty r = TradeInstruction.quantity inst /\
  TxResult.side r = G.resolve_side derive_side_from_action inst /\
  ((TxResult.status r = REJECTED /\
    (TxResult.reason r = Some "market_closed"%string \/
     TxResult.reason r = Some "no_price_data"%string) /\
    TxResult.filled_qty r = 0%float /\ TxResult.avg_exec_price r = None /\
    TxResult.slippage_bps r = None /\ TxResult.fee_cost r = None /\
    TxResult.leverage r = None) \/
   (TxResult.status r = FILLED /\ TxResult.reason r = None /\
    TxResult.filled_qty r = TradeInstruction.quantity inst /\
    is_Some (TxResult.avg_exec_price r) /\
    TxResult.leverage r = TradeInstruction.leverage inst)).
Proof.
  intros Hk. rewrite GatewayFacts.execute_lookup, Hk. intros [= <-].
  apply PriceFacts.execute_one_cases.
Qed.

(** The scenario: the order for AAPL on the Wednesday is filled. *)
Lemma X19_witness :
  exists r,
    (G.execute Fixture.now_eastern Fixture.ticker_history Fixture.ticker_fast_info
       Fixture.upper Fixture.derive_side_from_action (string * float)
       Fixture.extract_price_map Fixture.gateway
       [Fixture.buy_aapl] None).2 !! 0%nat = Some r /\
    TxResult.requested_qty r = 2%float /\ TxResult.side r = BUY.
Proof.
  eexists. split; [reflexivity|].
  destruct (X19_three_outcomes
              Fixture.now_eastern Fixture.ticker_history Fixture.ticker_fast_info
              Fixture.upper Fixture.derive_side_from_action (string * float)
              Fixture.extract_price_map Fixture.gateway
              [Fixture.buy_aapl] None 0%nat Fixture.buy_aapl _ eq_refl eq_refl)
    as (Hq & Hs & _).
  split; [exact Hq|exact Hs].
Defined.

(** X20.  [test_connection] is true exactly when the live lookup of AAPL
    gives a price above zero.  When it is true, an order for AAPL that sees
    the same market and passes the market-hours check is FILLED, whatever
    the gateway settings and the price map.  A price that is not a number
    makes the test fail. *)
Theorem X20_test_connection
    (now_eastern : nat -> datetime)
    (ticker_history : nat -> string -> outcome (list float))
    (ticker_fast_info : nat -> string -> outcome (option G.fast_info))
    (upper : string -> string)
    (derive_side_from_action : option string -> option TradeSide)
    (g : G.Gateway) (price_map : gmap string float)
    (k : nat) (inst : TradeInstruction.t) :
  let live := G._get_current_price ticker_history ticker_fast_info upper k "AAPL" in
  let test := G.test_connection ticker_history ticker_fast_info upper k in
  (test = true <-> exists p, live = Some p /\ PrimFloat.ltb 0 p = true) /\
  (test = true -> symbol (TradeInstruction.instrument inst) = "AAPL"%string ->
   G.gate_passes now_eastern g k ->
   TxResult.status
     (G.execute_one now_eastern ticker_history ticker_fast_info upper
        derive_side_from_action g price_map k inst) = FILLED) /\
  (live = Some nan -> test = false).
Proof.
  intros live test. subst test. unfold G.test_connection. fold live.
  split; [|split].
  - destruct live as [p|].
    + split; [intros H; by exists p|by intros (p' & [= <-] & H)].
    + split; [done|by intros (p' & [=] & _)].
  - intros Ht Hsym Hg.
    destruct live as [p|] eqn:El; [|done].
    pose proof (GatewayFacts.float_pos_not_le0 _ Ht) as Hle.
    rewrite GatewayFacts.execute_one_fill; [done|done|].
    rewrite Hsym, PriceFacts.reference_price_live; fold live; by rewrite El.
  - by intros ->.
Qed.

(** The scenario: AAPL has a live price of 100. *)
Lemma X20_witness :
  G.test_connection Fixture.ticker_history Fixture.ticker_fast_info Fixture.upper 0
  = true /\
  TxResult.status
    (G.execute_one Fixture.now_eastern Fixture.ticker_history
       Fixture.ticker_fast_info Fixture.upper Fixture.derive_side_from_action
       Fixture.gateway ∅ 0 Fixture.buy_aapl) = FILLED.
Proof.
  split; [reflexivity|].
  apply (X20_test_connection Fixture.now_eastern Fixture.ticker_history
           Fixture.ticker_fast_info Fixture.upper Fixture.derive_side_from_action
           Fixture.gateway ∅ 0 Fixture.buy_aapl); [reflexivity|reflexivity|by right].
Defined.

(** X21.  The live price lookup never raises and reads its sources in a
    fixed order.  If the history call raises there is no price, whatever
    [fast_info] holds.  If the history has rows, the price is the last
    close, as it is (zero, negative or not a number included) and
    [fast_info] is not read.  If the history is empty, the price is the
    first of [last_price], [regular_market_price], [last_close] that is
    present and not zero, and there is none when [fast_info] is missing or
    raises; so a price taken from [fast_info] is never zero. *)
Theorem X21_live_price_lookup
    (ticker_history : nat -> string -> outcome (list float))
    (ticker_fast_info : nat -> string -> outcome (option G.fast_info))
    (upper : string -> string) (k : nat) (sym : string) :
  let ticker := S._normalize_symbol upper sym in
  let price := G._get_current_price ticker_history ticker_fast_info upper k sym in
  (ticker_history k ticker = Raised -> price = None) /\
  (forall closes c, ticker_history k ticker = Returned closes ->
     last closes = Some c -> price = Some c) /\
  (ticker_history k ticker = Returned [] ->
   (forall fi, ticker_fast_info k ticker = Returned (Some fi) ->
      price = head (filter (fun p => Py.truthy_float p = true)
                      (omap id [G.last_price fi; G.regular_market_price fi;
                                G.last_close fi]))) /\
   (ticker_fast_info k ticker = Returned None -> price = None) /\
   (ticker_fast_info k ticker = Raised -> price = None) /\
   (forall p, price = Some p -> Py.truthy_float p = true)).
Proof.
  intros ticker price. subst price.
  rewrite PriceFacts._get_current_price_normalized. cbv zeta. fold ticker.
  split; [by intros ->|]. split; [by intros closes c -> ->|].
  intros ->. simpl.
  split; [by intros fi ->|]. split; [by intros ->|]. split; [by intros ->|].
  intros p. destruct (ticker_fast_info k ticker) as [[fi|]|]; try done.
  intros Hp%head_Some_elem_of. by apply list_elem_of_filter in Hp as [Hp _].
Qed.

(** A ticker with no one-minute history whose [fast_info] has a
    [last_price] of zero and a [regular_market_price] of 12. *)
Lemma X21_witness :
  G._get_current_price (fun _ _ => Returned [])
    (fun _ _ => Returned (Some (G.mkFastInfo (Some 0%float) (Some 12%float) None)))
    Fixture.upper 0 "ZZZ" = Some 12%float /\
  G._get_current_price (fun _ _ => Raised)
    (fun _ _ => Returned (Some (G.mkFastInfo (Some 0%float) (Some 12%float) None)))
    Fixture.upper 0 "ZZZ" = None.
Proof.
  split.
  - destruct (X21_live_price_lookup (fun _ _ => Returned [])
                (fun _ _ => Returned (Some (G.mkFastInfo (Some 0%float)
                                              (Some 12%float) None)))
                Fixture.upper 0 "ZZZ") as (_ & _ & H).
    destruct (H eq_refl) as (Hfi & _). rewrite (Hfi _ eq_refl). reflexivity.
  - exact (proj1 (X21_live_price_lookup (fun _ _ => Raised)
                    (fun _ _ => Returned (Some (G.mkFastInfo (Some 0%float)
                                                  (Some 12%float) None)))
                    Fixture.upper 0 "ZZZ") eq_refl).
Defined.

(** X22.  What [create_strategy_runtime] hands over.  When it returns in
    BACKTEST mode, the runtime has a data source, the request gave a start
    and an end that are not zero with [start < end], and the source is of
    the kind the asset class asks for, holds the symbols and the range of
    the request, is preloaded and has its clock at the start: it is not
    finished, its progress is 0 and the runtime's timestamp is the start of
    the backtest, whatever the wall clock shows.  In every other mode the
    runtime has no data source and its timestamp is the wall clock. *)
Theorem X22_created_runtime
    (fetch_ohlcv : string -> string -> Z -> nat -> B.fetch_reply)
    (exchange_known : string -> bool)
    (history : string -> string -> string -> string -> S.history_reply)
    (date_str : Z -> outcome string) (upper : string -> string)
    (Coordinator : Type) (gateway_created : UserRequest.t -> bool)
    (generated_id : string)
    (build_coordinator :
       UserRequest.t -> string -> option Runtime.data_source -> outcome Coordinator)
    (fuel : nat) (req : UserRequest.t) (strategy_id_override : option string)
    (rt : Runtime.StrategyRuntime Coordinator) (now_ms : Z) :
  Runtime.create_strategy_runtime fetch_ohlcv exchange_known history date_str upper
    Coordinator gateway_created generated_id build_coordinator
    fuel req strategy_id_override = Some (Returned rt) ->
  Runtime.request Coordinator rt = req /\
  (ExchangeConfig.trading_mode (UserRequest.exchange_config req) = BACKTEST ->
   exists ds start_ts end_ts,
     Runtime.backtest_data_source Coordinator rt = Some ds /\
     TradingConfig.backtest_start_ts (UserRequest.trading_config req)
     = Some start_ts /\
     TradingConfig.backtest_end_ts (UserRequest.trading_config req) = Some end_ts /\
     start_ts <> 0 /\ end_ts <> 0 /\ start_ts < end_ts /\
     Runtime.as_created req start_ts end_ts ds /\
     Runtime.is_finished ds = false /\
     (Runtime.get_progress_pct ds == 0)%Q /\
     Runtime.get_current_timestamp_ms Coordinator rt now_ms = start_ts) /\
  (ExchangeConfig.trading_mode (UserRequest.exchange_config req) <> BACKTEST ->
   Runtime.backtest_data_source Coordinator rt = None /\
   Runtime.get_current_timestamp_ms Coordinator rt now_ms = now_ms).
Proof.
  unfold Runtime.create_strategy_runtime.
  destruct (gateway_created req); [|done].
  destruct (Runtime.backtest_block _ _ _ _ _ fuel req) as [[ods|]|] eqn:Eb;
    try done.
  destruct (build_coordinator _ _ _) as [c|]; [|done].
  intros [= <-]. split; [done|]. split.
  - intros Hm.
    destruct (RuntimeFacts.backtest_block_returned _ _ _ _ _ _ _ _ Hm Eb)
      as (ds & a & b & -> & Ha & Hb & Ha0 & Hb0 & Hlt & Hds).
    exists ds, a, b. repeat (split; [done|]).
    unfold Runtime.get_current_timestamp_ms. simpl. rewrite Hm.
    destruct ds as [s|s]; simpl in *.
    + destruct Hds as (_ & _ & _ & Hs & He & Hc & _).
      destruct (RuntimeFacts.crypto_at_start s) as [Hf Hp]; [lia|lia|].
      by repeat split.
    + destruct Hds as (_ & _ & Hs & He & Hc & _).
      destruct (RuntimeFacts.stock_at_start s) as [Hf Hp]; [lia|lia|].
      by repeat split.
  - intros Hm.
    rewrite RuntimeFacts.backtest_block_other_mode in Eb by done.
    injection Eb as <-. by split.
Qed.

(** The scenario: a crypto backtest from 1000 to 2000 on the default
    exchange; the runtime reads 1000 while the wall clock shows 999999. *)
Lemma X22_witness :
  exists rt,
    Runtime.create_strategy_runtime Fixture.fetch_ohlcv Fixture.exchange_known
      Fixture.history Fixture.date_str Fixture.upper unit (fun _ => true) "strategy-1"
      (fun _ _ _ => Returned tt) 2 Fixture.backtest_request None = Some (Returned rt) /\
    Runtime.get_current_timestamp_ms unit rt 999999 = 1000.
Proof.
  eexists. split; [reflexivity|].
  destruct (X22_created_runtime Fixture.fetch_ohlcv Fixture.exchange_known
              Fixture.history Fixture.date_str Fixture.upper unit (fun _ => true)
              "strategy-1" (fun _ _ _ => Returned tt) 2 Fixture.backtest_request
              None _ 999999 eq_refl) as (_ & H & _).
  destruct (H eq_refl) as (ds & a & b & _ & [= <-] & _ & _ & _ & _ & _ & _ & _ & Ht).
  exact Ht.
Defined.

(** X23.  A backtest that is not configured is refused.  In BACKTEST mode,
    when the start or the end is missing or is 0 (the epoch itself counts
    as missing), or when the start is not before the end,
    [create_strategy_runtime] raises, whatever the providers would answer
    and however little time a preload would be given. *)
Theorem X23_misconfigured_backtest_raises
    (fetch_ohlcv : string -> string -> Z -> nat -> B.fetch_reply)
    (exchange_known : string -> bool)
    (history : string -> string -> string -> string -> S.history_reply)
    (date_str : Z -> outcome string) (upper : string -> string)
    (Coordinator : Type) (gateway_created : UserRequest.t -> bool)
    (generated_id : string)
    (build_coordinator :
       UserRequest.t -> string -> option Runtime.data_source -> outcome Coordinator)
    (fuel : nat) (req : UserRequest.t) (strategy_id_override : option string) :
  ExchangeConfig.trading_mode (UserRequest.exchange_config req) = BACKTEST ->
  let start_ts := TradingConfig.backtest_start_ts (UserRequest.trading_config req) in
  let end_ts := TradingConfig.backtest_end_ts (UserRequest.trading_config req) in
  start_ts = None \/ start_ts = Some 0 \/ end_ts = None \/ end_ts = Some 0 \/
  (exists a b, start_ts = Some a /\ end_ts = Some b /\ b <= a) ->
  Runtime.create_strategy_runtime fetch_ohlcv exchange_known history date_str upper
    Coordinator gateway_created generated_id build_coordinator
    fuel req strategy_id_override = Some Raised.
Proof.
  intros Hm start_ts end_ts H. unfold Runtime.create_strategy_runtime.
  destruct (gateway_created req); [|done].
  by rewrite (RuntimeFacts.backtest_block_misconfigured _ _ _ _ _ fuel req Hm H).
Qed.

(** A backtest that starts at the epoch, time 0, is refused. *)
Lemma X23_witness :
  Runtime.create_strategy_runtime Fixture.fetch_ohlcv Fixture.exchange_known
    Fixture.history Fixture.date_str Fixture.upper unit (fun _ => true) "strategy-1"
    (fun _ _ _ => Returned tt) 0
    (UserRequest.mk (ExchangeConfig.mk None BACKTEST CRYPTO)
                    (TradingConfig.mk ["BTC-USDT"]%string (Some 0) (Some 2000)))
    None = Some Raised.
Proof.
  apply X23_misconfigured_backtest_raises; [reflexivity|]. right. by left.
Defined.

(** X24.  A provider that does not move on makes the preload hang.  If
    every page the exchange client sends is non-empty and ends before
    [end_ts] (a client that ignores [since] and repeats an early page, for
    one), the pagination loop of [_fetch_symbol] has no exit: on a known
    exchange with at least one symbol, [preload_data] is still running
    after any number of turns. *)
Theorem X24_stuck_provider_never_returns
    (fetch_ohlcv : string -> string -> Z -> nat -> B.fetch_reply)
    (exchange_known : string -> bool)
    (sc : B.State) (intervals : option (list string)) (fuel : nat) :
  (forall nsym itv since n, exists raw last_row,
     fetch_ohlcv nsym itv since n = B.FetchRows raw /\
     last raw = Some last_row /\ B.row_ts last_row < B._end_ts sc) ->
  B._is_preloaded sc = false ->
  exchange_known (B._exchange_id sc) = true ->
  B._symbols sc <> [] ->
  B.preload_data fetch_ohlcv exchange_known fuel sc intervals = None.
Proof. apply PreloadEdgeFacts.preload_data_stuck. Qed.

(** A provider that answers every request with the row of time 10, for a
    backtest that ends at 100. *)
Lemma X24_witness :
  B.preload_data (fun _ _ _ _ => B.FetchRows [Fixture.row 10])
    Fixture.exchange_known 1000 Fixture.crypto None = None.
Proof.
  apply X24_stuck_provider_never_returns.
  - intros nsym itv since n. eexists _, _. split; [reflexivity|].
    split; [reflexivity|]. simpl. lia.
  - reflexivity.
  - reflexivity.
  - discriminate.
Defined.

(** X25.  Failures that are not tolerated.  Unlike the failure of one
    symbol's fetch, an exchange id that the client library does not know
    makes [preload_data] of the crypto source raise as soon as there is a
    symbol to fetch, and a start or end that cannot be turned into a date
    makes [preload_data] of the stock source raise; in both cases the data
    source is left exactly as it was, not preloaded, so the call can be
    made again. *)
Theorem X25_preload_raises
    (fetch_ohlcv : string -> string -> Z -> nat -> B.fetch_reply)
    (exchange_known : string -> bool)
    (history : string -> string -> string -> string -> S.history_reply)
    (date_str : Z -> outcome string) (upper : string -> string)
    (sc : B.State) (ss : S.State) (fuel : nat)
    (intervals : option (list string)) :
  (B._is_preloaded sc = false -> exchange_known (B._exchange_id sc) = false ->
   B._symbols sc <> [] ->
   B.preload_data fetch_ohlcv exchange_known fuel sc intervals = Some (Raised, sc)) /\
  (S._is_preloaded ss = false ->
   date_str (S._start_ts ss) = Raised \/ date_str (S._end_ts ss) = Raised ->
   S.preload_data history date_str upper ss intervals = (Raised, ss)).
Proof.
  split.
  - apply PreloadEdgeFacts.preload_data_unknown_exchange.
  - apply PreloadEdgeFacts.stock_preload_data_bad_date.
Qed.

(** The scenario with an exchange that is not known, and with a range
    whose end is not a date. *)
Lemma X25_witness :
  B.preload_data Fixture.fetch_ohlcv (fun _ => false) 2 Fixture.crypto None
  = Some (Raised, Fixture.crypto) /\
  S.preload_data Fixture.history
    (fun t => if t =? 100 then Raised else Returned "1970-01-01"%string)
    Fixture.upper Fixture.stock None = (Raised, Fixture.stock).
Proof.
  destruct (X25_preload_raises Fixture.fetch_ohlcv (fun _ => false) Fixture.history
              (fun t => if t =? 100 then Raised else Returned "1970-01-01"%string)
              Fixture.upper Fixture.crypto Fixture.stock 2 None) as [Hc Hs].
  split; [apply Hc; [reflexivity|reflexivity|discriminate]
         |apply Hs; [reflexivity|by right]].
Defined.

(** X26.  The snapshot cache of the crypto source is never written: at
    every point of the life of a data source [_snapshot_cache] is empty.
    Snapshots are computed from the candle cache and the clock at each
    call. *)
Theorem X26_snapshot_cache_stays_empty
    (fetch_ohlcv : string -> string -> Z -> nat -> B.fetch_reply)
    (exchange_known : string -> bool)
    (exchange : string) (symbols : list string) (start_ts end_ts : Z)
    (ops : list B.op) (sc : B.State) :
  B.run fetch_ohlcv exchange_known
        (B.__init__ exchange symbols start_ts end_ts) ops sc ->
  B._snapshot_cache sc = ∅.
Proof.
  intros Hrun. by rewrite (PreloadEdgeFacts.run_snapshot_cache _ _ _ _ _ Hrun).
Qed.

(** The scenario, after its preload and 25 milliseconds. *)
Lemma X26_witness :
  B._snapshot_cache Fixture.crypto_at_25 = ∅ /\
  is_Some (B.get_market_snapshot Fixture.crypto_at_25 ["BTC-USDT"]%string
             !! "BTC-USDT"%string).
Proof.
  split; [|by eexists].
  apply (X26_snapshot_cache_stays_empty Fixture.fetch_ohlcv Fixture.exchange_known
           "okx" ["BTC-USDT"; "BAD-USDT"]%string 0 100
           [B.Preload None; B.AdvanceTime 25]).
  eapply B.run_cons; [apply (B.step_preload _ _ _ 2%nat _ (Returned tt)
                               Fixture.crypto_loaded); reflexivity|].
  eapply B.run_cons; [apply B.step_advance_time|]. apply B.run_nil.
Defined.

(** X27.  No price: every instruction gets a result (the call returns, it
    does not raise); when the order passes the market-hours check, the live
    lookup gives no price or one at or below zero, and the fallback from
    the price map is at or below zero too, the result is REJECTED with
    reason "no_price_data" and filled quantity 0; and a result carries that
    reason in this case only. *)
Theorem X27_no_price_data_exactly_when
    (now_eastern : nat -> datetime)
    (ticker_history : nat -> string -> outcome (list float))
    (ticker_fast_info : nat -> string -> outcome (option G.fast_info))
    (upper : string -> string)
    (derive_side_from_action : option string -> option TradeSide)
    (FeatureVector : Type)
    (extract_price_map : list FeatureVector -> gmap string float)
    (g : G.Gateway) (instructions : list TradeInstruction.t)
    (market_features : option (list FeatureVector))
    (k : nat) (inst : TradeInstruction.t) :
  instructions !! k = Some inst ->
  let sym := symbol (TradeInstruction.instrument inst) in
  let live := G._get_current_price ticker_history ticker_fast_info upper k sym in
  let fallback :=
    G.fallback_price (extract_price_map (default [] market_features)) sym in
  let no_price_at_all :=
    G.gate_passes now_eastern g k /\ G.no_price live = true /\
    PrimFloat.leb fallback 0%float = true in
  exists r,
    (G.execute now_eastern ticker_history ticker_fast_info upper
       derive_side_from_action FeatureVector extract_price_map
       g instructions market_features).2 !! k = Some r /\
    (no_price_at_all ->
     r = {| TxResult.instruction_id := TradeInstruction.instruction_id inst;
            TxResult.instrument := TradeInstruction.instrument inst;
            TxResult.side := G.resolve_side derive_side_from_action inst;
            TxResult.requested_qty := TradeInstruction.quantity inst;
            TxResult.filled_qty := 0%float;
            TxResult.avg_exec_price := None;
            TxResult.slippage_bps := None;
            TxResult.fee_cost := None;
            TxResult.leverage := None;
            TxResult.status := REJECTED;
            TxResult.reason := Some "no_price_data"%string;
            TxResult.meta := TradeInstruction.meta inst |}) /\
    (TxResult.reason r = Some "no_price_data"%string -> no_price_at_all).
Proof.
  intros Hk sym live fallback no_price_at_all.
  exists (G.execute_one now_eastern ticker_history ticker_fast_info upper
            derive_side_from_action g
            (extract_price_map (default [] market_features)) k inst).
  split; [by rewrite GatewayFacts.execute_lookup, Hk|]. split.
  - intros (Hg & Hl & Hf). apply GatewayFacts.execute_one_no_price; [done|].
    by apply GatewayFacts.reference_price_le0.
  - intros [Hg Hp]%GatewayFacts.execute_one_reason.
    apply GatewayFacts.reference_price_le0 in Hp as [Hl Hf]. by repeat split.
Qed.

(** The scenario: an order for a ticker with no live price and no entry in
    the price map is rejected for want of a price. *)
Lemma X27_witness :
  exists r,
    (G.execute Fixture.now_eastern Fixture.ticker_history Fixture.ticker_fast_info
       Fixture.upper Fixture.derive_side_from_action (string * float)
       Fixture.extract_price_map Fixture.gateway
       [Fixture.buy_unknown] None).2 !! 0%nat = Some r /\
    TxResult.status r = REJECTED /\
    TxResult.reason r = Some "no_price_data"%string.
Proof.
  destruct (X27_no_price_data_exactly_when
              Fixture.now_eastern Fixture.ticker_history Fixture.ticker_fast_info
              Fixture.upper Fixture.derive_side_from_action (string * float)
              Fixture.extract_price_map Fixture.gateway
              [Fixture.buy_unknown] None 0%nat Fixture.buy_unknown eq_refl)
    as (r & Hr & Hrej & _).
  exists r. split; [exact Hr|].
  rewrite Hrej; [by simpl|].
  split; [by right|]. split; reflexivity.
Defined.
